(** * The DeKUT chatbot: intent-classification pipeline

    A shallow embedding of [train.py] (class [SimpleIntentClassifier]) and
    [app.py] (class [SimpleDekutChatbot] and the [/chat] handler), together
    with the behaviour of the Python and scikit-learn operations they call.

    Conventions.
    - A Python [str] is the list of its Unicode code points.
    - A Python [float] is modelled by a rational number; rounding, [nan]
      and [inf] are outside the model.  The transcendental functions and the
      numerical optimiser are operations of an interface.
    - A Python exception is the [Raise] case of [result]; a [try]/[except]
      block is [try_except].
    - Standard output is a UTF-8 stream with the strict error handler.
      What is written to it is not part of the state: of a [print] call the
      model keeps whether it raises [UnicodeEncodeError].  The calls that
      print literals, numbers and the messages of exceptions cannot raise
      and are left out; the calls that print the text of a query or a tag
      are modelled.
    - Of the file system the model keeps the files, the directories and the
      paths that the process is not permitted to write.  Every file is
      readable; a full disk and other failures of the device are outside
      the model. *)

From Stdlib Require Import QArith Qround.
From stdpp Require Import gmap list sorting strings.

Local Open Scope nat_scope.

(** ** Python values *)

Module Py.

(** [str]: a sequence of code points. *)
Definition str := list N.

(** A literal of the source, written as an ASCII string. *)
Definition lit (s : string) : str :=
  map Ascii.N_of_ascii (String.list_ascii_of_string s).

(** [ch.isspace()] for a single code point: the code points with
    bidirectional class WS, B or S, or of category Zs. *)
Definition isspace (c : N) : bool :=
  ((9 <=? c) && (c <=? 13) || (28 <=? c) && (c <=? 32) ||
   (c =? 133) || (c =? 160) || (c =? 5760) ||
   (8192 <=? c) && (c <=? 8202) || (c =? 8232) || (c =? 8233) ||
   (c =? 8239) || (c =? 8287) || (c =? 12288))%N.

Fixpoint lstrip (s : str) : str :=
  match s with
  | c :: s' => if isspace c then lstrip s' else s
  | [] => []
  end.

Definition rstrip (s : str) : str := rev (lstrip (rev s)).

(** [s.strip()] *)
Definition strip (s : str) : str := rstrip (lstrip s).

(** The code points that UTF-8 encodes: all but the surrogates, U+D800 to
    U+DFFF. *)
Definition encodable (c : N) : bool :=
  negb ((55296 <=? c) && (c <=? 57343))%N.

(** A string that can be written to a UTF-8 stream. *)
Definition printable (s : str) : bool := forallb encodable s.

(** Truth value of a string: [not s] holds for the empty string only. *)
Definition not_ (s : str) : bool :=
  match s with [] => true | _ => false end.

(** [" ".join(parts)] and its generalisation to a separator. *)
Fixpoint join (sep : str) (parts : list str) : str :=
  match parts with
  | [] => []
  | [p] => p
  | p :: rest => p ++ sep ++ join sep rest
  end.

(** Comparison of strings, code point by code point ([s <= t]). *)
Fixpoint leb (s t : str) : bool :=
  match s, t with
  | [], _ => true
  | _ :: _, [] => false
  | a :: s', b :: t' =>
      if (a <? b)%N then true
      else if (a =? b)%N then leb s' t' else false
  end.

Definition le (s t : str) : Prop := leb s t = true.

#[export] Instance le_dec s t : Decision (le s t).
Proof. unfold le. apply _. Defined.

(** The operations of [str] that are driven by the Unicode character
    database: [s.lower()] and the class [\w] of the [re] module. *)
Class Unicode := {
  lower : str -> str;
  is_word : N -> bool
}.

(** Exceptions raised by the operations that are modelled. *)
Inductive exn :=
| ValueError
| IndexError
| KeyError
| AttributeError
| NotFittedError
| FileNotFoundError
| FileExistsError
| IsADirectoryError
| NotADirectoryError
| PermissionError
| UnicodeEncodeError
| UnpicklingError.

Inductive result (A : Type) :=
| Ok (a : A)
| Raise (e : exn).
Arguments Ok {A} a.
Arguments Raise {A} e.

Definition rbind {A B} (r : result A) (k : A -> result B) : result B :=
  match r with
  | Ok a => k a
  | Raise e => Raise e
  end.

(** [seq[i]] on a list; out of range raises [IndexError]. *)
Definition getitem {A} (l : list A) (i : nat) : result A :=
  match l !! i with
  | Some a => Ok a
  | None => Raise IndexError
  end.

(** Position of the first occurrence of [x] in [l]. *)
Fixpoint index_of `{EqDecision A} (x : A) (l : list A) : option nat :=
  match l with
  | [] => None
  | y :: l' => if decide (x = y) then Some 0 else S <$> index_of x l'
  end.

(** Number of occurrences, [l.count(x)]. *)
Definition count `{EqDecision A} (x : A) (l : list A) : nat :=
  length (filter (fun y => x = y) l).

(** The position in [concat ls] of the [k]-th element of the [j]-th list. *)
Definition offset {A} (ls : list (list A)) (j k : nat) : nat :=
  sum_list (map length (take j ls)) + k.

End Py.

Export Py.
Notation "x <-- r ;; k" := (rbind r (fun x => k))
  (at level 100, r at next level, right associativity, only parsing).

(** ** NumPy and scikit-learn

    The operations of the two libraries that [train.py] and [app.py] call,
    with the behaviour the libraries document for the arguments the source
    passes. *)

Module Sklearn.

(** A dense two-dimensional array; a sparse matrix is modelled by its dense
    contents. *)
Definition matrix := list (list Q).

(** [math.exp], [math.log] and [math.sqrt] on floats. *)
Class Libm := {
  fexp : Q -> Q;
  fln : Q -> Q;
  fsqrt : Q -> Q
}.

(** The pseudo-random generator of NumPy: [RandomState seed] is a freshly
    seeded generator, [permutation g n] shuffles [range(n)]. *)
Class NumpyRandom := {
  rng_state : Type;
  RandomState : Z -> rng_state;
  permutation : rng_state -> nat -> list nat * rng_state;
  permutation_perm : forall g n, (permutation g n).1 ≡ₚ seq 0 n
}.

(** The L-BFGS optimiser behind [LogisticRegression.fit]: from the
    iteration budget, the samples, the labels and the sorted classes to the
    coefficient rows and the intercepts. *)
Class Solver := {
  lbfgs : nat -> matrix -> list nat -> list nat -> matrix * list Q
}.

(** What [get_response] and [predict] expect of the objects they are given
    (the methods they call). *)
Class Vectorizer (V : Type) := {
  transform : V -> list str -> result matrix
}.

Class Classifier (C : Type) := {
  predict : C -> matrix -> result (list nat);
  predict_proba : C -> matrix -> result matrix
}.

Class LabelDecoder (L : Type) := {
  inverse_transform : L -> list nat -> result (list str)
}.

(** [[f(x) for x in l]] where [f] may raise. *)
Fixpoint rmap {A B} (f : A -> result B) (l : list A) : result (list B) :=
  match l with
  | [] => Ok []
  | x :: l' => y <-- f x;; ys <-- rmap f l';; Ok (y :: ys)
  end.

Definition Qmax (a b : Q) : Q := if Qle_bool a b then b else a.

(** [np.max(a)] over all the entries of a two-dimensional array. *)
Definition np_max (a : matrix) : result Q :=
  match concat a with
  | [] => Raise ValueError
  | x :: l => Ok (fold_left Qmax l x)
  end.

Fixpoint argmax_from (best_i : nat) (best : Q) (i : nat) (l : list Q) : nat :=
  match l with
  | [] => best_i
  | x :: l' =>
      if Qle_bool x best then argmax_from best_i best (S i) l'
      else argmax_from i x (S i) l'
  end.

(** [np.argmax]: the first position of the largest entry. *)
Definition argmax (l : list Q) : option nat :=
  match l with
  | [] => None
  | x :: l' => Some (argmax_from 0 x 1 l')
  end.

Definition Qsum (l : list Q) : Q := fold_right Qplus 0%Q l.

Definition dot (w x : list Q) : Q := Qsum (zip_with Qmult w x).

(** [a[idx]] for an index array produced by [permutation]. *)
Definition take_indices {A} (a : list A) (idx : list nat) : list A :=
  omap (fun i => a !! i) idx.

(** *** [sklearn.preprocessing.LabelEncoder] *)

(** Modelled from the spec: the Label Codec (scikit-learn's [LabelEncoder],
    whose code is not part of the sources).  Fitting assigns each distinct
    tag an integer code, its position among the sorted distinct tags;
    encoding a tag that was not seen and decoding a code out of range
    fail. *)
Record LabelEncoder := { classes_ : option (list str) }.

(** [np.unique] on an array of strings: sorted, without duplicates. *)
Definition unique_str (l : list str) : list str :=
  merge_sort Py.le (remove_dups l).

Definition unique_nat (l : list nat) : list nat :=
  merge_sort Nat.le (remove_dups l).

Definition encode (classes : list str) (tag : str) : result nat :=
  match index_of tag classes with
  | Some i => Ok i
  | None => Raise ValueError
  end.

(** [LabelEncoder().fit_transform(y)]: the fitted encoder and the codes. *)
Definition label_fit_transform (y : list str)
  : result (LabelEncoder * list nat) :=
  let classes := unique_str y in
  codes <-- rmap (encode classes) y;;
  Ok ({| classes_ := Some classes |}, codes).

Definition label_transform (le : LabelEncoder) (y : list str)
  : result (list nat) :=
  match classes_ le with
  | None => Raise NotFittedError
  | Some classes => rmap (encode classes) y
  end.

Definition label_inverse_transform (le : LabelEncoder) (codes : list nat)
  : result (list str) :=
  match classes_ le with
  | None => Raise NotFittedError
  | Some classes =>
      rmap (fun c => match classes !! c with
                     | Some tag => Ok tag
                     | None => Raise ValueError
                     end) codes
  end.

#[export] Instance LabelEncoder_decoder : LabelDecoder LabelEncoder :=
  {| inverse_transform := label_inverse_transform |}.

(** *** [sklearn.feature_extraction.text.TfidfVectorizer] *)

Record TfidfVectorizer := {
  max_features : option nat;
  ngram_range : nat * nat;
  (** [vocabulary_] (the terms in index order) and [idf_], once fitted *)
  fitted : option (list str * list Q)
}.

Section Analyzer.
Context `{Unicode}.

(** The maximal runs of [\w] characters of [s]; [cur] is the run being
    read, last character first. *)
Fixpoint word_runs (cur : str) (s : str) : list str :=
  match s with
  | [] => [rev cur]
  | c :: s' =>
      if is_word c then word_runs (c :: cur) s'
      else rev cur :: word_runs [] s'
  end.

(** The default [token_pattern], [(?u)\b\w\w+\b]: runs of two or more. *)
Definition tokenize (s : str) : list str :=
  filter (fun t => 2 <= length t) (word_runs [] s).

(** The windows of [n] consecutive tokens, joined by a space. *)
Fixpoint windows (n : nat) (tokens : list str) : list str :=
  match tokens with
  | [] => []
  | _ :: rest =>
      if n <=? length tokens
      then join (lit " ") (take n tokens) :: windows n rest
      else []
  end.

(** [_word_ngrams]: the n-grams for [min_n <= n <= max_n], shortest first. *)
Definition word_ngrams (range : nat * nat) (tokens : list str) : list str :=
  concat (map (fun n => windows n tokens)
              (seq (Nat.max 1 range.1) (S range.2 - Nat.max 1 range.1))).

(** [build_analyzer()]: lower-case, tokenize, form the n-grams. *)
Definition analyze (range : nat * nat) (doc : str) : list str :=
  word_ngrams range (tokenize (lower doc)).

(** [t] is a token of [doc], or two consecutive tokens of [doc] separated
    by a space. *)
Definition unigram_of (doc t : str) : Prop := t ∈ tokenize (lower doc).

Definition bigram_of (doc t : str) : Prop :=
  exists i a b,
    tokenize (lower doc) !! i = Some a /\
    tokenize (lower doc) !! S i = Some b /\
    t = a ++ lit " " ++ b.

End Analyzer.

(** Term frequency of [t] across the corpus, and its document frequency. *)
Definition term_frequency (docs : list (list str)) (t : str) : nat :=
  sum_list (map (count t) docs).

Definition document_frequency (docs : list (list str)) (t : str) : nat :=
  length (filter (fun d => t ∈ d) docs).

(** A term with its frequency ranks before another when its frequency is
    at least as large. *)
Definition ranks_before (a b : str * nat) : Prop := b.2 <= a.2.

#[export] Instance ranks_before_dec a b : Decision (ranks_before a b).
Proof. unfold ranks_before. apply _. Defined.

(** [_limit_features] with [max_features = k] (and the default [min_df],
    [max_df]): when there are more than [k] terms, their term frequencies
    are computed and the [k] terms of largest term frequency are kept, in
    the order they had.  NumPy's [argsort] does not fix the order of equal
    frequencies; here the sort decides. *)
Definition limit_features (k : nat) (docs : list (list str))
    (terms : list str) : list str :=
  if length terms <=? k then terms
  else
    let tfs := map (fun t => (t, term_frequency docs t)) terms in
    let kept := map fst (take k (merge_sort ranks_before tfs)) in
    filter (fun t => t ∈ kept) terms.

(** [a / ||a||] for the Euclidean norm; a zero row is left as it is. *)
Definition l2_normalize `{Libm} (row : list Q) : list Q :=
  let s := Qsum (map (fun x => x * x)%Q row) in
  if Qeq_bool s 0 then row else map (fun x => x / fsqrt s)%Q row.

(** The smoothed inverse document frequency of a term. *)
Definition idf `{Libm} (n_docs df : nat) : Q :=
  (fln (inject_Z (Z.of_nat (1 + n_docs)) / inject_Z (Z.of_nat (1 + df))) + 1)%Q.

Definition tfidf_row `{Libm} (vocabulary : list str) (idfs : list Q)
    (terms : list str) : list Q :=
  l2_normalize
    (zip_with (fun t w => inject_Z (Z.of_nat (count t terms)) * w)%Q
              vocabulary idfs).

(** The terms of the analysed documents, and the vocabulary that is kept
    of them: in alphabetical order, limited when [max_features] is set. *)
Definition corpus_terms (docs : list (list str)) : list str :=
  unique_str (concat docs).

Definition tfidf_vocabulary (limit : option nat) (docs : list (list str))
  : list str :=
  match limit with
  | Some k => limit_features k docs (corpus_terms docs)
  | None => corpus_terms docs
  end.

Section Tfidf.
Context `{Unicode} `{Libm}.

(** [fit_transform(raw_documents)]: the fitted vectorizer and the matrix.
    A corpus without terms, or one of which no term is kept, is rejected. *)
Definition tfidf_fit_transform (v : TfidfVectorizer) (raw : list str)
  : result (TfidfVectorizer * matrix) :=
  let docs := map (analyze (ngram_range v)) raw in
  if bool_decide (corpus_terms docs = []) then Raise ValueError
  else
    let vocabulary := tfidf_vocabulary (max_features v) docs in
    if bool_decide (vocabulary = []) then Raise ValueError
    else
      let idfs :=
        map (fun t => idf (length docs) (document_frequency docs t))
            vocabulary in
      Ok ({| max_features := max_features v;
             ngram_range := ngram_range v;
             fitted := Some (vocabulary, idfs) |},
          map (tfidf_row vocabulary idfs) docs).

Definition tfidf_transform (v : TfidfVectorizer) (raw : list str)
  : result matrix :=
  match fitted v with
  | None => Raise NotFittedError
  | Some (vocabulary, idfs) =>
      Ok (map (fun doc => tfidf_row vocabulary idfs
                            (analyze (ngram_range v) doc)) raw)
  end.

#[export] Instance TfidfVectorizer_vectorizer : Vectorizer TfidfVectorizer :=
  {| transform := tfidf_transform |}.

End Tfidf.

(** *** [sklearn.linear_model.LogisticRegression] *)

Record LogisticRegression := {
  max_iter : nat;
  lr_random_state : option Z;
  (** set by [fit] *)
  lr_classes_ : list nat;
  coef_ : matrix;
  intercept_ : list Q;
  n_features_in_ : nat
}.

Definition new_LogisticRegression (iters : nat) (seed : option Z)
  : LogisticRegression :=
  {| max_iter := iters; lr_random_state := seed; lr_classes_ := [];
     coef_ := []; intercept_ := []; n_features_in_ := 0 |}.

(** [fit(X, y)]: fewer than two classes are rejected; the optimiser gives
    the parameters. *)
Definition lr_fit `{Solver} (m : LogisticRegression) (X : matrix)
    (y : list nat) : result LogisticRegression :=
  if negb (length X =? length y) then Raise ValueError
  else
    let classes := unique_nat y in
    if length classes <? 2 then Raise ValueError
    else
      let '(coef, intercept) := lbfgs (max_iter m) X y classes in
      Ok {| max_iter := max_iter m; lr_random_state := lr_random_state m;
            lr_classes_ := classes; coef_ := coef; intercept_ := intercept;
            n_features_in_ := length (default [] (head X)) |}.

(** [decision_function] on one row: one score per coefficient row. *)
Definition decision_function (m : LogisticRegression) (row : list Q)
  : result (list Q) :=
  if length row =? n_features_in_ m
  then Ok (zip_with (fun w b => dot w row + b)%Q (coef_ m) (intercept_ m))
  else Raise ValueError.

(** [predict] on one row: the sign of the single score in the binary case,
    the arg-max of the scores otherwise. *)
Definition lr_predict_row (m : LogisticRegression) (row : list Q)
  : result nat :=
  scores <-- decision_function m row;;
  match scores with
  | [s] => getitem (lr_classes_ m) (if Qle_bool s 0 then 0 else 1)
  | _ =>
      match argmax scores with
      | Some i => getitem (lr_classes_ m) i
      | None => Raise ValueError
      end
  end.

Section Proba.
Context `{Libm}.

Definition expit (s : Q) : Q := (1 / (1 + fexp (- s)))%Q.

Definition softmax (scores : list Q) : list Q :=
  match scores with
  | [] => []
  | x :: l =>
      let top := fold_left Qmax l x in
      let e := map (fun s => fexp (s - top)%Q) scores in
      map (fun v => v / Qsum e)%Q e
  end.

(** [predict_proba] on one row: one probability per class. *)
Definition lr_predict_proba_row (m : LogisticRegression) (row : list Q)
  : result (list Q) :=
  scores <-- decision_function m row;;
  if length (lr_classes_ m) <=? 2 then
    match scores with
    | [s] => Ok [(1 - expit s)%Q; expit s]
    | _ =>
        let p := map expit scores in
        Ok (map (fun v => v / Qsum p)%Q p)
    end
  else
    match scores with
    | [s] => Ok (softmax [(- s)%Q; s])
    | _ => Ok (softmax scores)
    end.

#[export] Instance LogisticRegression_classifier
  : Classifier LogisticRegression :=
  {| predict := fun m X => rmap (lr_predict_row m) X;
     predict_proba := fun m X => rmap (lr_predict_proba_row m) X |}.

End Proba.

(** The shapes of the parameters of a fitted model: a single coefficient
    row and intercept for two classes, one of each per class for more. *)
Definition well_shaped (m : LogisticRegression) : Prop :=
  length (coef_ m) = length (intercept_ m) /\
  (length (lr_classes_ m) = 2 /\ length (coef_ m) = 1 \/
   3 <= length (lr_classes_ m) /\ length (coef_ m) = length (lr_classes_ m)).

(** A model bundle of one training run: the classifier takes as many
    features as the vocabulary has terms, and its classes are codes of the
    label encoder. *)
Definition bundle_consistent (vec : TfidfVectorizer) (enc : LabelEncoder)
    (clf : LogisticRegression) : Prop :=
  match fitted vec, classes_ enc with
  | Some (vocabulary, idfs), Some classes =>
      length idfs = length vocabulary /\
      n_features_in_ clf = length vocabulary /\
      well_shaped clf /\
      Forall (fun c => c < length classes) (lr_classes_ clf)
  | _, _ => False
  end.

(** *** [sklearn.model_selection.train_test_split] *)

Section Split.
Context `{NumpyRandom}.

(** [check_random_state]: an integer seeds a fresh generator, [None] is the
    process-wide generator. *)
Definition check_random_state (seed : option Z) (global : rng_state)
  : rng_state :=
  match seed with
  | Some s => RandomState s
  | None => global
  end.

(** The number of held-out samples for a fractional [test_size]. *)
Definition n_test_of (test_size : Q) (n : nat) : nat :=
  Z.to_nat (Qceiling (test_size * inject_Z (Z.of_nat n))).

(** [train_test_split(X, y, test_size, random_state)] with shuffling: the
    result is [(X_train, X_test, y_train, y_test)], and the process-wide
    generator is advanced only when no seed is given. *)
Definition train_test_split {A B} (X : list A) (y : list B) (test_size : Q)
    (random_state : option Z) (global : rng_state)
  : result (list A * list A * list B * list B) * rng_state :=
  let n := length X in
  if negb (n =? length y) then (Raise ValueError, global)
  else if Qle_bool test_size 0 || Qle_bool 1 test_size
  then (Raise ValueError, global)
  else
    let n_test := n_test_of test_size n in
    let n_train := n - n_test in
    if n_train =? 0 then (Raise ValueError, global)
    else
      let '(perm, g') :=
        permutation (check_random_state random_state global) n in
      let ind_test := take n_test perm in
      let ind_train := take n_train (drop n_test perm) in
      (Ok (take_indices X ind_train, take_indices X ind_test,
           take_indices y ind_train, take_indices y ind_test),
       match random_state with Some _ => global | None => g' end).

End Split.

(** [accuracy_score(y_true, y_pred)]: the fraction of equal entries. *)
Definition accuracy_score (y_true y_pred : list nat) : result Q :=
  if negb (length y_true =? length y_pred) then Raise ValueError
  else
    let hits :=
      length (filter (fun p : nat * nat => p.1 = p.2) (zip y_true y_pred)) in
    Ok (inject_Z (Z.of_nat hits) / inject_Z (Z.of_nat (length y_true)))%Q.

End Sklearn.

(** ** The process state and the effects of the two programs *)

Module Runtime.
Import Sklearn.

(** One record of [intents.json]. *)
Record Intent := {
  tag : str;
  patterns : list str;
  responses : list str
}.

(** The contents of the files the programs read and write: the parsed
    intents document and the serialised model objects. *)
Inductive file :=
| IntentsJson (intents : list Intent)
| PickledVectorizer (v : TfidfVectorizer)
| PickledLabelEncoder (e : LabelEncoder)
| JoblibClassifier (c : option LogisticRegression).

(** The calls that the prediction path makes on its collaborators. *)
Inductive event :=
| Transform (docs : list str)
| Predict (X : matrix)
| PredictProba (X : matrix)
| InverseTransform (codes : list nat)
| RandomChoice (seq : list str).

Section World.
Context `{NumpyRandom}.

Record World := {
  files : gmap str file;
  dirs : gset str;
  (** the paths that the process is not permitted to create or to open for
      writing *)
  read_only : gset str;
  (** the process-wide generator of NumPy *)
  np_global : rng_state;
  (** the generator of the [random] module: its future raw draws, and how
      many were consumed *)
  py_random : nat -> nat;
  py_cursor : nat;
  (** the collaborator calls made so far, oldest first *)
  calls : list event
}.

(** A computation that may raise and that reads and updates the state.  The
    state changes made before an exception is raised are kept. *)
Definition M (A : Type) : Type := World -> result A * World.

Definition ret {A} (a : A) : M A := fun w => (Ok a, w).

Definition bind {A B} (m : M A) (k : A -> M B) : M B :=
  fun w =>
    match m w with
    | (Ok a, w') => k a w'
    | (Raise e, w') => (Raise e, w')
    end.

Definition raise {A} (e : exn) : M A := fun w => (Raise e, w).

Definition lift {A} (r : result A) : M A := fun w => (r, w).

(** [try: body  except Exception as e: handler(e)] *)
Definition try_except {A} (body : M A) (handler : exn -> M A) : M A :=
  fun w =>
    match body w with
    | (Ok a, w') => (Ok a, w')
    | (Raise e, w') => handler e w'
    end.

Definition log (ev : event) : M unit :=
  fun w => (Ok (),
            {| files := files w; dirs := dirs w; read_only := read_only w;
               np_global := np_global w; py_random := py_random w;
               py_cursor := py_cursor w; calls := calls w ++ [ev] |}).

(** A call on a collaborator: recorded, then its result or exception. *)
Definition call {A} (ev : event) (r : result A) : M A :=
  bind (log ev) (fun _ => lift r).

(** The parts of the f-string that a [print] call formats: text (a literal,
    or the value of a string), and a number under a format specification,
    whose digits are ASCII. *)
Inductive piece :=
| Text (s : str)
| Number (x : Q).

Definition piece_printable (p : piece) : bool :=
  match p with
  | Text s => printable s
  | Number _ => true
  end.

(** [print(f"...")]: [UnicodeEncodeError] when the line cannot be encoded
    for standard output. *)
Definition print (line : list piece) : M unit :=
  fun w =>
    if forallb piece_printable line then (Ok (), w)
    else (Raise UnicodeEncodeError, w).

(** [random.choice(seq)]: [IndexError] on an empty sequence, otherwise the
    element at an index below [len(seq)] that the generator decides: here
    its next raw draw, reduced below [len(seq)].  How the indices are
    distributed is the generator's affair and is not modelled. *)
Definition random_choice (seq : list str) : M str :=
  bind (log (RandomChoice seq)) (fun _ w =>
    match seq with
    | [] => (Raise IndexError, w)
    | _ =>
        (getitem seq (py_random w (py_cursor w) mod length seq),
         {| files := files w; dirs := dirs w; read_only := read_only w;
            np_global := np_global w; py_random := py_random w;
            py_cursor := S (py_cursor w); calls := calls w |})
    end).

(** The state after [random.choice(seq)] returned an element. *)
Definition after_choice (seq : list str) (w : World) : World :=
  {| files := files w; dirs := dirs w; read_only := read_only w;
     np_global := np_global w; py_random := py_random w;
     py_cursor := S (py_cursor w); calls := calls w ++ [RandomChoice seq] |}.

(** [open(path)] for reading, followed by parsing. *)
Definition read_file (path : str) : M file :=
  fun w =>
    match files w !! path with
    | Some f => (Ok f, w)
    | None =>
        if bool_decide (path ∈ dirs w) then (Raise IsADirectoryError, w)
        else (Raise FileNotFoundError, w)
    end.

(** [os.path.exists(path)] *)
Definition path_exists (path : str) : M bool :=
  fun w => (Ok (bool_decide (path ∈ dirs w ∨ is_Some (files w !! path))), w).

(** [os.makedirs(path)] for a path of one component. *)
Definition makedirs (path : str) : M unit :=
  fun w =>
    if bool_decide (path ∈ dirs w ∨ is_Some (files w !! path))
    then (Raise FileExistsError, w)
    else if bool_decide (path ∈ read_only w) then (Raise PermissionError, w)
    else (Ok (),
          {| files := files w; dirs := {[path]} ∪ dirs w;
             read_only := read_only w; np_global := np_global w;
             py_random := py_random w; py_cursor := py_cursor w;
             calls := calls w |}).

(** [open(dir/name, 'wb')] followed by the dump of [content].  The open
    fails when [dir] is not a directory, when the path names a directory,
    and when the process may not write the path; otherwise the file is
    created or replaced. *)
Definition write_file (dir name : str) (content : file) : M unit :=
  fun w =>
    let path := dir ++ lit "/" ++ name in
    if bool_decide (dir ∈ dirs w) then
      if bool_decide (path ∈ dirs w) then (Raise IsADirectoryError, w)
      else if bool_decide (path ∈ read_only w) then (Raise PermissionError, w)
      else (Ok (),
            {| files := <[path := content]> (files w); dirs := dirs w;
               read_only := read_only w; np_global := np_global w;
               py_random := py_random w; py_cursor := py_cursor w;
               calls := calls w |})
    else if bool_decide (is_Some (files w !! dir))
    then (Raise NotADirectoryError, w)
    else (Raise FileNotFoundError, w).

(** The state [w] with other files and directories. *)
Definition on_disk (w : World) (fs : gmap str file) (ds : gset str) : World :=
  {| files := fs; dirs := ds; read_only := read_only w;
     np_global := np_global w; py_random := py_random w;
     py_cursor := py_cursor w; calls := calls w |}.

(** [train_test_split] run on the process-wide generator. *)
Definition split {A B} (X : list A) (y : list B) (test_size : Q)
    (random_state : option Z) : M (list A * list A * list B * list B) :=
  fun w =>
    let '(r, g) := train_test_split X y test_size random_state (np_global w) in
    (r, {| files := files w; dirs := dirs w; read_only := read_only w;
           np_global := g; py_random := py_random w; py_cursor := py_cursor w;
           calls := calls w |}).

End World.

(** An attribute holding [None] or an object: a method call on [None]
    raises [AttributeError]. *)
#[export] Instance option_classifier `{Classifier C} : Classifier (option C) :=
  {| predict := fun c X =>
       match c with Some c => predict c X | None => Raise AttributeError end;
     predict_proba := fun c X =>
       match c with
       | Some c => predict_proba c X
       | None => Raise AttributeError
       end |}.

End Runtime.

Notation "'let*' x ':=' m 'in' k" := (Runtime.bind m (fun x => k))
  (at level 10, x pattern, m at level 100, k at level 200, only parsing).

(** ** [train.py] *)

Module Train.
Import Sklearn Runtime.

(** The attributes of a [SimpleIntentClassifier]. *)
Record SimpleIntentClassifier {V L C : Type} := {
  intents_file : str;
  vectorizer : V;
  label_encoder : L;
  classifier : C
}.
Arguments SimpleIntentClassifier : clear implicits.

(** The class as [train] uses it: with scikit-learn's own objects. *)
Definition Trainer : Type :=
  SimpleIntentClassifier TfidfVectorizer LabelEncoder
                         (option LogisticRegression).

(** [__init__(intents_file)] *)
Definition init (file_name : str) : Trainer :=
  {| intents_file := file_name;
     vectorizer := {| max_features := Some 1000; ngram_range := (1, 2);
                      fitted := None |};
     label_encoder := {| classes_ := None |};
     classifier := None |}.

Section Methods.
Context `{Unicode} `{Libm} `{NumpyRandom} `{Solver}.

(** [load_intents]: the value of the key ['intents'] of the document. *)
Definition load_intents {V L C} (self : SimpleIntentClassifier V L C)
  : M (list Intent) :=
  let* f := read_file (intents_file self) in
  match f with
  | IntentsJson intents => ret intents
  | _ => raise ValueError
  end.

(** The two nested loops of [prepare_data], on the accumulators
    [(patterns, tags)]. *)
Definition prepare_intent (acc : list str * list str) (intent : Intent)
  : list str * list str :=
  fold_left (fun '(ps, ts) pattern => (ps ++ [lower pattern], ts ++ [tag intent]))
            (patterns intent) acc.

Definition prepare (intents : list Intent) : list str * list str :=
  fold_left prepare_intent intents ([], []).

(** What one intent contributes to the two lists: its lower-cased
    patterns, and its tag once per pattern. *)
Definition lowered (intent : Intent) : list str := map lower (patterns intent).

Definition tagged (intent : Intent) : list str :=
  replicate (length (patterns intent)) (tag intent).

Definition prepare_data {V L C} (self : SimpleIntentClassifier V L C)
  : M (list str * list str) :=
  let* data := load_intents self in
  ret (prepare data).

(** [save_model] *)
Definition save_model (self : Trainer) : M unit :=
  let* present := path_exists (lit "models") in
  let* _ := (if present then ret () else makedirs (lit "models")) in
  let* _ := write_file (lit "models") (lit "tfidf_vectorizer.pkl")
                       (PickledVectorizer (vectorizer self)) in
  let* _ := write_file (lit "models") (lit "label_encoder.pkl")
                       (PickledLabelEncoder (label_encoder self)) in
  write_file (lit "models") (lit "intent_classifier.joblib")
             (JoblibClassifier (classifier self)).

(** The three files of the model. *)
Definition model_files : list str :=
  [ lit "models/tfidf_vectorizer.pkl"; lit "models/label_encoder.pkl";
    lit "models/intent_classifier.joblib" ].

(** The states in which nothing stands in the way of [save_model]: the
    name [models] is a directory, or is free and may be created, and none
    of the three model files is a directory or barred from writing. *)
Definition writable (w : World) (path : str) : bool :=
  bool_decide (path ∉ dirs w) && bool_decide (path ∉ read_only w).

Definition savable (w : World) : bool :=
  (bool_decide (lit "models" ∈ dirs w)
   || bool_decide (files w !! lit "models" = None)
      && bool_decide (lit "models" ∉ read_only w))
  && forallb (writable w) model_files.

(** [train]: the accuracy it returns, and the object as the method leaves
    it. *)
Definition train (self : Trainer) : M (Trainer * Q) :=
  let* (patterns, tags) := prepare_data self in
  let* (vec, X) := lift (tfidf_fit_transform (vectorizer self) patterns) in
  let* (enc, y) := lift (label_fit_transform tags) in
  let* (X_train, X_test, y_train, y_test) :=
    split X y (1 # 5) (Some 42%Z) in
  let* clf :=
    lift (lr_fit (new_LogisticRegression 1000 (Some 42%Z)) X_train y_train) in
  let* y_pred := lift (predict clf X_test) in
  let* accuracy := lift (accuracy_score y_test y_pred) in
  let self' := {| intents_file := intents_file self; vectorizer := vec;
                  label_encoder := enc; classifier := Some clf |} in
  let* _ := save_model self' in
  ret (self', accuracy).

(** [predict(text)] *)
Definition predict `{Vectorizer V} `{LabelDecoder L} `{Classifier C}
    (self : SimpleIntentClassifier V L C) (text : str) : M (str * Q) :=
  let docs := [lower text] in
  let* X := call (Transform docs) (transform (vectorizer self) docs) in
  let* prediction := call (Predict X) (Sklearn.predict (classifier self) X) in
  let* proba := call (PredictProba X) (predict_proba (classifier self) X) in
  let* probability := lift (np_max proba) in
  let* intents :=
    call (InverseTransform prediction)
         (inverse_transform (label_encoder self) prediction) in
  let* intent := lift (getitem intents 0) in
  ret (intent, probability).

End Methods.

End Train.

(** ** [app.py] *)

Module App.
Import Sklearn Runtime.

(** The attributes of a [SimpleDekutChatbot]. *)
Record SimpleDekutChatbot {V L C : Type} := {
  intents_data : list Intent;
  vectorizer : V;
  label_encoder : L;
  classifier : C;
  tag_responses : gmap str (list str)
}.
Arguments SimpleDekutChatbot : clear implicits.

(** The loop that fills [tag_responses]: a later intent with the same tag
    replaces the entry of an earlier one. *)
Definition response_mapping (intents : list Intent) : gmap str (list str) :=
  fold_left (fun m intent => <[tag intent := responses intent]> m) intents ∅.

Definition fallbacks : list str :=
  [ lit "I'm not sure about that. Please visit https://dkut.ac.ke";
    lit "Could you rephrase your question?";
    lit "I'm still learning about that topic.";
    lit "Please contact admissions@dkut.ac.ke for more information." ].

Definition please_type : str := lit "Please type a question.".

Definition having_trouble : str :=
  lit "I'm having trouble understanding. Please try again.".

Definition please_enter : str := lit "Please enter a message.".

(** The body of a reply of the [/chat] route. *)
Record Reply := {
  response : str;
  success : option bool
}.

Section Methods.
Context `{Unicode} `{NumpyRandom}.

(** [__init__]: the handler of its [try] block prints and raises the
    exception again, so a failure of any step is a failure of [__init__].
    The three model files are read as what [save_model] writes to them: a
    vectorizer, a label encoder and a classifier.  ([pickle.load] would
    also return an object of another class, which Python notices only when
    the object is used; the attributes of the model are typed, and a state
    with such a file ends the model's [__init__] with [UnpicklingError], as
    a file that is no pickle at all does.) *)
Definition init
  : M (SimpleDekutChatbot TfidfVectorizer LabelEncoder
                          (option LogisticRegression)) :=
  let* f := read_file (lit "intents.json") in
  let* intents :=
    match f with IntentsJson l => ret l | _ => raise ValueError end in
  let* f := read_file (lit "models/tfidf_vectorizer.pkl") in
  let* vec :=
    match f with PickledVectorizer v => ret v | _ => raise UnpicklingError end in
  let* f := read_file (lit "models/label_encoder.pkl") in
  let* enc :=
    match f with
    | PickledLabelEncoder e => ret e
    | _ => raise UnpicklingError
    end in
  let* f := read_file (lit "models/intent_classifier.joblib") in
  let* clf :=
    match f with JoblibClassifier c => ret c | _ => raise UnpicklingError end in
  ret {| intents_data := intents; vectorizer := vec; label_encoder := enc;
         classifier := clf; tag_responses := response_mapping intents |}.

(** [probability > 0.5] *)
Definition above_threshold (probability : Q) : bool :=
  negb (Qle_bool probability (1 # 2)).

(** The sign U+1F3AF that opens the two lines printed by [get_response]. *)
Definition target : str := [127919%N].

(** [get_response(user_input)].  The handler of the [try] block prints the
    message of the exception, which is ASCII, and returns. *)
Definition get_response `{Vectorizer V} `{LabelDecoder L} `{Classifier C}
    (self : SimpleDekutChatbot V L C) (user_input : str) : M str :=
  if not_ (strip user_input) then ret please_type
  else
    try_except
      (let docs := [lower user_input] in
       let* X := call (Transform docs) (transform (vectorizer self) docs) in
       let* prediction :=
         call (Predict X) (predict (classifier self) X) in
       let* proba :=
         call (PredictProba X) (predict_proba (classifier self) X) in
       let* probability := lift (np_max proba) in
       let* intents :=
         call (InverseTransform prediction)
              (inverse_transform (label_encoder self) prediction) in
       let* intent := lift (getitem intents 0) in
       let* _ :=
         print [Text (target ++ lit " User: '"); Text user_input;
                Text (lit "'")] in
       let* _ :=
         print [Text (target ++ lit " Intent: "); Text intent;
                Text (lit " (confidence: "); Number probability;
                Text (lit ")")] in
       if above_threshold probability
          && bool_decide (is_Some (tag_responses self !! intent))
       then
         let* candidates :=
           lift (match tag_responses self !! intent with
                 | Some l => Ok l
                 | None => Raise KeyError
                 end) in
         random_choice candidates
       else random_choice fallbacks)
      (fun _ => ret having_trouble).

(** The two [print] calls of the [try] block of [get_response], for given
    values of [intent] and [probability]. *)
Definition announce (user_input intent : str) (probability : Q) : M unit :=
  let* _ :=
    print [Text (target ++ lit " User: '"); Text user_input; Text (lit "'")] in
  print [Text (target ++ lit " Intent: "); Text intent;
         Text (lit " (confidence: "); Number probability; Text (lit ")")].

(** The [if] statement that ends the [try] block of [get_response], for
    given values of [intent] and [probability]. *)
Definition select_response {V L C} (self : SimpleDekutChatbot V L C)
    (intent : str) (probability : Q) : M str :=
  if above_threshold probability
     && bool_decide (is_Some (tag_responses self !! intent))
  then
    let* candidates :=
      lift (match tag_responses self !! intent with
            | Some l => Ok l
            | None => Raise KeyError
            end) in
    random_choice candidates
  else random_choice fallbacks.

(** A [SimpleIntentClassifier] holding the three model objects of a
    chatbot. *)
Definition trainer_of {V L C} (self : SimpleDekutChatbot V L C)
  : Train.SimpleIntentClassifier V L C :=
  {| Train.intents_file := lit "intents.json";
     Train.vectorizer := vectorizer self;
     Train.label_encoder := label_encoder self;
     Train.classifier := classifier self |}.

(** The [/chat] route, on the JSON object of the request and the chatbot
    of the module. *)
Definition chat `{Vectorizer V} `{LabelDecoder L} `{Classifier C}
    (chatbot : SimpleDekutChatbot V L C) (json : gmap str str) : M Reply :=
  let user_message := strip (default [] (json !! lit "message")) in
  if not_ user_message
  then ret {| response := please_enter; success := None |}
  else
    let* r := get_response chatbot user_message in
    ret {| response := r; success := Some true |}.

End Methods.

End App.

(** ** [scraper.py] *)

Module Scraper.
Import Runtime.

(** A tag of a parsed page: its name and the text it contains. *)
Record Element := {
  name : str;
  text : str
}.

(** A heading found by [find_all], with the tags that follow it among its
    siblings, in document order (what [find_next_sibling] walks through). *)
Record Heading := {
  heading : Element;
  next_siblings : list Element
}.

(** One scraped record. *)
Record Faq := {
  question : str;
  answer : str;
  source : str
}.


(** The web as the scraper sees it: [session.get] followed by the parser
    gives the status code and the headings of the page, or raises. *)
Class Web := {
  fetch : str -> result (nat * list Heading)
}.

(** [list(set(l))]: the distinct elements of [l], in an order that the
    language does not fix. *)
Class SetOrder := {
  list_of_set : list str -> list str;
  list_of_set_NoDup : forall l, NoDup (list_of_set l);
  list_of_set_elem : forall l x, x ∈ list_of_set l <-> x ∈ l
}.

Definition heading_names : list str :=
  [lit "h1"; lit "h2"; lit "h3"; lit "h4"; lit "h5"; lit "h6"].

(** [sub in s] for strings. *)
Fixpoint starts_with (sub s : str) : bool :=
  match sub, s with
  | [], _ => true
  | _ :: _, [] => false
  | a :: sub', b :: s' => (a =? b)%N && starts_with sub' s'
  end.

Fixpoint contains (sub s : str) : bool :=
  starts_with sub s ||
  match s with
  | [] => false
  | _ :: s' => contains sub s'
  end.

(** [s.replace(old, new)] for a one-character [old]. *)
Definition replace_char (old : N) (new : str) (s : str) : str :=
  concat (map (fun c => if (c =? old)%N then new else [c]) s).

(** The [while] loop of [scrape_page]: the text of the paragraphs that
    follow the heading, up to the next heading, each followed by a space. *)
Fixpoint collect (content : str) (siblings : list Element) : str :=
  match siblings with
  | [] => content
  | el :: rest =>
      if bool_decide (name el ∈ heading_names) then content
      else if bool_decide (name el = lit "p")
      then collect (content ++ text el ++ lit " ") rest
      else collect content rest
  end.

Section Methods.
Context `{Unicode} `{Web} `{SetOrder}.

(** The body of the [for] loop of [scrape_page] for one heading: the record
    appended to [faqs], if any. *)
Definition scrape_heading (page_url : str) (keywords : list str)
    (h : Heading) : option Faq :=
  let heading_text := lower (strip (text (heading h))) in
  if existsb (fun keyword => contains keyword heading_text) keywords then
    let content := collect [] (next_siblings h) in
    if negb (not_ (strip content)) && (20 <? length content)
    then Some {| question := strip (text (heading h));
                 answer := take 300 (strip content);
                 source := page_url |}
    else None
  else None.

(** [scrape_page(page_url, keywords)]: every exception ends in the empty
    list. *)
Definition scrape_page (base_url page_url : str) (keywords : list str)
  : list Faq :=
  match fetch (base_url ++ page_url) with
  | Raise _ => []
  | Ok (status_code, headings) =>
      if negb (status_code =? 200) then []
      else omap (scrape_heading page_url keywords) headings
  end.

Definition base_url : str := lit "https://dkut.ac.ke".

Definition pages_to_scrape : list (str * list str) :=
  [ (lit "/admissions",
     [lit "admission"; lit "apply"; lit "requirement"; lit "deadline";
      lit "application"]);
    (lit "/fees-structure",
     [lit "fee"; lit "payment"; lit "tuition"; lit "cost"; lit "amount"]);
    (lit "/academic-programmes",
     [lit "program"; lit "course"; lit "degree"; lit "diploma";
      lit "certificate"]);
    (lit "/contact-us",
     [lit "contact"; lit "phone"; lit "email"; lit "address";
      lit "location"]) ].



(** What [scrape_all] gathers: the records of the four pages, in the order
    of the pages. *)
Definition scraped : list Faq :=
  concat (map (fun page => scrape_page base_url page.1 page.2)
              pages_to_scrape).

(** The five patterns that [update_intents] derives from a question. *)
Definition variations (q : str) : list str :=
  [ q;
    lower q;
    lit "what is " ++ replace_char 63 [] (lower q);
    lit "tell me about " ++ replace_char 63 [] (lower q);
    replace_char 63 (lit " please") q ].

(** The intent that [update_intents] builds from the scraped records. *)
Definition scraped_intent (faqs : list Faq) : Intent :=
  let '(ps, rs) :=
    fold_left (fun '(ps, rs) faq =>
                 (ps ++ variations (question faq), rs ++ [answer faq]))
              faqs ([], []) in
  {| tag := lit "scraped_faqs"; patterns := list_of_set ps; responses := rs |}.


End Methods.

End Scraper.

(** ** Instances of the interfaces, for running the programs on examples *)

Module Fixtures.
Import Sklearn Runtime.

(** [lower] and [\w] on ASCII text; other code points are left alone and
    are not word characters. *)
Definition ascii_lower (c : N) : N :=
  if ((65 <=? c) && (c <=? 90))%N then (c + 32)%N else c.

Definition ascii_word (c : N) : bool :=
  ((48 <=? c) && (c <=? 57) || (65 <=? c) && (c <=? 90) ||
   (97 <=? c) && (c <=? 122) || (c =? 95))%N.

#[export] Instance ascii_text : Unicode :=
  {| lower := map ascii_lower; is_word := ascii_word |}.

(** Coarse rational stand-ins for the transcendental functions. *)
Definition coarse_exp (x : Q) : Q :=
  if Qle_bool x (-4) then 0%Q
  else
    let y := (1 + x / 4)%Q in
    let y2 := (y * y)%Q in Qred (y2 * y2).

Definition coarse_ln (x : Q) : Q := Qred (2 * (x - 1) / (x + 1)).

Definition coarse_sqrt (x : Q) : Q :=
  let y := ((1 + x) / 2)%Q in Qred ((y + x / y) / 2).

#[export] Instance coarse_libm : Libm :=
  {| fexp := coarse_exp; fln := coarse_ln; fsqrt := coarse_sqrt |}.

(** A generator whose state is a counter: the shuffle reverses the range
    when the counter is odd. *)
Definition flip_permutation (g : Z) (n : nat) : list nat * Z :=
  (if Z.odd g then rev (seq 0 n) else seq 0 n, (g + 1)%Z).

Lemma flip_permutation_perm g n : (flip_permutation g n).1 ≡ₚ seq 0 n.
Proof.
  unfold flip_permutation; simpl. destruct (Z.odd g); [|done].
  symmetry. apply Permutation_rev.
Defined.

#[export] Instance flip_rng : NumpyRandom :=
  {| rng_state := Z; RandomState := fun seed => seed;
     permutation := flip_permutation;
     permutation_perm := flip_permutation_perm |}.

Definition vec_add (a b : list Q) : list Q := zip_with Qplus a b.

(** The sum of the rows of [X] labelled [c]. *)
Definition class_sum (X : matrix) (y : list nat) (width c : nat) : list Q :=
  fold_right vec_add (replicate width 0%Q)
             (map fst (filter (fun p : list Q * nat => p.2 = c) (zip X y))).

(** A one-step stand-in for the optimiser: each class is scored by the
    sum of its training rows (the difference of the two sums in the binary
    case), with zero intercepts. *)
Definition centroid_fit (_ : nat) (X : matrix) (y classes : list nat)
  : matrix * list Q :=
  let width := length (default [] (head X)) in
  match classes with
  | [c0; c1] =>
      ([zip_with Qminus (class_sum X y width c1) (class_sum X y width c0)],
       [0%Q])
  | _ => (map (class_sum X y width) classes, map (fun _ => 0%Q) classes)
  end.

#[export] Instance centroid_solver : Solver := {| lbfgs := centroid_fit |}.

(** An initial state: no files, the counter of the generator at [g], the
    raw draws [draws] for [random]. *)
Definition world0 (fs : gmap str file) (g : Z) (draws : nat -> nat) : World :=
  {| files := fs; dirs := ∅; read_only := ∅; np_global := g;
     py_random := draws; py_cursor := 0; calls := [] |}.

(** A corpus with 1001 distinct terms.  Two long documents of 250 distinct
    three-letter words each, three copies of both: 998 unigrams and bigrams
    that occur three times, in three documents.  The word "aa" occurs four
    times in one document (and the bigram "aa aa" three times); the word
    "bb" occurs once in each of two documents. *)
Definition word3 (i : nat) : str :=
  [N.of_nat (97 + i / 676); N.of_nat (97 + (i / 26) mod 26);
   N.of_nat (97 + i mod 26)].

Definition long_doc (first n : nat) : str :=
  join (lit " ") (map word3 (seq first n)).

Definition crowded_corpus : list str :=
  [ long_doc 0 250; long_doc 0 250; long_doc 0 250;
    long_doc 250 250; long_doc 250 250; long_doc 250 250;
    lit "aa aa aa aa"; lit "bb"; lit "bb" ].

(** A small corpus; the first intent answers with one of the messages that
    [get_response] also uses as a fallback. *)
Definition demo_intents : list Intent :=
  [ {| tag := lit "faq"; patterns := [lit "Question"; lit "help me"];
       responses := [lit "Could you rephrase your question?"] |};
    {| tag := lit "fees";
       patterns := [lit "how much are fees"; lit "tuition cost"];
       responses := [lit "Fees are posted on the finance page."] |};
    {| tag := lit "greeting"; patterns := [lit "hi"; lit "Hello"];
       responses := [lit "Hello!"; lit "Hi there!"] |} ].

(** A state whose [intents.json] holds the small corpus. *)
Definition corpus_world : World :=
  world0 {[ lit "intents.json" := IntentsJson demo_intents ]} 0%Z (fun _ => 1).

(** A later state: the model directory exists and holds a stale label
    encoder, and the process-wide generator has moved on. *)
Definition retrain_world : World :=
  {| files := {[ lit "intents.json" := IntentsJson demo_intents;
                 lit "models/label_encoder.pkl"
                   := PickledLabelEncoder {| classes_ := Some [] |} ]};
     dirs := {[ lit "models" ]}; read_only := ∅; np_global := 7%Z;
     py_random := fun n => n; py_cursor := 3; calls := [] |}.

(** A state in which a directory stands where [save_model] writes the
    label encoder. *)
Definition blocked_world : World :=
  {| files := {[ lit "intents.json" := IntentsJson demo_intents ]};
     dirs := {[ lit "models"; lit "models/label_encoder.pkl" ]};
     read_only := ∅; np_global := 0%Z; py_random := fun _ => 1;
     py_cursor := 0; calls := [] |}.

Definition demo_vectorizer : TfidfVectorizer :=
  {| max_features := Some 1000; ngram_range := (1, 2);
     fitted := Some ([lit "fees"; lit "hello"], [1%Q; 1%Q]) |}.

Definition demo_encoder : LabelEncoder :=
  {| classes_ := Some [lit "faq"; lit "fees"; lit "greeting"] |}.

(** A three-class model that scores a row by its two features; with zero
    intercepts it cannot tell the classes apart on a zero row. *)
Definition demo_classifier : LogisticRegression :=
  {| max_iter := 1000; lr_random_state := Some 42%Z; lr_classes_ := [0; 1; 2];
     coef_ := [[0; 0]; [3; 0]; [0; 3]]%Q; intercept_ := [0; 0; 0]%Q;
     n_features_in_ := 2 |}.

Definition demo_bot
  : App.SimpleDekutChatbot TfidfVectorizer LabelEncoder
                           (option LogisticRegression) :=
  {| App.intents_data := demo_intents;
     App.vectorizer := demo_vectorizer;
     App.label_encoder := demo_encoder;
     App.classifier := Some demo_classifier;
     App.tag_responses := App.response_mapping demo_intents |}.

(** The same chatbot with a classifier attribute that holds [None]. *)
Definition broken_bot
  : App.SimpleDekutChatbot TfidfVectorizer LabelEncoder
                           (option LogisticRegression) :=
  {| App.intents_data := demo_intents;
     App.vectorizer := demo_vectorizer;
     App.label_encoder := demo_encoder;
     App.classifier := None;
     App.tag_responses := App.response_mapping demo_intents |}.

(** A state in which every raw draw of [random] is [1]. *)
Definition demo_world : World := world0 ∅ 0%Z (fun _ => 1).

(** A chatbot whose intents file gives the greeting no response, and one
    whose intents file no longer has the greeting. *)
Definition silent_intents : list Intent :=
  [ {| tag := lit "greeting"; patterns := [lit "hi"; lit "Hello"];
       responses := [] |} ].

Definition silent_bot
  : App.SimpleDekutChatbot TfidfVectorizer LabelEncoder
                           (option LogisticRegression) :=
  {| App.intents_data := silent_intents;
     App.vectorizer := demo_vectorizer;
     App.label_encoder := demo_encoder;
     App.classifier := Some demo_classifier;
     App.tag_responses := App.response_mapping silent_intents |}.


(** Corpora that cannot be trained on: one whose patterns have no token,
    one with a single tag. *)
Definition tokenless_world : World :=
  world0 {[ lit "intents.json"
            := IntentsJson [ {| tag := lit "short"; patterns := [lit "a"; lit "?"];
                                responses := [lit "Yes."] |} ] ]}
         0%Z (fun _ => 1).

Definition single_tag_world : World :=
  world0 {[ lit "intents.json"
            := IntentsJson [ {| tag := lit "greeting";
                                patterns := [lit "hi there"; lit "hello";
                                             lit "good morning"];
                                responses := [lit "Hello!"] |} ] ]}
         0%Z (fun _ => 1).

(** [list(set(l))] in the order in which [remove_dups] leaves the elements. *)
#[export] Instance dedup_order : Scraper.SetOrder :=
  {| Scraper.list_of_set := remove_dups;
     Scraper.list_of_set_NoDup := NoDup_remove_dups;
     Scraper.list_of_set_elem := fun l x => elem_of_remove_dups l x |}.

(** A web on which the fees page has two headings, the contact page cannot
    be reached and the other pages are not found. *)
Definition fees_page : list Scraper.Heading :=
  [ {| Scraper.heading := {| Scraper.name := lit "h2";
                             Scraper.text := lit " Tuition Fees? " |};
       Scraper.next_siblings :=
         [ {| Scraper.name := lit "p";
              Scraper.text := lit " Fees are paid per semester." |};
           {| Scraper.name := lit "div"; Scraper.text := lit "banner" |};
           {| Scraper.name := lit "p";
              Scraper.text := lit "See the finance office." |};
           {| Scraper.name := lit "h2"; Scraper.text := lit "Other" |};
           {| Scraper.name := lit "p"; Scraper.text := lit "never read" |} ] |};
    {| Scraper.heading := {| Scraper.name := lit "h3";
                             Scraper.text := lit "Payment" |};
       Scraper.next_siblings :=
         [ {| Scraper.name := lit "p"; Scraper.text := lit "By bank." |} ] |} ].

#[export] Instance demo_web : Scraper.Web :=
  {| Scraper.fetch := fun url =>
       if bool_decide (url = lit "https://dkut.ac.ke/fees-structure")
       then Ok (200, fees_page)
       else if bool_decide (url = lit "https://dkut.ac.ke/contact-us")
       then Raise ValueError
       else Ok (404, []) |}.


End Fixtures.

(** * Properties *)

Import Sklearn Runtime.

(** [map] of the Standard Library is stdpp's [fmap] on lists. *)
Ltac to_fmap :=
  repeat match goal with
         | |- context [map ?f ?l] => change (map f l) with (f <$> l)
         | H : context [map ?f ?l] |- _ => change (map f l) with (f <$> l) in H
         end.

(** ** Strings *)

Lemma lstrip_nil_iff s : lstrip s = [] <-> forallb isspace s = true.
Proof.
  induction s as [|c s IH]; simpl; [done|].
  destruct (isspace c); simpl; [done|]. split; discriminate.
Qed.

Lemma lstrip_head s c s' : lstrip s = c :: s' -> isspace c = false.
Proof.
  induction s as [|a s IH]; simpl; [discriminate|].
  destruct (isspace a) eqn:Ha; [done|]. congruence.
Qed.

Lemma forallb_rev {A} (f : A -> bool) l : forallb f (rev l) = forallb f l.
Proof.
  induction l as [|a l IH]; simpl; [done|].
  rewrite forallb_app, IH. simpl. destruct (f a), (forallb f l); done.
Qed.

(** [s.strip()] is empty exactly when [s] is made of white space only. *)
Lemma strip_nil_iff s : strip s = [] <-> forallb isspace s = true.
Proof.
  unfold strip, rstrip. split.
  - intros Hs. apply (f_equal (@rev N)) in Hs. rewrite rev_involutive in Hs.
    simpl in Hs. apply lstrip_nil_iff in Hs. rewrite forallb_rev in Hs.
    destruct (lstrip s) as [|c s'] eqn:E; [by apply lstrip_nil_iff|].
    apply lstrip_head in E. simpl in Hs. by rewrite E in Hs.
  - intros Hs. apply lstrip_nil_iff in Hs. by rewrite Hs.
Qed.

Lemma not_strip_blank s : forallb isspace s = true -> not_ (strip s) = true.
Proof. intros Hs. apply strip_nil_iff in Hs. by rewrite Hs. Qed.

Lemma strip_idempotent_blank s : strip s = [] -> strip (strip s) = [].
Proof. by intros ->. Qed.

(** ** The response path of [app.py] *)

Section Response.
Context `{Unicode} `{NumpyRandom}.
Context `{Vectorizer V} `{LabelDecoder L} `{Classifier C}.
Implicit Types (bot : App.SimpleDekutChatbot V L C) (q : str) (w : World).

(** The two lines that [get_response] prints can be written when the
    query and the tag can; otherwise the first line that cannot raises
    [UnicodeEncodeError].  The state is not changed. *)
Lemma announce_cases q (intent : str) (p : Q) w :
  App.announce q intent p w =
  (if printable q && printable intent then Ok () else Raise UnicodeEncodeError,
   w).
Proof.
  unfold App.announce, bind, print. cbn [forallb piece_printable].
  change (printable (App.target ++ lit " User: '")) with true.
  change (printable (lit "'")) with true.
  change (printable (App.target ++ lit " Intent: ")) with true.
  change (printable (lit " (confidence: ")) with true.
  change (printable (lit ")")) with true.
  cbn [andb]. rewrite !andb_true_r.
  destruct (printable q); [|done]. by destruct (printable intent).
Qed.

(** On a query that is not blank, [get_response] is its [try] block: the
    steps of [predict], the two printed lines, then the selection, under
    the handler. *)
Lemma get_response_steps bot q w :
  not_ (strip q) = false ->
  App.get_response bot q w =
  try_except
    (let* (intent, probability) := Train.predict (App.trainer_of bot) q in
     let* _ := App.announce q intent probability in
     App.select_response bot intent probability)
    (fun _ => ret App.having_trouble) w.
Proof.
  intros Hq. unfold App.get_response. rewrite Hq.
  unfold try_except, Train.predict, App.select_response, App.announce,
    bind, call, lift, ret.
  simpl.
  destruct (transform _ _) as [X|]; simpl; [|done].
  destruct (predict _ _) as [prediction|]; simpl; [|done].
  destruct (predict_proba _ _) as [proba|]; simpl; [|done].
  destruct (np_max _) as [probability|]; simpl; [|done].
  destruct (inverse_transform _ _) as [intents|]; simpl; [|done].
  destruct (getitem _ _) as [intent|]; [|done].
  destruct (print _ _) as [[[]|] w1]; [|done].
  by destruct (print _ _) as [[[]|] w2].
Qed.

(** Once the prediction has returned: the selection when the query and the
    tag can be printed, the "having trouble" message when they cannot. *)
Lemma get_response_predicted bot q w intent p w1 :
  not_ (strip q) = false ->
  Train.predict (App.trainer_of bot) q w = (Ok (intent, p), w1) ->
  App.get_response bot q w =
  if printable q && printable intent
  then try_except (App.select_response bot intent p)
                  (fun _ => ret App.having_trouble) w1
  else (Ok App.having_trouble, w1).
Proof.
  intros Hq Hp. rewrite (get_response_steps _ _ _ Hq).
  unfold try_except, bind at 1. rewrite Hp.
  unfold bind. rewrite announce_cases.
  by destruct (printable q && printable intent).
Qed.

Lemma random_choice_nonempty (seq : list str) w :
  seq <> [] ->
  exists r, seq !! (py_random w (py_cursor w) mod length seq) = Some r /\
            random_choice seq w = (Ok r, after_choice seq w).
Proof.
  intros Hne.
  assert (Hlt : py_random w (py_cursor w) mod length seq < length seq).
  { apply Nat.mod_upper_bound. destruct seq; [done|]. simpl. lia. }
  destruct (lookup_lt_is_Some_2 _ _ Hlt) as [r Hr]. exists r. split; [done|].
  unfold random_choice, bind, log. simpl.
  destruct seq as [|a seq']; [done|]. unfold getitem.
  simpl py_random. simpl py_cursor. rewrite Hr. done.
Qed.

Lemma random_choice_empty w :
  random_choice [] w =
  (Raise IndexError,
   {| files := files w; dirs := dirs w; read_only := read_only w;
               np_global := np_global w;
      py_random := py_random w; py_cursor := py_cursor w;
      calls := calls w ++ [RandomChoice []] |}).
Proof. done. Qed.

Lemma above_threshold_true p : (1 # 2 < p)%Q -> App.above_threshold p = true.
Proof.
  intros Hp. unfold App.above_threshold.
  destruct (Qle_bool p (1 # 2)) eqn:E; [|done].
  apply Qle_bool_iff in E. exfalso. eapply Qlt_not_le; eauto.
Qed.




End Response.

Section ResponseClaims.
Context `{Unicode} `{NumpyRandom}.
Context `{Vectorizer V} `{LabelDecoder L} `{Classifier C}.
Implicit Types (bot : App.SimpleDekutChatbot V L C) (q : str) (w : World).

(** C3.  On a query that is empty or made of white space only,
    [get_response] returns the fixed prompt "Please type a question." and
    leaves the state as it was: no call is made on the vectorizer, the
    classifier, the label encoder or [random.choice], and nothing is
    raised.  The [/chat] route answers a blank or missing message with its
    own fixed prompt, likewise without calling [get_response]. *)
Theorem blank_query_prompt bot q w :
  forallb isspace q = true ->
  App.get_response bot q w = (Ok App.please_type, w) /\
  (forall json : gmap str str,
     default [] (json !! lit "message") = q ->
     App.chat bot json w =
     (Ok {| App.response := App.please_enter; App.success := None |}, w)).
Proof.
  intros Hq. split.
  - unfold App.get_response. by rewrite (not_strip_blank _ Hq).
  - intros json Hj. unfold App.chat. rewrite Hj.
    by rewrite (not_strip_blank _ Hq).
Qed.

(** C2.  [get_response] returns a response string on every input and
    never raises; when the steps of feature extraction and prediction
    raise, the response is "I'm having trouble understanding. Please try
    again." *)
Theorem get_response_never_raises bot q w :
  (exists r w', App.get_response bot q w = (Ok r, w')) /\
  (forall e w',
     not_ (strip q) = false ->
     Train.predict (App.trainer_of bot) q w = (Raise e, w') ->
     App.get_response bot q w = (Ok App.having_trouble, w')).
Proof.
  split.
  - destruct (not_ (strip q)) eqn:Hq.
    + exists App.please_type, w. unfold App.get_response. by rewrite Hq.
    + rewrite (get_response_steps _ _ _ Hq). unfold try_except.
      destruct (bind _ _ w) as [[r|e] w']; [by exists r, w'|].
      by exists App.having_trouble, w'.
  - intros e w' Hq Hp. rewrite (get_response_steps _ _ _ Hq).
    unfold try_except, bind. by rewrite Hp.
Qed.

(** C9.  For a [SimpleIntentClassifier] and a [SimpleDekutChatbot] that
    share the vectorizer, the label encoder and the classifier, the steps
    that [get_response] runs on a query (lower-case, transform, predict,
    maximum of predict_proba, inverse_transform) are the computation
    [predict]: the same calls, the same exception if one is raised, and the
    same pair (intent, probability).  The [try] block of [get_response] is
    [predict], followed by the two lines printed for the query and the pair
    and by the selection of the response for the pair. *)
Theorem predict_matches_get_response
    (self : Train.SimpleIntentClassifier V L C) bot q w :
  Train.vectorizer self = App.vectorizer bot ->
  Train.label_encoder self = App.label_encoder bot ->
  Train.classifier self = App.classifier bot ->
  not_ (strip q) = false ->
  App.get_response bot q w =
  try_except
    (let* (intent, probability) := Train.predict self q in
     let* _ := App.announce q intent probability in
     App.select_response bot intent probability)
    (fun _ => ret App.having_trouble) w.
Proof.
  intros Hv Hl Hc Hq. rewrite (get_response_steps _ _ _ Hq).
  unfold try_except, bind at 1. unfold bind at 2.
  unfold Train.predict. simpl. by rewrite Hv, Hl, Hc.
Qed.


End ResponseClaims.

(** *** The response path on the example chatbot *)

Section ResponseExamples.
Import Fixtures.

(** A query of a space, a tab and a no-break space is blank. *)
Lemma blank_query_prompt_witness :
  App.get_response demo_bot [32; 9; 160]%N demo_world
    = (Ok App.please_type, demo_world) /\
  (forall json : gmap str str,
     default [] (json !! lit "message") = [32; 9; 160]%N ->
     App.chat demo_bot json demo_world =
     (Ok {| App.response := App.please_enter; App.success := None |},
      demo_world)).
Proof.
  apply (blank_query_prompt demo_bot [32; 9; 160]%N demo_world).
  vm_compute. reflexivity.
Defined.

(** With no classifier loaded, the prediction raises [AttributeError] and
    the user is told that the chatbot has trouble understanding. *)
Lemma get_response_never_raises_witness :
  exists w',
    Train.predict (App.trainer_of broken_bot) (lit "Hello") demo_world
      = (Raise AttributeError, w') /\
    App.get_response broken_bot (lit "Hello") demo_world
      = (Ok App.having_trouble, w').
Proof.
  eexists. split; [vm_compute; reflexivity|].
  apply (proj2 (get_response_never_raises broken_bot (lit "Hello") demo_world)
               AttributeError); vm_compute; reflexivity.
Defined.

Lemma predict_matches_get_response_witness :
  App.get_response demo_bot (lit "Hello") demo_world =
  try_except
    (let* (intent, probability) :=
       Train.predict (App.trainer_of demo_bot) (lit "Hello") in
     let* _ := App.announce (lit "Hello") intent probability in
     App.select_response demo_bot intent probability)
    (fun _ => ret App.having_trouble) demo_world.
Proof.
  apply (predict_matches_get_response (App.trainer_of demo_bot) demo_bot);
    vm_compute; reflexivity.
Defined.



(** A query that holds a lone surrogate cannot be printed: the prediction
    succeeds, the first [print] raises, and the answer is the "having
    trouble" message. *)
Lemma lone_surrogate_trouble :
  exists intent p w1,
    Train.predict (App.trainer_of demo_bot) [55296%N] demo_world
      = (Ok (intent, p), w1) /\
    App.get_response demo_bot [55296%N] demo_world
      = (Ok App.having_trouble, w1).
Proof. eexists _, _, _. split; vm_compute; reflexivity. Qed.

End ResponseExamples.

(** ** Data preparation in [train.py] *)

Section Concat.
Context {A : Type}.
Implicit Types (ls : list (list A)).

Lemma lookup_concat_offset ls j k l x :
  ls !! j = Some l -> l !! k = Some x -> concat ls !! offset ls j k = Some x.
Proof.
  unfold offset. revert j. induction ls as [|l0 ls IH]; intros j Hj Hk.
  - by rewrite lookup_nil in Hj.
  - destruct j as [|j]; simpl in *.
    + inversion Hj; subst. by rewrite lookup_app_l by (by eapply lookup_lt_Some).
    + rewrite lookup_app_r by lia.
      replace (length l0 + sum_list (map length (take j ls)) + k - length l0)
        with (sum_list (map length (take j ls)) + k) by lia.
      by apply IH.
Qed.

Lemma lookup_concat_inv ls i x :
  concat ls !! i = Some x ->
  exists j k l, ls !! j = Some l /\ l !! k = Some x /\ i = offset ls j k.
Proof.
  unfold offset. revert i. induction ls as [|l0 ls IH]; intros i Hi; simpl in *.
  - by rewrite lookup_nil in Hi.
  - destruct (decide (i < length l0)) as [Hlt|Hge].
    + rewrite lookup_app_l in Hi by done. by exists 0, i, l0.
    + rewrite lookup_app_r in Hi by lia.
      destruct (IH _ Hi) as (j & k & l & Hj & Hk & Heq).
      exists (S j), k, l. simpl. split_and!; [done|done|lia].
Qed.

End Concat.

Section Prepare.
Context `{Unicode} `{NumpyRandom}.

Lemma prepare_intent_app ps ts intent :
  Train.prepare_intent (ps, ts) intent
  = (ps ++ Train.lowered intent, ts ++ Train.tagged intent).
Proof.
  unfold Train.prepare_intent, Train.lowered, Train.tagged.
  generalize (tag intent) as t. intros t. revert ps ts.
  induction (patterns intent) as [|p l IH]; intros ps ts; simpl.
  - by rewrite !app_nil_r.
  - rewrite IH. by rewrite <- !app_assoc.
Qed.

Lemma prepare_fold ps ts intents :
  fold_left Train.prepare_intent intents (ps, ts)
  = (ps ++ concat (map Train.lowered intents), ts ++ concat (map Train.tagged intents)).
Proof.
  revert ps ts. induction intents as [|it intents IH]; intros ps ts; simpl.
  - by rewrite !app_nil_r.
  - rewrite prepare_intent_app, IH. by rewrite <- !app_assoc.
Qed.

Lemma prepare_concat intents :
  Train.prepare intents
  = (concat (map Train.lowered intents), concat (map Train.tagged intents)).
Proof. unfold Train.prepare. by rewrite prepare_fold. Qed.

Lemma offset_contributions intents j k :
  offset (map Train.lowered intents) j k = offset (map Train.tagged intents) j k.
Proof.
  unfold offset. f_equal. to_fmap. rewrite <- !fmap_take, <- !list_fmap_compose.
  f_equal. apply list_fmap_ext. intros ? it _. unfold Train.lowered, Train.tagged. simpl.
  by rewrite length_map, length_replicate.
Qed.

(** C10.  When the intents file holds a corpus, [prepare_data] returns the
    lists [patterns] and [tags] of equal length; [patterns] is the
    lower-cased patterns of the intents in corpus order and [tags] repeats
    each intent's tag, unchanged, once per pattern; so the pattern at a
    position was contributed by an intent exactly when the tag at that
    position is that intent's tag. *)
Theorem prepare_data_pairs {V L C}
    (self : Train.SimpleIntentClassifier V L C) (w : World) intents :
  files w !! Train.intents_file self = Some (IntentsJson intents) ->
  exists ps ts,
    Train.prepare_data self w = (Ok (ps, ts), w) /\
    length ps = length ts /\
    ps = concat (map (fun it => map lower (patterns it)) intents) /\
    ts = concat (map (fun it => replicate (length (patterns it)) (tag it))
                     intents) /\
    (forall j k it raw,
       intents !! j = Some it -> patterns it !! k = Some raw ->
       ps !! offset (map patterns intents) j k = Some (lower raw) /\
       ts !! offset (map patterns intents) j k = Some (tag it)) /\
    (forall i p t,
       ps !! i = Some p -> ts !! i = Some t ->
       exists j k it raw,
         intents !! j = Some it /\ patterns it !! k = Some raw /\
         i = offset (map patterns intents) j k /\
         p = lower raw /\ t = tag it).
Proof.
  intros Hfile.
  assert (Hoff : forall j k,
             offset (map patterns intents) j k = offset (map Train.lowered intents) j k).
  { intros j k. unfold offset. f_equal. to_fmap.
    rewrite <- !fmap_take, <- !list_fmap_compose.
    f_equal. apply list_fmap_ext. intros ? it _. unfold Train.lowered. simpl.
    by rewrite length_map. }
  assert (Hfwd : forall j k it raw,
             intents !! j = Some it -> patterns it !! k = Some raw ->
             concat (map Train.lowered intents) !! offset (map patterns intents) j k
               = Some (lower raw) /\
             concat (map Train.tagged intents) !! offset (map patterns intents) j k
               = Some (tag it)).
  { intros j k it raw Hj Hk. rewrite Hoff. split.
    - apply lookup_concat_offset with (l := Train.lowered it).
      + to_fmap. by rewrite list_lookup_fmap, Hj.
      + unfold Train.lowered. to_fmap. by rewrite list_lookup_fmap, Hk.
    - rewrite offset_contributions.
      apply lookup_concat_offset with (l := Train.tagged it).
      + to_fmap. by rewrite list_lookup_fmap, Hj.
      + unfold Train.tagged. apply lookup_replicate_2. by eapply lookup_lt_Some. }
  exists (concat (map Train.lowered intents)), (concat (map Train.tagged intents)).
  split_and!; try done.
  - unfold Train.prepare_data, Train.load_intents, bind, read_file, ret.
    rewrite Hfile. by rewrite prepare_concat.
  - rewrite !length_concat. f_equal. to_fmap. rewrite <- !list_fmap_compose.
    apply list_fmap_ext. intros ? it _. unfold Train.lowered, Train.tagged.
    simpl. by rewrite length_map, length_replicate.
  - intros i p t Hp Ht.
    destruct (lookup_concat_inv _ _ _ Hp) as (j & k & l & Hj & Hk & ->).
    to_fmap. rewrite list_lookup_fmap in Hj.
    destruct (intents !! j) as [it|] eqn:Hit; [|done].
    simpl in Hj. inversion Hj; subst l. unfold Train.lowered in Hk.
    to_fmap. rewrite list_lookup_fmap in Hk.
    destruct (patterns it !! k) as [raw|] eqn:Hraw; [|done].
    simpl in Hk. inversion Hk; subst p.
    destruct (Hfwd j k it raw Hit Hraw) as [_ Ht'].
    rewrite Hoff in Ht'. rewrite Ht' in Ht. inversion Ht.
    exists j, k, it, raw. by rewrite Hoff.
Qed.

End Prepare.

Section PrepareExamples.
Import Fixtures.

(** The small corpus gives six samples; the fifth is "hi", a greeting. *)
Lemma prepare_data_pairs_witness :
  exists ps ts,
    Train.prepare_data (Train.init (lit "intents.json")) corpus_world
      = (Ok (ps, ts), corpus_world) /\
    length ps = 6 /\ length ts = 6 /\
    ps !! 4 = Some (lit "hi") /\ ts !! 4 = Some (lit "greeting").
Proof.
  destruct (prepare_data_pairs (Train.init (lit "intents.json"))
              corpus_world demo_intents)
    as (ps & ts & Hrun & _ & -> & -> & _); [vm_compute; reflexivity|].
  eexists _, _. split; [exact Hrun|]. vm_compute. done.
Defined.

End PrepareExamples.

(** ** The label codec *)

Section Codec.

Lemma rmap_ok {A B} (f : A -> result B) (g : A -> B) (l : list A) :
  (forall x, x ∈ l -> f x = Ok (g x)) -> rmap f l = Ok (map g l).
Proof.
  induction l as [|a l IH]; intros Hf; simpl; [done|].
  rewrite (Hf a) by apply list_elem_of_here. simpl.
  rewrite IH; [done|]. intros x Hx. apply Hf. by apply list_elem_of_further.
Qed.

Lemma index_of_lookup {A} `{EqDecision A} (x : A) l i :
  index_of x l = Some i -> l !! i = Some x.
Proof.
  revert i. induction l as [|y l IH]; intros i; simpl; [done|].
  destruct (decide (x = y)) as [->|Hne].
  - by intros [= <-].
  - destruct (index_of x l) as [j|]; simpl; [|done].
    intros [= <-]. simpl. by apply IH.
Qed.

Lemma index_of_elem {A} `{EqDecision A} (x : A) l :
  x ∈ l -> exists i, index_of x l = Some i.
Proof.
  induction l as [|y l IH]; intros Hx; simpl.
  - by apply elem_of_nil in Hx.
  - destruct (decide (x = y)) as [->|Hne]; [by exists 0|].
    apply elem_of_cons in Hx as [?|Hx]; [done|].
    destruct (IH Hx) as [i ->]. by exists (S i).
Qed.

Lemma elem_of_unique_str (x : str) l : x ∈ unique_str l <-> x ∈ l.
Proof.
  unfold unique_str. rewrite merge_sort_Permutation. apply elem_of_remove_dups.
Qed.

(** Every tag the codec was fitted on has a code, and the code decodes to
    the tag. *)
Lemma encode_decode (tags : list str) (tag : str) :
  tag ∈ tags ->
  exists code,
    encode (unique_str tags) tag = Ok code /\
    unique_str tags !! code = Some tag.
Proof.
  intros Hin. apply elem_of_unique_str in Hin.
  destruct (index_of_elem _ _ Hin) as [i Hi].
  exists i. unfold encode. rewrite Hi. split; [done|].
  by apply index_of_lookup.
Qed.

(** C4.  Fitting on a sequence of tags succeeds; for every tag of the
    sequence, encoding it gives a code and decoding that code gives the tag
    back.  So do the codes that [fit_transform] returns for the whole
    sequence, which [train] learns from and [get_response] decodes. *)
Theorem label_codec_round_trip (tags : list str) :
  exists enc codes,
    label_fit_transform tags = Ok (enc, codes) /\
    label_inverse_transform enc codes = Ok tags /\
    forall tag, tag ∈ tags ->
      exists code,
        label_transform enc [tag] = Ok [code] /\
        label_inverse_transform enc [code] = Ok [tag].
Proof.
  unfold label_fit_transform.
  set (classes := unique_str tags).
  pose (code_of := fun t => default 0 (index_of t classes)).
  assert (Henc : forall t, t ∈ tags -> encode classes t = Ok (code_of t) /\
                                       classes !! code_of t = Some t).
  { intros t Ht. destruct (encode_decode tags t Ht) as (c & Hc & Hl).
    fold classes in Hc, Hl. unfold code_of. unfold encode in Hc |- *.
    destruct (index_of t classes) as [i|]; [|done].
    simpl. inversion Hc; subst. done. }
  exists {| classes_ := Some classes |}, (map code_of tags).
  rewrite (rmap_ok _ code_of) by (intros t Ht; by apply Henc). simpl.
  split; [done|]. split.
  - unfold label_inverse_transform. simpl.
    assert (Hgo : forall l, (forall t, t ∈ l -> t ∈ tags) ->
              rmap (fun c => match classes !! c with
                             | Some tag => Ok tag
                             | None => Raise ValueError
                             end) (map code_of l) = Ok l).
    { induction l as [|t l IH]; intros Hl; simpl; [done|].
      destruct (Henc t) as [_ ->]; [apply Hl, list_elem_of_here|]. simpl.
      rewrite IH; [done|]. intros u Hu. by apply Hl, list_elem_of_further. }
    by apply Hgo.
  - intros t Ht. destruct (Henc t Ht) as [He Hl]. exists (code_of t).
    unfold label_transform, label_inverse_transform. simpl.
    rewrite He. simpl. by rewrite Hl.
Qed.

(** The codec fitted on the tags of three samples takes "fees" to a code
    and back. *)
Lemma label_codec_round_trip_witness :
  exists enc codes code,
    label_fit_transform [lit "greeting"; lit "fees"; lit "greeting"]
      = Ok (enc, codes) /\
    label_transform enc [lit "fees"] = Ok [code] /\
    label_inverse_transform enc [code] = Ok [lit "fees"].
Proof.
  destruct (label_codec_round_trip [lit "greeting"; lit "fees"; lit "greeting"])
    as (enc & codes & Hfit & _ & Hrt).
  destruct (Hrt (lit "fees")) as (code & Henc & Hdec).
  { apply list_elem_of_further, list_elem_of_here. }
  by exists enc, codes, code.
Defined.

End Codec.

(** ** Training and persistence in [train.py] *)

Section Persistence.
Context `{Unicode} `{Libm} `{NumpyRandom} `{Solver}.

Lemma model_paths_distinct :
  lit "models" ++ lit "/" ++ lit "tfidf_vectorizer.pkl"
    <> lit "models" ++ lit "/" ++ lit "label_encoder.pkl" /\
  lit "models" ++ lit "/" ++ lit "tfidf_vectorizer.pkl"
    <> lit "models" ++ lit "/" ++ lit "intent_classifier.joblib" /\
  lit "models" ++ lit "/" ++ lit "label_encoder.pkl"
    <> lit "models" ++ lit "/" ++ lit "intent_classifier.joblib".
Proof. split_and!; vm_compute; discriminate. Qed.

Lemma on_disk_same (w : World) : on_disk w (files w) (dirs w) = w.
Proof. by destruct w. Qed.

(** [write_file] creates or replaces the file when the directory exists and
    the path is neither a directory nor barred; otherwise it raises and
    changes nothing. *)
Lemma write_file_cases (dir name : str) (content : file) (w : World) :
  let path := dir ++ lit "/" ++ name in
  (dir ∈ dirs w /\ (path ∉ dirs w) /\ (path ∉ read_only w) /\
   write_file dir name content w
   = (Ok (), on_disk w (<[path := content]> (files w)) (dirs w))) \/
  (~ (dir ∈ dirs w /\ (path ∉ dirs w) /\ (path ∉ read_only w)) /\
   exists e, write_file dir name content w = (Raise e, w)).
Proof.
  intros path. unfold write_file. fold path.
  repeat case_bool_decide; try (right; split; [tauto|eauto]).
  left. done.
Qed.

Lemma savable_spec (w : World) :
  Train.savable w = true <->
  (lit "models" ∈ dirs w \/
   files w !! lit "models" = None /\ (lit "models" ∉ read_only w)) /\
  (forall name,
     name ∈ [lit "tfidf_vectorizer.pkl"; lit "label_encoder.pkl";
             lit "intent_classifier.joblib"] ->
     (lit "models" ++ lit "/" ++ name ∉ dirs w) /\
     (lit "models" ++ lit "/" ++ name ∉ read_only w)).
Proof.
  unfold Train.savable, Train.model_files, Train.writable.
  cbn [forallb].
  rewrite !andb_true_iff, orb_true_iff, andb_true_iff, !bool_decide_eq_true.
  split.
  - intros (Hm & (? & ?) & (? & ?) & (? & ?) & _). split; [done|].
    intros name Hn.
    repeat (apply elem_of_cons in Hn as [->|Hn]; [done|]).
    by apply elem_of_nil in Hn.
  - intros (Hm & Hall). split; [done|].
    split_and!; try done;
      match goal with
      | |- lit ?p ∉ _ =>
        first [ apply (Hall (lit "tfidf_vectorizer.pkl"))
              | apply (Hall (lit "label_encoder.pkl"))
              | apply (Hall (lit "intent_classifier.joblib")) ];
        set_solver
      end.
Qed.

(** The three writes of [save_model], in a state where [models] is a
    directory: they stop at the first file that cannot be opened. *)
Lemma three_writes (self : Train.Trainer) (w : World) :
  lit "models" ∈ dirs w ->
  let f1 := <[lit "models" ++ lit "/" ++ lit "tfidf_vectorizer.pkl"
                := PickledVectorizer (Train.vectorizer self)]> (files w) in
  let f2 := <[lit "models" ++ lit "/" ++ lit "label_encoder.pkl"
                := PickledLabelEncoder (Train.label_encoder self)]> f1 in
  let f3 := <[lit "models" ++ lit "/" ++ lit "intent_classifier.joblib"
                := JoblibClassifier (Train.classifier self)]> f2 in
  let writes :=
    let* _ := write_file (lit "models") (lit "tfidf_vectorizer.pkl")
                         (PickledVectorizer (Train.vectorizer self)) in
    let* _ := write_file (lit "models") (lit "label_encoder.pkl")
                         (PickledLabelEncoder (Train.label_encoder self)) in
    write_file (lit "models") (lit "intent_classifier.joblib")
               (JoblibClassifier (Train.classifier self)) in
  ((forall name,
      name ∈ [lit "tfidf_vectorizer.pkl"; lit "label_encoder.pkl";
              lit "intent_classifier.joblib"] ->
      (lit "models" ++ lit "/" ++ name ∉ dirs w) /\
      (lit "models" ++ lit "/" ++ name ∉ read_only w)) /\
   writes w = (Ok (), on_disk w f3 (dirs w))) \/
  (~ (forall name,
        name ∈ [lit "tfidf_vectorizer.pkl"; lit "label_encoder.pkl";
                lit "intent_classifier.joblib"] ->
        (lit "models" ++ lit "/" ++ name ∉ dirs w) /\
        (lit "models" ++ lit "/" ++ name ∉ read_only w)) /\
   exists e fs,
     writes w = (Raise e, on_disk w fs (dirs w)) /\
     (fs = files w \/ fs = f1 \/ fs = f2)).
Proof.
  intros Hdir f1 f2 f3 writes. unfold writes, bind. subst f1 f2 f3.
  destruct (write_file_cases (lit "models") (lit "tfidf_vectorizer.pkl")
              (PickledVectorizer (Train.vectorizer self)) w)
    as [(_ & Hd1 & Hr1 & ->)|(Hno & e & ->)].
  2:{ right. split.
      - intros Hall. apply Hno. split; [done|]. apply Hall. set_solver.
      - exists e, (files w). rewrite on_disk_same. eauto. }
  cbv beta iota.
  match goal with
  | |- context [write_file ?d ?n ?c (on_disk ?w0 ?fs ?ds)] =>
    destruct (write_file_cases d n c (on_disk w0 fs ds))
      as [(_ & Hd2 & Hr2 & ->)|(Hno & e & ->)]
  end.
  2:{ right. split.
      - intros Hall. apply Hno. split; [done|]. apply Hall. set_solver.
      - eexists e, _. eauto. }
  cbv beta iota.
  match goal with
  | |- context [write_file ?d ?n ?c (on_disk ?w0 ?fs ?ds)] =>
    destruct (write_file_cases d n c (on_disk w0 fs ds))
      as [(_ & Hd3 & Hr3 & ->)|(Hno & e & ->)]
  end.
  2:{ right. split.
      - intros Hall. apply Hno. split; [done|]. apply Hall. set_solver.
      - eexists e, _. eauto. }
  left. split; [|done]. intros name Hn.
  repeat (apply elem_of_cons in Hn as [->|Hn]; [done|]).
  by apply elem_of_nil in Hn.
Qed.

(** [save_model]: the directory is created when the name is free, then
    the three files are written. *)
Lemma save_model_unfold (self : Train.Trainer) (w : World) :
  let writes :=
    let* _ := write_file (lit "models") (lit "tfidf_vectorizer.pkl")
                         (PickledVectorizer (Train.vectorizer self)) in
    let* _ := write_file (lit "models") (lit "label_encoder.pkl")
                         (PickledLabelEncoder (Train.label_encoder self)) in
    write_file (lit "models") (lit "intent_classifier.joblib")
               (JoblibClassifier (Train.classifier self)) in
  Train.save_model self w =
  if bool_decide (lit "models" ∈ dirs w ∨ is_Some (files w !! lit "models"))
  then writes w
  else if bool_decide (lit "models" ∈ read_only w)
  then (Raise PermissionError, w)
  else writes (on_disk w (files w) ({[lit "models"]} ∪ dirs w)).
Proof.
  intros writes. unfold Train.save_model. unfold bind at 1. unfold path_exists.
  unfold bind at 1.
  destruct (bool_decide (lit "models" ∈ dirs w ∨ _)) eqn:Hex; [reflexivity|].
  unfold makedirs. rewrite Hex.
  destruct (bool_decide (lit "models" ∈ read_only w)); reflexivity.
Qed.

(** [save_model] returns exactly in the states where nothing stands in its
    way, and has then written the three files.  In the other states it
    raises, with the files as they were or with the files written before
    the one that could not be opened. *)
Lemma save_model_cases (self : Train.Trainer) (w : World) :
  let f1 := <[lit "models" ++ lit "/" ++ lit "tfidf_vectorizer.pkl"
                := PickledVectorizer (Train.vectorizer self)]> (files w) in
  let f2 := <[lit "models" ++ lit "/" ++ lit "label_encoder.pkl"
                := PickledLabelEncoder (Train.label_encoder self)]> f1 in
  let f3 := <[lit "models" ++ lit "/" ++ lit "intent_classifier.joblib"
                := JoblibClassifier (Train.classifier self)]> f2 in
  (Train.savable w = true /\
   Train.save_model self w
   = (Ok (), on_disk w f3 ({[lit "models"]} ∪ dirs w))) \/
  (Train.savable w = false /\
   exists e fs ds,
     Train.save_model self w = (Raise e, on_disk w fs ds) /\
     (fs = files w \/ fs = f1 \/ fs = f2)).
Proof.
  intros f1 f2 f3.
  assert (Hnot : forall b, b <> true -> b = false) by (by intros [|]).
  rewrite save_model_unfold.
  destruct (decide (lit "models" ∈ dirs w)) as [Hin|Hout].
  - rewrite bool_decide_eq_true_2 by (by left).
    assert (Hsame : {[lit "models"]} ∪ dirs w = dirs w) by set_solver.
    rewrite Hsame.
    destruct (three_writes self w Hin) as [(Hall & ->)|(Hno & e & fs & -> & Hfs)].
    + left. split; [|done]. apply savable_spec. split; [by left|done].
    + right. split.
      * apply Hnot. intros (_ & Hall)%savable_spec. done.
      * exists e, fs, (dirs w). split; [reflexivity|exact Hfs].
  - destruct (files w !! lit "models") as [f|] eqn:Hf.
    { rewrite bool_decide_eq_true_2 by (right; eauto).
      right. split.
      - apply Hnot. intros ([?|[? _]] & _)%savable_spec; [done|congruence].
      - unfold bind.
        destruct (write_file_cases (lit "models") (lit "tfidf_vectorizer.pkl")
                    (PickledVectorizer (Train.vectorizer self)) w)
          as [(? & _)|(_ & e & ->)]; [done|].
        exists e, (files w), (dirs w). rewrite on_disk_same. eauto. }
    rewrite bool_decide_eq_false_2 by (intros [?|[? ?]]; [done|discriminate]).
    destruct (decide (lit "models" ∈ read_only w)) as [Hro|Hrw].
    { rewrite bool_decide_eq_true_2 by done. right. split.
      - apply Hnot. intros ([?|[_ ?]] & _)%savable_spec; done.
      - exists PermissionError, (files w), (dirs w). rewrite on_disk_same.
        eauto. }
    rewrite bool_decide_eq_false_2 by done.
    assert (Hnew : forall name,
              name ∈ [lit "tfidf_vectorizer.pkl"; lit "label_encoder.pkl";
                      lit "intent_classifier.joblib"] ->
              lit "models" ++ lit "/" ++ name ∉ {[lit "models"]} ∪ dirs w
              <-> lit "models" ++ lit "/" ++ name ∉ dirs w).
    { intros name Hn.
      assert (lit "models" ++ lit "/" ++ name <> lit "models").
      { intros Heq. apply (f_equal length) in Heq.
        rewrite !length_app in Heq. simpl in Heq. lia. }
      set_solver. }
    destruct (three_writes self (on_disk w (files w) ({[lit "models"]} ∪ dirs w)))
      as [(Hall & Hw)|(Hno & e & fs & Hw & Hfs)]; [set_solver|..].
    + left. split.
      * apply savable_spec. split; [by right|]. intros name Hn.
        destruct (Hall name Hn) as [Hd Hr]. split; [by apply Hnew|done].
      * exact Hw.
    + right. split.
      * apply Hnot. intros (_ & Hall)%savable_spec. apply Hno.
        intros name Hn. destruct (Hall name Hn) as [Hd Hr].
        split; [by apply Hnew|done].
      * exists e, fs, ({[lit "models"]} ∪ dirs w).
        split; [exact Hw|exact Hfs].
Qed.

(** [save_model] writes the three objects in every state where nothing
    stands in its way; it creates the directory when it is missing, and
    touches nothing but the files and the directory. *)
Lemma save_model_writes (self : Train.Trainer) (w : World) :
  Train.savable w = true ->
  exists w',
    Train.save_model self w = (Ok (), w') /\
    files w' =
      <[lit "models" ++ lit "/" ++ lit "intent_classifier.joblib"
          := JoblibClassifier (Train.classifier self)]>
        (<[lit "models" ++ lit "/" ++ lit "label_encoder.pkl"
             := PickledLabelEncoder (Train.label_encoder self)]>
           (<[lit "models" ++ lit "/" ++ lit "tfidf_vectorizer.pkl"
                := PickledVectorizer (Train.vectorizer self)]> (files w))) /\
    np_global w' = np_global w /\ py_cursor w' = py_cursor w /\
    calls w' = calls w.
Proof.
  intros Hok.
  destruct (save_model_cases self w) as [(_ & ->)|(Hno & _)]; [|congruence].
  eexists. split; [done|]. done.
Qed.

(** The files that [save_model] leaves, read back. *)
Lemma model_files_lookup (fs : gmap str file) (v e c : file) :
  let fs' :=
    <[lit "models" ++ lit "/" ++ lit "intent_classifier.joblib" := c]>
      (<[lit "models" ++ lit "/" ++ lit "label_encoder.pkl" := e]>
         (<[lit "models" ++ lit "/" ++ lit "tfidf_vectorizer.pkl" := v]> fs)) in
  fs' !! lit "models/tfidf_vectorizer.pkl" = Some v /\
  fs' !! lit "models/label_encoder.pkl" = Some e /\
  fs' !! lit "models/intent_classifier.joblib" = Some c /\
  (forall path,
     path <> lit "models/tfidf_vectorizer.pkl" ->
     path <> lit "models/label_encoder.pkl" ->
     path <> lit "models/intent_classifier.joblib" ->
     fs' !! path = fs !! path).
Proof.
  intros fs'. destruct model_paths_distinct as (H12 & H13 & H23).
  unfold fs'. split_and!.
  - change (lit "models/tfidf_vectorizer.pkl")
      with (lit "models" ++ lit "/" ++ lit "tfidf_vectorizer.pkl").
    rewrite lookup_insert_ne by done. rewrite lookup_insert_ne by done.
    by rewrite lookup_insert_eq.
  - change (lit "models/label_encoder.pkl")
      with (lit "models" ++ lit "/" ++ lit "label_encoder.pkl").
    rewrite lookup_insert_ne by done. by rewrite lookup_insert_eq.
  - change (lit "models/intent_classifier.joblib")
      with (lit "models" ++ lit "/" ++ lit "intent_classifier.joblib").
    by rewrite lookup_insert_eq.
  - intros path Hp1 Hp2 Hp3. by rewrite !lookup_insert_ne.
Qed.

(** The steps of [train] up to the state in which it calls [save_model]:
    the split may only have replaced the process-wide generator. *)
Lemma train_steps (self : Train.Trainer) (w : World) :
  Train.train self w =
  match files w !! Train.intents_file self with
  | None =>
      (Raise (if bool_decide (Train.intents_file self ∈ dirs w)
              then IsADirectoryError else FileNotFoundError), w)
  | Some (IntentsJson intents) =>
      match tfidf_fit_transform (Train.vectorizer self)
                                (Train.prepare intents).1 with
      | Raise e => (Raise e, w)
      | Ok (vec, X) =>
          match label_fit_transform (Train.prepare intents).2 with
          | Raise e => (Raise e, w)
          | Ok (enc, y) =>
              let '(r, g) :=
                train_test_split X y (1 # 5) (Some 42%Z) (np_global w) in
              let w1 := {| files := files w; dirs := dirs w;
                           read_only := read_only w; np_global := g;
                           py_random := py_random w; py_cursor := py_cursor w;
                           calls := calls w |} in
              match r with
              | Raise e => (Raise e, w1)
              | Ok (X_train, X_test, y_train, y_test) =>
                  match lr_fit (new_LogisticRegression 1000 (Some 42%Z))
                               X_train y_train with
                  | Raise e => (Raise e, w1)
                  | Ok clf =>
                      match predict clf X_test with
                      | Raise e => (Raise e, w1)
                      | Ok y_pred =>
                          match accuracy_score y_test y_pred with
                          | Raise e => (Raise e, w1)
                          | Ok acc =>
                              let self' :=
                                {| Train.intents_file := Train.intents_file self;
                                   Train.vectorizer := vec;
                                   Train.label_encoder := enc;
                                   Train.classifier := Some clf |} in
                              match Train.save_model self' w1 with
                              | (Ok _, w') => (Ok (self', acc), w')
                              | (Raise e, w') => (Raise e, w')
                              end
                          end
                      end
                  end
              end
          end
      end
  | Some _ => (Raise ValueError, w)
  end.
Proof.
  unfold Train.train, Train.prepare_data, Train.load_intents.
  unfold bind at 1. unfold bind at 1. unfold bind at 1. unfold read_file.
  destruct (files w !! Train.intents_file self) as [[intents|v|e|c]|];
    try done.
  2:{ by destruct (bool_decide _). }
  unfold ret at 1. unfold ret at 1.
  destruct (Train.prepare intents) as [ps ts]. simpl fst. simpl snd.
  unfold bind at 1, lift at 1.
  destruct (tfidf_fit_transform _ _) as [[vec X]|]; [|done].
  unfold bind at 1, lift at 1.
  destruct (label_fit_transform _) as [[enc y]|]; [|done].
  unfold bind at 1, split at 1.
  destruct (train_test_split _ _ _ _ _) as [[[[[X_train X_test] y_train] y_test]|] g];
    [|done].
  unfold bind at 1, lift at 1. destruct (lr_fit _ _ _) as [clf|]; [|done].
  unfold bind at 1, lift at 1. destruct (predict _ _) as [y_pred|]; [|done].
  unfold bind at 1, lift at 1. destruct (accuracy_score _ _) as [acc|]; [|done].
  unfold bind, ret. by destruct (Train.save_model _ _) as [[[]|] w'].
Qed.

(** C6.  Whenever the steps of training complete (the corpus loads, the
    vectorizer and the label encoder fit, the split and the fit of the
    classifier succeed, the held-out samples are predicted and scored) and
    nothing stands in the way of writing the model files, [train] returns
    the accuracy and has written the fitted vectorizer, label encoder and
    classifier to the three model files.  The accuracy [acc] is any value:
    nothing in [train] compares it with a threshold. *)
Theorem train_always_saves (self : Train.Trainer) (w : World)
    intents vec X enc y X_train X_test y_train y_test g clf y_pred acc :
  files w !! Train.intents_file self = Some (IntentsJson intents) ->
  Train.savable w = true ->
  tfidf_fit_transform (Train.vectorizer self) (Train.prepare intents).1
    = Ok (vec, X) ->
  label_fit_transform (Train.prepare intents).2 = Ok (enc, y) ->
  train_test_split X y (1 # 5) (Some 42%Z) (np_global w)
    = (Ok (X_train, X_test, y_train, y_test), g) ->
  lr_fit (new_LogisticRegression 1000 (Some 42%Z)) X_train y_train = Ok clf ->
  predict clf X_test = Ok y_pred ->
  accuracy_score y_test y_pred = Ok acc ->
  exists w',
    Train.train self w
      = (Ok ({| Train.intents_file := Train.intents_file self;
                Train.vectorizer := vec; Train.label_encoder := enc;
                Train.classifier := Some clf |}, acc), w') /\
    files w' !! lit "models/tfidf_vectorizer.pkl"
      = Some (PickledVectorizer vec) /\
    files w' !! lit "models/label_encoder.pkl"
      = Some (PickledLabelEncoder enc) /\
    files w' !! lit "models/intent_classifier.joblib"
      = Some (JoblibClassifier (Some clf)).
Proof.
  intros Hfile Hfree Hvec Henc Hsplit Hfit Hpred Hacc.
  rewrite train_steps, Hfile, Hvec, Henc, Hsplit, Hfit, Hpred, Hacc.
  cbv zeta.
  match goal with
  | |- context [Train.save_model ?s ?w1] =>
    destruct (save_model_writes s w1 Hfree) as (w' & -> & Hfiles & _)
  end.
  exists w'. split; [done|]. rewrite Hfiles.
  match goal with
  | |- context [<[_ := ?c]> (<[_ := ?e]> (<[_ := ?v]> ?fs))] =>
    destruct (model_files_lookup fs v e c) as (Hf1 & Hf2 & Hf3 & _)
  end.
  done.
Qed.

End Persistence.

Section Splitting.
Context `{NumpyRandom}.

(** One fifth of [n], rounded up. *)
Lemma n_test_fifth n : n_test_of (1 # 5) n = (n + 4) / 5.
Proof.
  unfold n_test_of, Qceiling, Qfloor, Qmult, Qopp, inject_Z. cbn [Qnum Qden].
  change (Z.pos (5 * 1)) with 5%Z.
  apply Nat2Z.inj. rewrite Nat2Z.inj_div, Nat2Z.inj_add.
  change (Z.of_nat 4) with 4%Z. change (Z.of_nat 5) with 5%Z.
  assert (Hq : (- ((- (1 * Z.of_nat n)) `div` 5) = (Z.of_nat n + 4) `div` 5)%Z).
  { Z.to_euclidean_division_equations. lia. }
  rewrite <- Hq. apply Z2Nat.id. Z.to_euclidean_division_equations. lia.
Qed.

Lemma take_indices_app {A} (a : list A) i1 i2 :
  take_indices a (i1 ++ i2) = take_indices a i1 ++ take_indices a i2.
Proof. unfold take_indices. apply omap_app. Qed.

Lemma take_indices_seq {A} (a b : list A) :
  take_indices (a ++ b) (seq (length a) (length b)) = b.
Proof.
  revert a. induction b as [|x b IH]; intros a; simpl; [done|].
  rewrite lookup_app_r by lia. rewrite Nat.sub_diag. simpl. f_equal.
  replace (a ++ x :: b) with ((a ++ [x]) ++ b) by (by rewrite <- app_assoc).
  replace (S (length a)) with (length (a ++ [x]))
    by (rewrite length_app; simpl; lia).
  apply IH.
Qed.

Lemma take_indices_length {A} (a : list A) idx :
  Forall (fun i => i < length a) idx ->
  length (take_indices a idx) = length idx.
Proof.
  unfold take_indices. induction 1 as [|i idx Hi _ IH]; [done|].
  destruct (lookup_lt_is_Some_2 a i Hi) as [x Hx].
  cbn [omap list_omap]. rewrite Hx. simpl. f_equal. exact IH.
Qed.

(** With a seed, the split does not read the process-wide generator and
    leaves it as it is. *)
Lemma split_seeded {A B} (X : list A) (y : list B) ts seed g1 g2 :
  (train_test_split X y ts (Some seed) g1).1
    = (train_test_split X y ts (Some seed) g2).1 /\
  (train_test_split X y ts (Some seed) g1).2 = g1.
Proof.
  unfold train_test_split. simpl.
  destruct (negb _); [done|]. destruct (_ || _); [done|].
  destruct (_ =? 0); [done|]. by destruct (permutation _ _).
Qed.

(** The two parts of a split with [test_size = 0.2]: together they are the
    samples, and the held-out part is one fifth of them, rounded up. *)
Lemma split_partition {A B} (X : list A) (y : list B) seed g
    X_train X_test y_train y_test g' :
  train_test_split X y (1 # 5) seed g
    = (Ok (X_train, X_test, y_train, y_test), g') ->
  X_test ++ X_train ≡ₚ X /\ y_test ++ y_train ≡ₚ y /\
  length X_test = (length X + 4) / 5 /\
  length X_train = length X - (length X + 4) / 5 /\
  length y_test = length X_test /\ length y_train = length X_train.
Proof.
  unfold train_test_split. rewrite n_test_fifth.
  remember ((length X + 4) / 5) as nt eqn:Hdef.
  assert (Hnt : nt <= length X).
  { pose proof (Nat.div_mod_eq (length X + 4) 5).
    pose proof (Nat.mod_upper_bound (length X + 4) 5). lia. }
  destruct (length X =? length y) eqn:Hlen; cbn [negb]; [|done].
  apply Nat.eqb_eq in Hlen.
  change (Qle_bool (1 # 5) 0 || Qle_bool 1 (1 # 5)) with false. cbv iota.
  destruct (length X - nt =? 0) eqn:Hz; [done|].
  apply Nat.eqb_neq in Hz.
  pose proof (permutation_perm (check_random_state seed g) (length X)) as Hperm.
  destruct (permutation _ _) as [perm g1]. simpl in Hperm.
  intros [= <- <- <- <- _].
  assert (Hpl : length perm = length X)
    by (by rewrite Hperm, length_seq).
  assert (Hsplit : take nt perm ++ take (length X - nt) (drop nt perm) = perm).
  { rewrite (take_ge (drop nt perm)) by (rewrite length_drop; lia).
    apply take_drop. }
  assert (Hall : Forall (fun i => i < length X) perm).
  { rewrite Hperm. apply Forall_forall. intros i Hi.
    apply elem_of_seq in Hi. lia. }
  assert (Hall1 : Forall (fun i => i < length X) (take nt perm))
    by (by apply Forall_take).
  assert (Hall2 : Forall (fun i => i < length X)
                         (take (length X - nt) (drop nt perm)))
    by (by apply Forall_take, Forall_drop).
  split_and!.
  - rewrite <- take_indices_app, Hsplit. unfold take_indices.
    rewrite Hperm.
    change (omap (fun i => X !! i) (seq 0 (length X)))
      with (take_indices ([] ++ X) (seq (length (@nil A)) (length X))).
    by rewrite take_indices_seq.
  - rewrite <- take_indices_app, Hsplit. unfold take_indices.
    rewrite Hperm, Hlen.
    change (omap (fun i => y !! i) (seq 0 (length y)))
      with (take_indices ([] ++ y) (seq (length (@nil B)) (length y))).
    by rewrite take_indices_seq.
  - rewrite take_indices_length by done. rewrite length_take. lia.
  - rewrite take_indices_length by done.
    rewrite length_take, length_drop. lia.
  - rewrite !take_indices_length by (by rewrite <- ?Hlen). done.
  - rewrite !take_indices_length by (by rewrite <- ?Hlen). done.
Qed.

(** A split with [test_size = 0.2] succeeds on two samples or more. *)
Lemma split_succeeds {A B} (X : list A) (y : list B) seed g :
  length X = length y -> 2 <= length X ->
  exists X_train X_test y_train y_test g',
    train_test_split X y (1 # 5) seed g
    = (Ok (X_train, X_test, y_train, y_test), g').
Proof.
  intros Hlen Hn. unfold train_test_split. rewrite n_test_fifth.
  remember ((length X + 4) / 5) as nt eqn:Hdef.
  assert (Hnt : nt < length X).
  { pose proof (Nat.div_mod_eq (length X + 4) 5).
    pose proof (Nat.mod_upper_bound (length X + 4) 5). lia. }
  rewrite <- Hlen, Nat.eqb_refl. cbn [negb].
  change (Qle_bool (1 # 5) 0 || Qle_bool 1 (1 # 5)) with false. cbv iota.
  destruct (length X - nt =? 0) eqn:Hz; [apply Nat.eqb_eq in Hz; lia|].
  destruct (permutation _ _) as [perm g1]. eauto 6.
Qed.

End Splitting.

Section Reproducible.
Context `{Unicode} `{Libm} `{NumpyRandom} `{Solver}.

Lemma rmap_length {A B} (f : A -> result B) (l : list A) (ys : list B) :
  rmap f l = Ok ys -> length ys = length l.
Proof.
  revert ys. induction l as [|x l IH]; intros ys; simpl.
  - by intros [= <-].
  - destruct (f x) as [y|]; simpl; [|done].
    destruct (rmap f l) as [ys'|]; simpl; [|done].
    intros [= <-]. simpl. f_equal. by apply IH.
Qed.

(** The vectorizer returns one row, and the label encoder one code, per
    prepared pattern. *)
Lemma fit_sample_count (v vec : TfidfVectorizer) (enc : LabelEncoder)
    intents X y :
  tfidf_fit_transform v (Train.prepare intents).1 = Ok (vec, X) ->
  label_fit_transform (Train.prepare intents).2 = Ok (enc, y) ->
  length X = length (Train.prepare intents).1 /\ length X = length y.
Proof.
  intros Hvec Henc.
  assert (HX : length X = length (Train.prepare intents).1).
  { revert Hvec. unfold tfidf_fit_transform.
    destruct (bool_decide _); [done|]. destruct (bool_decide _); [done|].
    intros [= _ <-]. by rewrite !length_map. }
  assert (Hy : length y = length (Train.prepare intents).2).
  { revert Henc. unfold label_fit_transform.
    destruct (rmap _ _) as [codes|] eqn:Hr; [|done]. simpl.
    intros [= _ <-]. by apply rmap_length in Hr. }
  split; [done|]. rewrite HX, Hy, prepare_concat. simpl.
  rewrite !length_concat. f_equal. to_fmap. rewrite <- !list_fmap_compose.
  apply list_fmap_ext. intros ? it _. unfold Train.lowered, Train.tagged.
  simpl. by rewrite length_map, length_replicate.
Qed.

(** A run of [train] on a corpus that has been vectorized, encoded and
    split: the fit, the prediction of the held-out part and the score,
    then [save_model]. *)
Lemma train_outcome (self : Train.Trainer) (w : World)
    intents vec X enc y X_train X_test y_train y_test :
  files w !! Train.intents_file self = Some (IntentsJson intents) ->
  tfidf_fit_transform (Train.vectorizer self) (Train.prepare intents).1
    = Ok (vec, X) ->
  label_fit_transform (Train.prepare intents).2 = Ok (enc, y) ->
  train_test_split X y (1 # 5) (Some 42%Z) (np_global w)
    = (Ok (X_train, X_test, y_train, y_test), np_global w) ->
  Train.train self w =
  match lr_fit (new_LogisticRegression 1000 (Some 42%Z)) X_train y_train with
  | Raise e => (Raise e, w)
  | Ok clf =>
      match predict clf X_test with
      | Raise e => (Raise e, w)
      | Ok y_pred =>
          match accuracy_score y_test y_pred with
          | Raise e => (Raise e, w)
          | Ok acc =>
              let self' :=
                {| Train.intents_file := Train.intents_file self;
                   Train.vectorizer := vec; Train.label_encoder := enc;
                   Train.classifier := Some clf |} in
              match Train.save_model self' w with
              | (Ok _, w') => (Ok (self', acc), w')
              | (Raise e, w') => (Raise e, w')
              end
          end
      end
  end.
Proof.
  intros Hfile Hvec Henc Hsplit.
  rewrite train_steps, Hfile, Hvec, Henc, Hsplit. cbv zeta.
  by destruct w.
Qed.

(** C5.  [train] splits the encoded samples with [test_size = 0.2] and the
    seed 42.  For a corpus of two patterns or more that the vectorizer and
    the label encoder accept, the split is the same from every state of
    the process-wide generator, which it leaves as it is; the held-out part
    is one fifth of the samples (rounded up) and the rest is the training
    part.  Hence two runs of [train] on the same corpus, from any two
    states: when both return, they return the same fitted objects and the
    same accuracy; when nothing stands in the way of [save_model] in either
    state, they have the same result, a returned accuracy or an exception;
    and a run returns whenever the fit, the prediction and the score
    succeed and the model files can be written. *)
Theorem train_reproducible (self : Train.Trainer) (w1 w2 : World)
    intents vec X enc y :
  files w1 !! Train.intents_file self = Some (IntentsJson intents) ->
  files w2 !! Train.intents_file self = Some (IntentsJson intents) ->
  tfidf_fit_transform (Train.vectorizer self) (Train.prepare intents).1
    = Ok (vec, X) ->
  label_fit_transform (Train.prepare intents).2 = Ok (enc, y) ->
  2 <= length X ->
  exists X_train X_test y_train y_test,
    (forall g,
       train_test_split X y (1 # 5) (Some 42%Z) g
       = (Ok (X_train, X_test, y_train, y_test), g)) /\
    X_test ++ X_train ≡ₚ X /\ y_test ++ y_train ≡ₚ y /\
    length X_test = (length X + 4) / 5 /\
    length X_train = length X - (length X + 4) / 5 /\
    (forall self1 acc1 w1' self2 acc2 w2',
       Train.train self w1 = (Ok (self1, acc1), w1') ->
       Train.train self w2 = (Ok (self2, acc2), w2') ->
       self1 = self2 /\ acc1 = acc2 /\
       np_global w1' = np_global w1 /\ np_global w2' = np_global w2) /\
    (Train.savable w1 = true -> Train.savable w2 = true ->
     (Train.train self w1).1 = (Train.train self w2).1) /\
    (forall clf y_pred acc w,
       w = w1 \/ w = w2 ->
       lr_fit (new_LogisticRegression 1000 (Some 42%Z)) X_train y_train
         = Ok clf ->
       predict clf X_test = Ok y_pred ->
       accuracy_score y_test y_pred = Ok acc ->
       Train.savable w = true ->
       exists w',
         Train.train self w
         = (Ok ({| Train.intents_file := Train.intents_file self;
                   Train.vectorizer := vec; Train.label_encoder := enc;
                   Train.classifier := Some clf |}, acc), w')).
Proof.
  intros Hf1 Hf2 Hvec Henc Hn.
  destruct (fit_sample_count _ _ _ _ _ _ Hvec Henc) as [_ Hlen].
  destruct (split_succeeds X y (Some 42%Z) (np_global w1) Hlen Hn)
    as (X_train & X_test & y_train & y_test & g' & Hsplit).
  assert (Hany : forall g,
            train_test_split X y (1 # 5) (Some 42%Z) g
            = (Ok (X_train, X_test, y_train, y_test), g)).
  { intros g.
    destruct (split_seeded X y (1 # 5) 42%Z g (np_global w1)) as [Hr Hg].
    rewrite Hsplit in Hr.
    destruct (train_test_split X y (1 # 5) (Some 42%Z) g) as [r gg].
    simpl in Hr, Hg. by subst. }
  destruct (split_partition _ _ _ _ _ _ _ _ _ Hsplit)
    as (HpX & Hpy & HlX & HlT & _).
  pose proof (train_outcome self w1 _ _ _ _ _ _ _ _ _ Hf1 Hvec Henc
                (Hany (np_global w1))) as Hrun1.
  pose proof (train_outcome self w2 _ _ _ _ _ _ _ _ _ Hf2 Hvec Henc
                (Hany (np_global w2))) as Hrun2.
  exists X_train, X_test, y_train, y_test. split_and!; try done.
  - intros self1 acc1 w1' self2 acc2 w2'. rewrite Hrun1, Hrun2.
    destruct (lr_fit _ _ _) as [clf|]; [|done].
    destruct (predict _ _) as [y_pred|]; [|done].
    destruct (accuracy_score _ _) as [acc|]; [|done]. cbv zeta.
    match goal with
    | |- context [Train.save_model ?s w1] =>
      destruct (save_model_cases s w1)
        as [(_ & ->)|(_ & e1 & fs1 & ds1 & -> & _)]; [|done];
      destruct (save_model_cases s w2)
        as [(_ & ->)|(_ & e2 & fs2 & ds2 & -> & _)]; [|done]
    end.
    by intros [= <- <- <-] [= <- <- <-].
  - intros Hs1 Hs2. rewrite Hrun1, Hrun2.
    destruct (lr_fit _ _ _) as [clf|]; [|done].
    destruct (predict _ _) as [y_pred|]; [|done].
    destruct (accuracy_score _ _) as [acc|]; [|done]. cbv zeta.
    match goal with
    | |- context [Train.save_model ?s w1] =>
      destruct (save_model_writes s w1 Hs1) as (w1' & -> & _);
      destruct (save_model_writes s w2 Hs2) as (w2' & -> & _)
    end.
    done.
  - intros clf y_pred acc w Hw Hfit Hpred Hacc Hs.
    assert (Hrun : Train.train self w =
              match Train.save_model
                      {| Train.intents_file := Train.intents_file self;
                         Train.vectorizer := vec; Train.label_encoder := enc;
                         Train.classifier := Some clf |} w with
              | (Ok _, w') =>
                  (Ok ({| Train.intents_file := Train.intents_file self;
                          Train.vectorizer := vec; Train.label_encoder := enc;
                          Train.classifier := Some clf |}, acc), w')
              | (Raise e, w') => (Raise e, w')
              end).
    { destruct Hw as [->| ->]; [rewrite Hrun1|rewrite Hrun2];
        by rewrite Hfit, Hpred, Hacc. }
    rewrite Hrun.
    match goal with
    | |- context [Train.save_model ?s w] =>
      destruct (save_model_writes s w Hs) as (w' & -> & _)
    end.
    eauto.
Qed.

End Reproducible.

Section TrainingExamples.
Import Fixtures.

(** On the small corpus the two held-out samples are both of the intent
    "faq", which the training part does not contain: the accuracy is zero,
    and the model is saved all the same. *)
Lemma train_always_saves_witness :
  exists self' acc w',
    Train.train (Train.init (lit "intents.json")) corpus_world
      = (Ok (self', acc), w') /\
    (acc == 0)%Q /\
    files w' !! lit "models/tfidf_vectorizer.pkl"
      = Some (PickledVectorizer (Train.vectorizer self')) /\
    files w' !! lit "models/label_encoder.pkl"
      = Some (PickledLabelEncoder (Train.label_encoder self')) /\
    files w' !! lit "models/intent_classifier.joblib"
      = Some (JoblibClassifier (Train.classifier self')).
Proof.
  edestruct (train_always_saves (Train.init (lit "intents.json")) corpus_world)
    as (w' & Hrun & Hf1 & Hf2 & Hf3);
    [vm_compute; reflexivity | vm_compute; reflexivity
    |vm_compute; reflexivity | vm_compute; reflexivity
    |vm_compute; reflexivity | vm_compute; reflexivity
    |vm_compute; reflexivity | vm_compute; reflexivity |].
  eexists _, _, w'. split; [exact Hrun|]. split; [by vm_compute|].
  split; [exact Hf1|]. split; [exact Hf2|exact Hf3].
Defined.

(** Training again from the later state, in which the generator has moved
    on and the model directory holds a stale file, returns the same fitted
    objects and the same accuracy. *)
Lemma train_reproducible_witness :
  exists self' acc w1' w2',
    Train.train (Train.init (lit "intents.json")) corpus_world
      = (Ok (self', acc), w1') /\
    Train.train (Train.init (lit "intents.json")) retrain_world
      = (Ok (self', acc), w2').
Proof.
  edestruct (train_reproducible (Train.init (lit "intents.json"))
               corpus_world retrain_world demo_intents)
    as (X_train & X_test & y_train & y_test & Hsplit & _ & _ & _ & _ & _ & _
        & Hruns);
    [vm_compute; reflexivity | vm_compute; reflexivity
    |vm_compute; reflexivity | vm_compute; reflexivity
    |vm_compute; lia |].
  specialize (Hsplit 0%Z). vm_compute in Hsplit.
  injection Hsplit as <- <- <- <-.
  edestruct Hruns as (w1' & Hrun1);
    [left; reflexivity | vm_compute; reflexivity | vm_compute; reflexivity
    |vm_compute; reflexivity | vm_compute; reflexivity |].
  edestruct Hruns as (w2' & Hrun2);
    [right; reflexivity | vm_compute; reflexivity | vm_compute; reflexivity
    |vm_compute; reflexivity | vm_compute; reflexivity |].
  eexists _, _, w1', w2'. split; [exact Hrun1|exact Hrun2].
Defined.

End TrainingExamples.

(** ** The vocabulary of the feature encoder *)

Section Vocabulary.
Context `{Unicode} `{Libm}.

Lemma windows_one (tokens : list str) : windows 1 tokens = tokens.
Proof.
  induction tokens as [|a rest IH]; [done|].
  cbn [windows]. cbn [length Nat.leb take join]. by rewrite IH.
Qed.

Lemma elem_of_windows_two (tokens : list str) (t : str) :
  t ∈ windows 2 tokens <->
  exists i a b,
    tokens !! i = Some a /\ tokens !! S i = Some b /\ t = a ++ lit " " ++ b.
Proof.
  induction tokens as [|a rest IH].
  - split; [by intros ?%elem_of_nil|]. by intros (i & x & y & ? & _).
  - destruct rest as [|b rest'].
    + split; [by intros ?%elem_of_nil|].
      intros (i & x & y & _ & Hy & _). by destruct i.
    + change (windows 2 (a :: b :: rest'))
        with ((a ++ lit " " ++ b) :: windows 2 (b :: rest')).
      rewrite elem_of_cons, IH. split.
      * intros [->|(i & x & y & Hx & Hy & ->)].
        -- by exists 0, a, b.
        -- by exists (S i), x, y.
      * intros (i & x & y & Hx & Hy & ->). destruct i as [|i].
        -- left. simpl in Hx, Hy. by inversion Hx; inversion Hy; subst.
        -- right. by exists i, x, y.
Qed.

(** The analyser configured by [train.py] yields the unigrams and the
    bigrams of a document, and nothing else. *)
Lemma elem_of_analyze (doc t : str) :
  t ∈ analyze (1, 2) doc <-> unigram_of doc t \/ bigram_of doc t.
Proof.
  unfold analyze, word_ngrams, unigram_of, bigram_of.
  change (concat _)
    with (windows 1 (tokenize (lower doc))
          ++ windows 2 (tokenize (lower doc)) ++ []).
  rewrite app_nil_r, elem_of_app, windows_one, elem_of_windows_two. done.
Qed.

Lemma elem_of_concat {A} (x : A) (ls : list (list A)) :
  x ∈ concat ls <-> exists l, l ∈ ls /\ x ∈ l.
Proof.
  rewrite list_elem_of_In, in_concat. split.
  - intros (l & Hl & Hx). exists l. by rewrite !list_elem_of_In.
  - intros (l & Hl & Hx). exists l. by rewrite <- !list_elem_of_In.
Qed.

Lemma elem_of_corpus_terms (docs : list (list str)) (t : str) :
  t ∈ corpus_terms docs <-> exists d, d ∈ docs /\ t ∈ d.
Proof. unfold corpus_terms. by rewrite elem_of_unique_str, elem_of_concat. Qed.

Lemma NoDup_corpus_terms (docs : list (list str)) : NoDup (corpus_terms docs).
Proof.
  unfold corpus_terms, unique_str. rewrite merge_sort_Permutation.
  apply NoDup_remove_dups.
Qed.

#[local] Instance ranks_before_trans : Transitive ranks_before.
Proof. unfold ranks_before. intros a b c ? ?. lia. Qed.

#[local] Instance ranks_before_total : Total ranks_before.
Proof. unfold ranks_before. intros a b. lia. Qed.

(** What [limit_features] keeps: all the terms when there are no more than
    [k], and otherwise exactly [k] of them, none of smaller term frequency
    than a term it drops. *)
Lemma limit_features_spec k docs (terms : list str) :
  NoDup terms ->
  let kept := limit_features k docs terms in
  kept ⊆ terms /\ NoDup kept /\
  (length terms <= k -> kept = terms) /\
  length kept = Nat.min k (length terms) /\
  (forall t u, t ∈ kept -> u ∈ terms -> u ∉ kept ->
     term_frequency docs u <= term_frequency docs t).
Proof.
  intros Hnd kept. unfold limit_features in kept.
  destruct (length terms <=? k) eqn:Hle.
  - apply Nat.leb_le in Hle. subst kept.
    split_and!; [done|done|done|lia|]. intros t u _ Hu Hnu. done.
  - apply Nat.leb_gt in Hle.
    set (tfs := map (fun t => (t, term_frequency docs t)) terms) in *.
    set (ranked := merge_sort ranks_before tfs) in *.
    assert (Hperm : ranked ≡ₚ tfs) by apply merge_sort_Permutation.
    assert (Hsorted : StronglySorted ranks_before ranked)
      by (apply StronglySorted_merge_sort; apply _).
    assert (Hpair : forall t c, (t, c) ∈ ranked ->
                      t ∈ terms /\ c = term_frequency docs t).
    { intros t c Hin. rewrite Hperm in Hin. unfold tfs in Hin.
      apply list_elem_of_In, in_map_iff in Hin as (t' & [= <- <-] & Hin).
      by apply list_elem_of_In in Hin. }
    assert (Hin_ranked : forall t, t ∈ terms ->
                           (t, term_frequency docs t) ∈ ranked).
    { intros t Ht. rewrite Hperm. unfold tfs.
      apply list_elem_of_In, in_map_iff. exists t.
      by rewrite <- list_elem_of_In. }
    assert (Hkept : forall t, t ∈ kept <->
              t ∈ terms /\ (t, term_frequency docs t) ∈ take k ranked).
    { intros t. subst kept. rewrite list_elem_of_filter. split.
      - intros [Hk Ht]. split; [done|].
        apply list_elem_of_In, in_map_iff in Hk as ([t' c] & Heq & Hin).
        simpl in Heq. subst t'. apply list_elem_of_In in Hin.
        assert (Hr : (t, c) ∈ ranked).
        { rewrite <- (take_drop k ranked). apply elem_of_app. by left. }
        apply Hpair in Hr as [_ ->]. done.
      - intros [Ht Hin]. split; [|done].
        apply list_elem_of_In, in_map_iff. exists (t, term_frequency docs t).
        by rewrite <- list_elem_of_In. }
    split_and!.
    + intros t Ht. by apply Hkept in Ht as [? _].
    + subst kept. by apply NoDup_filter.
    + lia.
    + assert (Hfst : map fst ranked ≡ₚ terms).
      { rewrite Hperm. unfold tfs. rewrite map_map. simpl. by rewrite map_id. }
      assert (Hnd' : NoDup (map fst (take k ranked))).
      { to_fmap. rewrite fmap_take.
        eapply sublist_NoDup; [|apply sublist_take].
        change (fst <$> ranked) with (map fst ranked). by rewrite Hfst. }
      assert (Hsame : kept ≡ₚ map fst (take k ranked)).
      { apply NoDup_Permutation; [subst kept; by apply NoDup_filter|done|].
        intros t. rewrite Hkept. split.
        - intros [_ Hin]. apply list_elem_of_In, in_map_iff.
          exists (t, term_frequency docs t). by rewrite <- list_elem_of_In.
        - intros Hin.
          apply list_elem_of_In, in_map_iff in Hin as ([t' c] & Heq & Hin).
          simpl in Heq. subst t'. apply list_elem_of_In in Hin.
          assert (Hr : (t, c) ∈ ranked).
          { rewrite <- (take_drop k ranked). apply elem_of_app. by left. }
          destruct (Hpair _ _ Hr) as [Ht ->]. done. }
      rewrite Hsame, length_map, length_take.
      by rewrite <- (Permutation_length Hfst), length_map.
    + intros t u Ht Hu Hnu. apply Hkept in Ht as [_ Ht].
      assert (Hdrop : (u, term_frequency docs u) ∈ drop k ranked).
      { pose proof (Hin_ranked u Hu) as Hr.
        rewrite <- (take_drop k ranked) in Hr.
        apply elem_of_app in Hr as [Hr|Hr]; [|done].
        exfalso. apply Hnu, Hkept. done. }
      rewrite <- (take_drop k ranked) in Hsorted.
      apply (StronglySorted_app_1_elem_of _ _ _ _ _ Hsorted Ht Hdrop).
Qed.

End Vocabulary.

Section VocabularyClaims.
Context `{Unicode} `{Libm}.

(** The vocabulary that [fit_transform] stores. *)
Lemma fit_transform_vocabulary (v v' : TfidfVectorizer) raw X :
  tfidf_fit_transform v raw = Ok (v', X) ->
  exists idfs,
    fitted v' =
      Some (tfidf_vocabulary (max_features v)
                             (map (analyze (ngram_range v)) raw), idfs) /\
    tfidf_vocabulary (max_features v) (map (analyze (ngram_range v)) raw) <> [].
Proof.
  unfold tfidf_fit_transform.
  destruct (bool_decide (corpus_terms _ = [])); [done|].
  destruct (bool_decide (tfidf_vocabulary _ _ = [])) eqn:Hv; [done|].
  apply bool_decide_eq_false in Hv. intros [= <- _]. eauto.
Qed.

Lemma vocabulary_subset limit (docs : list (list str)) :
  tfidf_vocabulary limit docs ⊆ corpus_terms docs.
Proof.
  destruct limit as [k|]; simpl; [|done].
  by destruct (limit_features_spec k docs (corpus_terms docs)
                 (NoDup_corpus_terms docs)) as (Hsub & _).
Qed.

(** [fit_transform] succeeds as soon as the vocabulary has a term. *)
Lemma fit_transform_succeeds (v : TfidfVectorizer) raw (t : str) :
  t ∈ tfidf_vocabulary (max_features v) (map (analyze (ngram_range v)) raw) ->
  exists v' X idfs,
    tfidf_fit_transform v raw = Ok (v', X) /\
    fitted v' =
      Some (tfidf_vocabulary (max_features v)
                             (map (analyze (ngram_range v)) raw), idfs).
Proof.
  intros Ht. unfold tfidf_fit_transform.
  set (docs := map (analyze (ngram_range v)) raw) in *.
  rewrite bool_decide_eq_false_2.
  2:{ intros Hnil. apply vocabulary_subset in Ht. rewrite Hnil in Ht.
      by apply elem_of_nil in Ht. }
  rewrite bool_decide_eq_false_2.
  2:{ intros Hnil. rewrite Hnil in Ht. by apply elem_of_nil in Ht. }
  eexists _, _, _. split; reflexivity.
Qed.

Lemma fitted_vocabulary_eq (vocab vocab' : list str) (idfs idfs' : list Q) :
  Some (vocab, idfs) = Some (vocab', idfs') -> vocab = vocab'.
Proof. by intros [= -> _]. Qed.

(** One pass over the vocabulary decides that [a] is in it and [b] is
    not. *)
Lemma vocabulary_check (v : TfidfVectorizer) raw (a b : str) :
  (let vocab :=
     tfidf_vocabulary (max_features v) (map (analyze (ngram_range v)) raw) in
   bool_decide (a ∈ vocab) && negb (bool_decide (b ∈ vocab))) = true ->
  a ∈ tfidf_vocabulary (max_features v) (map (analyze (ngram_range v)) raw) /\
  b ∉ tfidf_vocabulary (max_features v) (map (analyze (ngram_range v)) raw).
Proof.
  cbv zeta. intros [Ha Hb]%andb_prop.
  apply bool_decide_eq_true in Ha. apply negb_true_iff in Hb.
  by apply bool_decide_eq_false in Hb.
Qed.

(** C7 (amended).  Let [terms] be the distinct unigrams and bigrams of
    the fit corpus.  The vocabulary fitted by the encoder that [train.py]
    configures is made of terms, without duplicates; it has exactly 1000
    entries when there are more than 1000 terms, and is all the terms
    otherwise; and its entries are the terms of largest term frequency
    across the corpus: no term that is left out occurs more often in the
    corpus than a term that is kept. *)
Theorem vocabulary_top_by_term_frequency (file_name : str) (raw : list str)
    v' X :
  tfidf_fit_transform (Train.vectorizer (Train.init file_name)) raw
    = Ok (v', X) ->
  let terms := corpus_terms (map (analyze (1, 2)) raw) in
  exists vocab idfs,
    fitted v' = Some (vocab, idfs) /\
    NoDup terms /\
    (forall t, t ∈ terms <->
       exists doc, doc ∈ raw /\ (unigram_of doc t \/ bigram_of doc t)) /\
    NoDup vocab /\ vocab ⊆ terms /\
    length vocab = Nat.min 1000 (length terms) /\
    (length terms <= 1000 -> vocab = terms) /\
    (forall t u,
       t ∈ vocab -> u ∈ terms -> u ∉ vocab ->
       term_frequency (map (analyze (1, 2)) raw) u
       <= term_frequency (map (analyze (1, 2)) raw) t).
Proof.
  intros Hfit terms.
  apply fit_transform_vocabulary in Hfit as (idfs & Hv & _).
  cbn [Train.init Train.vectorizer max_features ngram_range] in Hv.
  subst terms. set (docs := map (analyze (1, 2)) raw) in *.
  exists (tfidf_vocabulary (Some 1000) docs), idfs. split; [done|].
  unfold tfidf_vocabulary.
  destruct (limit_features_spec 1000 docs (corpus_terms docs)
              (NoDup_corpus_terms docs)) as (Hsub & Hnd & Hall & Hcap & Hrank).
  assert (Hterm : forall t, t ∈ corpus_terms docs <->
            exists doc, doc ∈ raw /\ (unigram_of doc t \/ bigram_of doc t)).
  { intros t. rewrite elem_of_corpus_terms. unfold docs. split.
    - intros (d & Hd & Ht).
      apply list_elem_of_In, in_map_iff in Hd as (doc & <- & Hdoc).
      exists doc. rewrite <- elem_of_analyze. by rewrite list_elem_of_In.
    - intros (doc & Hdoc & Ht). exists (analyze (1, 2) doc).
      rewrite elem_of_analyze. split; [|done].
      apply list_elem_of_In, in_map. by apply list_elem_of_In. }
  split_and!; try done. apply NoDup_corpus_terms.
Qed.

End VocabularyClaims.

Section VocabularyExamples.
Import Fixtures.

(** The corpus of 1001 terms: "aa" is in the vocabulary and "bb" is not. *)
Lemma crowded_vocabulary :
  let v := Train.vectorizer (Train.init (lit "intents.json")) in
  lit "aa" ∈ tfidf_vocabulary (max_features v)
               (map (analyze (ngram_range v)) crowded_corpus) /\
  lit "bb" ∉ tfidf_vocabulary (max_features v)
               (map (analyze (ngram_range v)) crowded_corpus).
Proof. apply vocabulary_check. vm_compute. reflexivity. Qed.

(** In the corpus of 1001 terms the vocabulary has 1000 entries, with "aa"
    among them. *)
Lemma vocabulary_top_by_term_frequency_witness :
  exists v' X vocab idfs,
    tfidf_fit_transform (Train.vectorizer (Train.init (lit "intents.json")))
                        crowded_corpus = Ok (v', X) /\
    fitted v' = Some (vocab, idfs) /\
    length (corpus_terms (map (analyze (1, 2)) crowded_corpus)) = 1001 /\
    length vocab = 1000 /\ NoDup vocab /\ lit "aa" ∈ vocab.
Proof.
  destruct crowded_vocabulary as [Haa _].
  assert (Hterms : length (corpus_terms (map (analyze (1, 2)) crowded_corpus))
                   = 1001) by (vm_compute; reflexivity).
  destruct (fit_transform_succeeds _ _ _ Haa) as (v' & X & idfs & Hfit & Hv).
  destruct (vocabulary_top_by_term_frequency _ _ _ _ Hfit)
    as (vocab & idfs' & Hv' & _ & _ & Hnd & _ & Hlen & _).
  rewrite Hterms in Hlen. rewrite Hv in Hv'.
  apply fitted_vocabulary_eq in Hv' as Hvocab.
  exists v', X, vocab, idfs. split; [exact Hfit|].
  split; [rewrite <- Hvocab; exact Hv|]. split; [exact Hterms|].
  split; [exact Hlen|]. split; [exact Hnd|]. rewrite <- Hvocab. exact Haa.
Defined.

(** C7, as stated, fails: in the corpus of 1001 terms the term left out of
    the vocabulary is "bb", found in two documents, while "aa", found in
    one document only (four times), is kept. *)
Lemma vocabulary_not_by_document_frequency :
  exists v' X (vocab : list str) (idfs : list Q),
    tfidf_fit_transform (Train.vectorizer (Train.init (lit "intents.json")))
                        crowded_corpus = Ok (v', X) /\
    fitted v' = Some (vocab, idfs) /\
    (lit "aa" ∈ vocab) /\ (lit "bb" ∉ vocab) /\
    (lit "bb" ∈ crowded_corpus) /\ unigram_of (lit "bb") (lit "bb") /\
    document_frequency (map (analyze (1, 2)) crowded_corpus) (lit "aa") = 1 /\
    document_frequency (map (analyze (1, 2)) crowded_corpus) (lit "bb") = 2.
Proof.
  destruct crowded_vocabulary as [Haa Hbb].
  assert (Hdfa : document_frequency (map (analyze (1, 2)) crowded_corpus)
                                    (lit "aa") = 1)
    by (vm_compute; reflexivity).
  assert (Hdfb : document_frequency (map (analyze (1, 2)) crowded_corpus)
                                    (lit "bb") = 2)
    by (vm_compute; reflexivity).
  destruct (fit_transform_succeeds _ _ _ Haa) as (v' & X & idfs & Hfit & Hv).
  eexists v', X, _, idfs.
  split; [exact Hfit|]. split; [exact Hv|]. split; [exact Haa|].
  split; [exact Hbb|]. split.
  { unfold crowded_corpus. do 7 apply list_elem_of_further.
    apply list_elem_of_here. }
  split; [|split; [exact Hdfa|exact Hdfb]].
  vm_compute. apply list_elem_of_here.
Qed.

End VocabularyExamples.

(** ** Queries out of the vocabulary *)

Section ZeroVector.
Context `{Libm}.

Lemma Qsum_zero (l : list Q) : Forall (fun x => x == 0)%Q l -> (Qsum l == 0)%Q.
Proof.
  induction 1 as [|x l Hx _ IH]; simpl; [reflexivity|].
  rewrite Hx, IH. reflexivity.
Qed.

(** A row of zeros is left as it is by the normalisation. *)
Lemma l2_normalize_zero (row : list Q) :
  Forall (fun x => x == 0)%Q row -> l2_normalize row = row.
Proof.
  intros Hz. unfold l2_normalize.
  assert (Hs : (Qsum (map (fun x => x * x) row) == 0)%Q).
  { apply Qsum_zero. induction Hz as [|x l Hx _ IH]; simpl; constructor; [|done].
    rewrite Hx. reflexivity. }
  apply Qeq_bool_iff in Hs. by rewrite Hs.
Qed.

Lemma count_absent (t : str) (terms : list str) : t ∉ terms -> count t terms = 0.
Proof.
  intros Ht. unfold count. induction terms as [|u terms IH]; [done|].
  rewrite filter_cons. apply not_elem_of_cons in Ht as [Hne Ht].
  destruct (decide (t = u)); [done|]. by apply IH.
Qed.

(** The row of a document none of whose terms is in the vocabulary. *)
Lemma tfidf_row_absent (vocabulary : list str) (idfs : list Q)
    (terms : list str) :
  length idfs = length vocabulary ->
  (forall t, t ∈ terms -> t ∉ vocabulary) ->
  length (tfidf_row vocabulary idfs terms) = length vocabulary /\
  Forall (fun x => x == 0)%Q (tfidf_row vocabulary idfs terms).
Proof.
  intros Hlen Hoov. unfold tfidf_row.
  assert (Hz : Forall (fun x => x == 0)%Q
                 (zip_with (fun t w => inject_Z (Z.of_nat (count t terms)) * w)%Q
                           vocabulary idfs)).
  { assert (Hv : forall t, t ∈ vocabulary -> count t terms = 0).
    { intros t Ht. apply count_absent. intros Hin. by apply (Hoov t). }
    clear Hlen Hoov. revert idfs.
    induction vocabulary as [|t vocabulary IH]; intros [|w idfs]; simpl;
      try constructor.
    - rewrite (Hv t) by apply list_elem_of_here. simpl. apply Qmult_0_l.
    - apply IH. intros u Hu. apply Hv. by apply list_elem_of_further. }
  rewrite (l2_normalize_zero _ Hz). split; [|done].
  rewrite length_zip_with. lia.
Qed.

Lemma argmax_from_bound (l : list Q) best_i best i :
  best_i < i -> argmax_from best_i best i l < i + length l.
Proof.
  revert best_i best i. induction l as [|x l IH]; intros bi b i Hlt; simpl.
  - lia.
  - destruct (Qle_bool x b).
    + specialize (IH bi b (S i)). lia.
    + specialize (IH i x (S i)). lia.
Qed.

Lemma argmax_bound (l : list Q) :
  l <> [] -> exists i, argmax l = Some i /\ i < length l.
Proof.
  destruct l as [|x l]; [done|]. intros _. eexists. split; [done|].
  pose proof (argmax_from_bound l 0 x 1). simpl. lia.
Qed.

(** On a row of the right width a well-shaped model predicts one of its
    classes and gives a non-empty row of probabilities. *)
Lemma lr_row_predicted (m : LogisticRegression) (row : list Q) :
  well_shaped m -> length row = n_features_in_ m ->
  exists c probs,
    lr_predict_row m row = Ok c /\ c ∈ lr_classes_ m /\
    lr_predict_proba_row m row = Ok probs /\ probs <> [].
Proof.
  intros (Hci & Hshape) Hrow.
  unfold lr_predict_row, lr_predict_proba_row, decision_function.
  rewrite Hrow, Nat.eqb_refl. simpl.
  set (scores := zip_with _ (coef_ m) (intercept_ m)).
  assert (Hsc : length scores = length (coef_ m))
    by (unfold scores; rewrite length_zip_with; lia).
  destruct Hshape as [[Hcl Hco]|[Hcl Hco]].
  - rewrite Hco in Hsc. destruct scores as [|s [|? ?]]; try done.
    assert (Hi : (if Qle_bool s 0 then 0 else 1) < length (lr_classes_ m))
      by (destruct (Qle_bool s 0); lia).
    destruct (lookup_lt_is_Some_2 _ _ Hi) as [c Hc].
    exists c. eexists. unfold getitem. rewrite Hc, Hcl. simpl.
    split_and!; [done| |done|done]. apply list_elem_of_lookup. eauto.
  - destruct (argmax_bound scores) as (i & Hi & Hlt).
    { intros Hnil. rewrite Hnil in Hsc. simpl in Hsc. lia. }
    assert (Hi' : i < length (lr_classes_ m)) by lia.
    destruct (lookup_lt_is_Some_2 _ _ Hi') as [c Hc].
    assert (Hle : (length (lr_classes_ m) <=? 2) = false)
      by (apply Nat.leb_gt; lia).
    rewrite Hle.
    destruct scores as [|s1 [|s2 rest]] eqn:Hs; simpl in Hsc; [lia|lia|].
    rewrite Hi. unfold getitem. rewrite Hc.
    exists c. eexists. split_and!; [done| |done|done].
    apply list_elem_of_lookup. eauto.
Qed.

End ZeroVector.

Section PredictionSteps.
Context `{Unicode} `{NumpyRandom}.
Context `{Vectorizer V} `{LabelDecoder L} `{Classifier C}.

(** When each call of [predict] returns, [predict] returns the decoded tag
    and the largest probability, and leaves the generator of [random]
    alone. *)
Lemma predict_returns (self : Train.SimpleIntentClassifier V L C) q w
    X prediction proba p intents intent :
  transform (Train.vectorizer self) [lower q] = Ok X ->
  predict (Train.classifier self) X = Ok prediction ->
  predict_proba (Train.classifier self) X = Ok proba ->
  np_max proba = Ok p ->
  inverse_transform (Train.label_encoder self) prediction = Ok intents ->
  getitem intents 0 = Ok intent ->
  exists w1,
    Train.predict self q w = (Ok (intent, p), w1) /\
    py_cursor w1 = py_cursor w /\ py_random w1 = py_random w.
Proof.
  intros Ht Hp Hpp Hm Hi Hg.
  unfold Train.predict, bind, call, lift, log, ret. simpl.
  rewrite Ht. simpl. rewrite Hp. simpl. rewrite Hpp. simpl. rewrite Hm, Hi.
  simpl. rewrite Hg. eexists. split; [done|]. done.
Qed.

End PredictionSteps.

Section OutOfVocabulary.
Context `{Unicode} `{Libm} `{NumpyRandom}.

(** C8.  Let the chatbot hold a consistent bundle, and let no unigram or
    bigram of a non-blank query be in the vocabulary.  Then [transform]
    returns, for the query, a row of the width of the vocabulary whose
    entries are all zero; the prediction steps accept it and return some
    intent and probability, without raising; and [get_response] goes on to
    print the query and the pair and to select a response for the pair. *)
Theorem out_of_vocabulary_query
    (bot : App.SimpleDekutChatbot TfidfVectorizer LabelEncoder
                                  (option LogisticRegression))
    (clf : LogisticRegression) (q : str) (w : World) vocabulary idfs :
  App.classifier bot = Some clf ->
  bundle_consistent (App.vectorizer bot) (App.label_encoder bot) clf ->
  fitted (App.vectorizer bot) = Some (vocabulary, idfs) ->
  not_ (strip q) = false ->
  (forall t, t ∈ analyze (ngram_range (App.vectorizer bot)) (lower q) ->
             t ∉ vocabulary) ->
  exists row intent p w1,
    transform (App.vectorizer bot) [lower q] = Ok [row] /\
    length row = length vocabulary /\
    Forall (fun x => x == 0)%Q row /\
    Train.predict (App.trainer_of bot) q w = (Ok (intent, p), w1) /\
    App.get_response bot q w =
    try_except (let* _ := App.announce q intent p in
                App.select_response bot intent p)
               (fun _ => ret App.having_trouble) w1.
Proof.
  intros Hclf Hcons Hfit Hq Hoov.
  unfold bundle_consistent in Hcons. rewrite Hfit in Hcons.
  destruct (classes_ (App.label_encoder bot)) as [classes|] eqn:Hcl; [|done].
  destruct Hcons as (Hlen & Hfeat & Hshape & Hcodes).
  destruct (tfidf_row_absent vocabulary idfs _ Hlen Hoov) as [Hrl Hrz].
  set (row := tfidf_row vocabulary idfs
                (analyze (ngram_range (App.vectorizer bot)) (lower q))) in *.
  destruct (lr_row_predicted clf row Hshape) as (c & probs & Hc & Hin & Hpr & Hne);
    [lia|].
  assert (Hcode : c < length classes)
    by (rewrite Forall_forall in Hcodes; by apply Hcodes).
  destruct (lookup_lt_is_Some_2 _ _ Hcode) as [intent Hintent].
  assert (Hmax : exists p, np_max [probs] = Ok p).
  { unfold np_max. simpl. rewrite app_nil_r.
    destruct probs as [|x l]; [done|]. eauto. }
  destruct Hmax as [p Hmax].
  assert (Htr : transform (App.vectorizer bot) [lower q] = Ok [row]).
  { simpl. unfold tfidf_transform. by rewrite Hfit. }
  destruct (predict_returns (App.trainer_of bot) q w [row] [c] [probs] p
              [intent] intent) as (w1 & Hpred & _).
  - done.
  - simpl. rewrite Hclf. simpl. by rewrite Hc.
  - simpl. rewrite Hclf. simpl. by rewrite Hpr.
  - done.
  - simpl. unfold label_inverse_transform. rewrite Hcl. simpl.
    by rewrite Hintent.
  - done.
  - exists row, intent, p, w1. split_and!; try done.
    rewrite (get_response_steps _ _ _ Hq). unfold try_except, bind at 1.
    by rewrite Hpred.
Qed.

End OutOfVocabulary.

Section OutOfVocabularyExamples.
Import Fixtures.

(** "zzz" is unknown to the example chatbot; its row is [0; 0] and the
    prediction is the first class with probability one third. *)
Lemma out_of_vocabulary_query_witness :
  exists row intent p w1,
    transform (App.vectorizer demo_bot) [lower (lit "zzz")] = Ok [row] /\
    Forall (fun x => x == 0)%Q row /\
    Train.predict (App.trainer_of demo_bot) (lit "zzz") demo_world
      = (Ok (intent, p), w1) /\
    intent = lit "faq".
Proof.
  destruct (out_of_vocabulary_query demo_bot demo_classifier (lit "zzz")
              demo_world [lit "fees"; lit "hello"] [1%Q; 1%Q])
    as (row & intent & p & w1 & Htr & _ & Hz & Hpred & _).
  - reflexivity.
  - unfold bundle_consistent, well_shaped. simpl.
    split_and!; [done|done|done|right; split; [lia|done]|].
    repeat (constructor; [lia|]). constructor.
  - reflexivity.
  - vm_compute. reflexivity.
  - intros t Ht. vm_compute in Ht.
    apply list_elem_of_In in Ht. destruct Ht as [<-|[]].
    intros Hin. apply list_elem_of_In in Hin.
    destruct Hin as [Heq|[Heq|[]]]; discriminate.
  - exists row, intent, p, w1.
    split; [exact Htr|]. split; [exact Hz|]. split; [exact Hpred|].
    vm_compute in Hpred. inversion Hpred. reflexivity.
Defined.

End OutOfVocabularyExamples.

(** * Further properties of [app.py] *)

Section ResponseMapping.

Lemma response_mapping_snoc (intents : list Intent) (intent : Intent) :
  App.response_mapping (intents ++ [intent])
  = <[tag intent := responses intent]> (App.response_mapping intents).
Proof. unfold App.response_mapping. by rewrite fold_left_app. Qed.

(** The entry of a tag in [tag_responses] is the response list of the last
    intent of the file that carries the tag; a tag carried by no intent has
    no entry. *)
Theorem response_mapping_last_wins (intents : list Intent) (t : str) :
  App.response_mapping intents !! t
  = responses <$> last (filter (fun intent => tag intent = t) intents).
Proof.
  induction intents as [|intent intents IH] using rev_ind; [done|].
  rewrite response_mapping_snoc, filter_app, filter_cons, filter_nil.
  destruct (decide (tag intent = t)) as [<-|Hne].
  - rewrite lookup_insert_eq. by rewrite last_snoc.
  - rewrite lookup_insert_ne by done. by rewrite app_nil_r.
Qed.

End ResponseMapping.

Section Serving.
Context `{Unicode} `{NumpyRandom}.
Context `{Vectorizer V} `{LabelDecoder L} `{Classifier C}.
Implicit Types (bot : App.SimpleDekutChatbot V L C) (q : str) (w : World).

Lemma get_response_returns bot q w :
  exists r w', App.get_response bot q w = (Ok r, w').
Proof.
  destruct (not_ (strip q)) eqn:Hq.
  - exists App.please_type, w. unfold App.get_response. by rewrite Hq.
  - rewrite (get_response_steps _ _ _ Hq). unfold try_except.
    destruct (bind _ _ w) as [[r|e] w']; [by exists r, w'|].
    by exists App.having_trouble, w'.
Qed.

(** On a request whose body is a JSON object with string values, the
    [/chat] route never raises.  A blank or missing message is answered by
    the prompt, without the [success] key and without a call of
    [get_response]; any other message is stripped, passed to
    [get_response], and answered with [success] set. *)
Theorem chat_reply bot (json : gmap str str) w :
  exists reply w',
    App.chat bot json w = (Ok reply, w') /\
    (strip (default [] (json !! lit "message")) = [] ->
     reply = {| App.response := App.please_enter; App.success := None |} /\
     w' = w) /\
    (strip (default [] (json !! lit "message")) <> [] ->
     App.success reply = Some true /\
     App.get_response bot (strip (default [] (json !! lit "message"))) w
       = (Ok (App.response reply), w')).
Proof.
  unfold App.chat.
  destruct (strip (default [] (json !! lit "message"))) as [|c msg] eqn:Hmsg.
  - eexists _, _. split; [done|]. split; [done|]. done.
  - destruct (get_response_returns bot (c :: msg) w) as (r & w' & Hr).
    exists {| App.response := r; App.success := Some true |}, w'.
    cbn [not_]. unfold bind. rewrite Hr. split; [done|]. split; [done|]. done.
Qed.

(** A predicted intent above the threshold whose registered response list
    is empty is not answered by a fallback: [random.choice] raises on the
    empty list and the user gets the "having trouble" message. *)
Theorem empty_response_list_trouble bot q w intent p w1 :
  not_ (strip q) = false ->
  Train.predict (App.trainer_of bot) q w = (Ok (intent, p), w1) ->
  (1 # 2 < p)%Q ->
  App.tag_responses bot !! intent = Some [] ->
  exists w2, App.get_response bot q w = (Ok App.having_trouble, w2).
Proof.
  intros Hq Hp Hgt Hrs. rewrite (get_response_predicted _ _ _ _ _ _ Hq Hp).
  destruct (printable q && printable intent); [|eauto].
  unfold try_except, App.select_response.
  rewrite (above_threshold_true _ Hgt), Hrs.
  rewrite bool_decide_eq_true_2 by eauto. cbn [andb].
  unfold bind, lift. rewrite random_choice_empty. eauto.
Qed.


(** [get_response] only reads the model: it leaves the files, the
    directories and NumPy's generator as they were, draws from [random] at
    most once, and only adds to the record of calls. *)
Theorem get_response_read_only bot q w :
  let w' := (App.get_response bot q w).2 in
  files w' = files w /\ dirs w' = dirs w /\ np_global w' = np_global w /\
  py_random w' = py_random w /\
  py_cursor w <= py_cursor w' <= S (py_cursor w) /\
  calls w `prefix_of` calls w'.
Proof.
  assert (Hsel : forall intent p w0,
            let w' := (App.select_response bot intent p w0).2 in
            files w' = files w0 /\ dirs w' = dirs w0 /\
            np_global w' = np_global w0 /\ py_random w' = py_random w0 /\
            py_cursor w0 <= py_cursor w' <= S (py_cursor w0) /\
            calls w0 `prefix_of` calls w').
  { intros intent p w0. unfold App.select_response.
    assert (Hch : forall seq,
              let w' := (random_choice seq w0).2 in
              files w' = files w0 /\ dirs w' = dirs w0 /\
              np_global w' = np_global w0 /\ py_random w' = py_random w0 /\
              py_cursor w0 <= py_cursor w' <= S (py_cursor w0) /\
              calls w0 `prefix_of` calls w').
    { intros [|a seq]; simpl; split_and!; try done; try lia;
        by apply prefix_app_r. }
    destruct (_ && _); [|apply Hch].
    unfold bind, lift. destruct (App.tag_responses bot !! intent).
    - apply Hch.
    - simpl. split_and!; try done; lia. }
  destruct (not_ (strip q)) eqn:Hq.
  - unfold App.get_response. rewrite Hq. simpl. split_and!; try done; lia.
  - rewrite (get_response_steps _ _ _ Hq).
    unfold try_except, bind at 1, Train.predict, bind, call, lift, log, ret.
    simpl.
    destruct (transform _ _) as [X|]; simpl;
      [|split_and!; try done; try lia; by apply prefix_app_r].
    destruct (predict _ _) as [prediction|]; simpl;
      [|split_and!; try done; try lia;
        by repeat (etrans; [|by apply prefix_app_r])].
    destruct (predict_proba _ _) as [proba|]; simpl;
      [|split_and!; try done; try lia;
        by repeat (etrans; [|by apply prefix_app_r])].
    destruct (np_max _) as [probability|]; simpl;
      [|split_and!; try done; try lia;
        by repeat (etrans; [|by apply prefix_app_r])].
    destruct (inverse_transform _ _) as [intents|]; simpl;
      [|split_and!; try done; try lia;
        by repeat (etrans; [|by apply prefix_app_r])].
    destruct (getitem _ _) as [intent|]; simpl;
      [|split_and!; try done; try lia;
        by repeat (etrans; [|by apply prefix_app_r])].
    rewrite announce_cases.
    destruct (printable q && printable intent); simpl;
      [|split_and!; try done; try lia;
        by repeat (etrans; [|by apply prefix_app_r])].
    match goal with
    | |- context [App.select_response bot intent probability ?w0] =>
      pose proof (Hsel intent probability w0) as Hs;
      destruct (App.select_response bot intent probability w0) as [[r|e] w2]
    end; simpl in *; destruct Hs as (? & ? & ? & ? & ? & Hpre);
      split_and!; try done; try lia;
      (etrans; [|exact Hpre]);
      by repeat (etrans; [|by apply prefix_app_r]).
Qed.

End Serving.

(** * Further properties of [train.py] *)

Section SaveModel.
Context `{Unicode} `{Libm} `{NumpyRandom} `{Solver}.

(** A run of [train] that raises may have written some of the model files:
    [save_model] opens them one after the other, and the files written
    before the one that cannot be opened stay written.  Such a run leaves
    every file other than the vectorizer file and the label encoder file
    as it was, the classifier file included; it has written the label
    encoder file only after the vectorizer file; and in a state where
    nothing stands in the way of [save_model] it has written nothing. *)
Theorem train_failure_partial_write (self : Train.Trainer) (w w' : World) e :
  Train.train self w = (Raise e, w') ->
  (forall path,
     path <> lit "models/tfidf_vectorizer.pkl" ->
     path <> lit "models/label_encoder.pkl" ->
     files w' !! path = files w !! path) /\
  (files w' !! lit "models/label_encoder.pkl"
     <> files w !! lit "models/label_encoder.pkl" ->
   exists vec,
     files w' !! lit "models/tfidf_vectorizer.pkl"
     = Some (PickledVectorizer vec)) /\
  (Train.savable w = true -> files w' = files w).
Proof.
  assert (Hnil : forall w0 : World,
            files w0 = files w ->
            (forall path,
               path <> lit "models/tfidf_vectorizer.pkl" ->
               path <> lit "models/label_encoder.pkl" ->
               files w0 !! path = files w !! path) /\
            (files w0 !! lit "models/label_encoder.pkl"
               <> files w !! lit "models/label_encoder.pkl" ->
             exists vec,
               files w0 !! lit "models/tfidf_vectorizer.pkl"
               = Some (PickledVectorizer vec)) /\
            (Train.savable w = true -> files w0 = files w)).
  { intros w0 ->. split_and!; done. }
  rewrite train_steps.
  destruct (files w !! Train.intents_file self) as [[intents|v|enc0|c]|];
    try (by intros [= _ <-]; apply Hnil).
  destruct (tfidf_fit_transform _ _) as [[vec X]|];
    [|by intros [= _ <-]; apply Hnil].
  destruct (label_fit_transform _) as [[enc y]|];
    [|by intros [= _ <-]; apply Hnil].
  destruct (train_test_split _ _ _ _ _)
    as [[[[[X_train X_test] y_train] y_test]|] g];
    [|by intros [= _ <-]; apply Hnil].
  destruct (lr_fit _ _ _) as [clf|]; [|by intros [= _ <-]; apply Hnil].
  destruct (predict _ _) as [y_pred|]; [|by intros [= _ <-]; apply Hnil].
  destruct (accuracy_score _ _) as [acc|]; [|by intros [= _ <-]; apply Hnil].
  cbv zeta.
  match goal with
  | |- context [Train.save_model ?s ?w1] =>
    destruct (save_model_cases s w1)
      as [(_ & ->)|(Hno & e1 & fs & ds & -> & Hfs)]
  end; [done|].
  intros [= _ <-]. cbn [on_disk files] in *.
  change (Train.savable w = false) in Hno.
  destruct model_paths_distinct as (H12 & H13 & H23).
  change (lit "models/tfidf_vectorizer.pkl")
    with (lit "models" ++ lit "/" ++ lit "tfidf_vectorizer.pkl").
  change (lit "models/label_encoder.pkl")
    with (lit "models" ++ lit "/" ++ lit "label_encoder.pkl").
  destruct Hfs as [->|[->| ->]].
  - split_and!; [done|done|congruence].
  - split_and!; [|intros Hne; exfalso; apply Hne|congruence].
    + intros path Hp1 Hp2. by rewrite lookup_insert_ne.
    + by rewrite lookup_insert_ne.
  - split_and!; [| |congruence].
    + intros path Hp1 Hp2. by rewrite !lookup_insert_ne.
    + intros _. exists vec. rewrite lookup_insert_ne by done.
      by rewrite lookup_insert_eq.
Qed.

(** A run of [train] that returns has changed no file but the three model
    files; the intents file, in particular, is as it was. *)
Theorem train_writes_only_models (self self' : Train.Trainer) (w w' : World)
    acc (path : str) :
  Train.train self w = (Ok (self', acc), w') ->
  path <> lit "models/tfidf_vectorizer.pkl" ->
  path <> lit "models/label_encoder.pkl" ->
  path <> lit "models/intent_classifier.joblib" ->
  files w' !! path = files w !! path.
Proof.
  rewrite train_steps.
  destruct (files w !! Train.intents_file self) as [[intents|v|enc0|c]|];
    try done.
  destruct (tfidf_fit_transform _ _) as [[vec X]|]; [|done].
  destruct (label_fit_transform _) as [[enc y]|]; [|done].
  destruct (train_test_split _ _ _ _ _)
    as [[[[[X_train X_test] y_train] y_test]|] g]; [|done].
  destruct (lr_fit _ _ _) as [clf|]; [|done].
  destruct (predict _ _) as [y_pred|]; [|done].
  destruct (accuracy_score _ _) as [acc'|]; [|done].
  cbv zeta.
  match goal with
  | |- context [Train.save_model ?s ?w1] =>
    destruct (save_model_cases s w1)
      as [(_ & ->)|(_ & e1 & fs & ds & -> & _)]
  end; [|done].
  intros [= _ _ <-] Hp1 Hp2 Hp3. cbn [on_disk files].
  match goal with
  | |- context [<[_ := ?c]> (<[_ := ?e]> (<[_ := ?v]> ?fs))] =>
    destruct (model_files_lookup fs v e c) as (_ & _ & _ & Hother)
  end.
  by apply Hother.
Qed.

(** What a run of [train] that returns leaves in the object and in the
    model files. *)
Lemma train_returns (self self' : Train.Trainer) (w w' : World) acc :
  Train.train self w = (Ok (self', acc), w') ->
  exists intents vec X enc y X_train X_test y_train y_test clf,
    files w !! Train.intents_file self = Some (IntentsJson intents) /\
    tfidf_fit_transform (Train.vectorizer self) (Train.prepare intents).1
      = Ok (vec, X) /\
    label_fit_transform (Train.prepare intents).2 = Ok (enc, y) /\
    train_test_split X y (1 # 5) (Some 42%Z) (np_global w)
      = (Ok (X_train, X_test, y_train, y_test), np_global w) /\
    lr_fit (new_LogisticRegression 1000 (Some 42%Z)) X_train y_train
      = Ok clf /\
    self' = {| Train.intents_file := Train.intents_file self;
               Train.vectorizer := vec; Train.label_encoder := enc;
               Train.classifier := Some clf |} /\
    files w' =
      <[lit "models" ++ lit "/" ++ lit "intent_classifier.joblib"
          := JoblibClassifier (Some clf)]>
        (<[lit "models" ++ lit "/" ++ lit "label_encoder.pkl"
             := PickledLabelEncoder enc]>
           (<[lit "models" ++ lit "/" ++ lit "tfidf_vectorizer.pkl"
                := PickledVectorizer vec]> (files w))).
Proof.
  rewrite train_steps.
  destruct (files w !! Train.intents_file self) as [[intents|v|enc0|c]|];
    try done.
  destruct (tfidf_fit_transform _ _) as [[vec X]|] eqn:Hvec; [|done].
  destruct (label_fit_transform _) as [[enc y]|] eqn:Henc; [|done].
  destruct (split_seeded X y (1 # 5) 42%Z (np_global w) (np_global w))
    as [_ Hg].
  destruct (train_test_split _ _ _ _ _)
    as [[[[[X_train X_test] y_train] y_test]|] g] eqn:Hsplit; [|done].
  simpl in Hg. subst g.
  destruct (lr_fit _ _ _) as [clf|] eqn:Hfit; [|done].
  destruct (predict _ _) as [y_pred|]; [|done].
  destruct (accuracy_score _ _) as [acc'|]; [|done].
  cbv zeta.
  match goal with
  | |- context [Train.save_model ?s ?w1] =>
    destruct (save_model_cases s w1)
      as [(_ & ->)|(_ & e1 & fs & ds & -> & _)]
  end; [|done].
  intros [= <- _ <-].
  exists intents, vec, X, enc, y, X_train, X_test, y_train, y_test, clf.
  split_and!; done.
Qed.

(** Training, then starting the chatbot: [SimpleDekutChatbot()] loads the
    very vectorizer, label encoder and classifier that [train] fitted, and
    maps the tags of [intents.json] to their responses. *)
Theorem train_then_init (self self' : Train.Trainer) (w w' : World) acc
    intents :
  Train.train self w = (Ok (self', acc), w') ->
  files w !! lit "intents.json" = Some (IntentsJson intents) ->
  App.init w' =
  (Ok {| App.intents_data := intents;
         App.vectorizer := Train.vectorizer self';
         App.label_encoder := Train.label_encoder self';
         App.classifier := Train.classifier self';
         App.tag_responses := App.response_mapping intents |}, w').
Proof.
  intros Htrain Hintents.
  destruct (train_returns _ _ _ _ _ Htrain)
    as (ints & vec & X & enc & y & Xtr & Xte & ytr & yte & clf
        & _ & _ & _ & _ & _ & -> & Hfiles).
  destruct model_paths_distinct as (H12 & H13 & H23).
  assert (Hi : files w' !! lit "intents.json" = Some (IntentsJson intents)).
  { rewrite Hfiles. rewrite !lookup_insert_ne by (vm_compute; discriminate).
    done. }
  assert (Hf1 : files w' !! lit "models/tfidf_vectorizer.pkl"
               = Some (PickledVectorizer vec)).
  { rewrite Hfiles.
    change (lit "models/tfidf_vectorizer.pkl")
      with (lit "models" ++ lit "/" ++ lit "tfidf_vectorizer.pkl").
    rewrite lookup_insert_ne by done. rewrite lookup_insert_ne by done.
    by rewrite lookup_insert_eq. }
  assert (Hf2 : files w' !! lit "models/label_encoder.pkl"
               = Some (PickledLabelEncoder enc)).
  { rewrite Hfiles.
    change (lit "models/label_encoder.pkl")
      with (lit "models" ++ lit "/" ++ lit "label_encoder.pkl").
    rewrite lookup_insert_ne by done. by rewrite lookup_insert_eq. }
  assert (Hf3 : files w' !! lit "models/intent_classifier.joblib"
               = Some (JoblibClassifier (Some clf))).
  { rewrite Hfiles.
    change (lit "models/intent_classifier.joblib")
      with (lit "models" ++ lit "/" ++ lit "intent_classifier.joblib").
    by rewrite lookup_insert_eq. }
  unfold App.init, bind, read_file, ret. rewrite Hi, Hf1, Hf2, Hf3. done.
Qed.

(** Without one of its four files the chatbot does not start: [__init__]
    raises and the state is as before. *)
Theorem init_missing_file (w : World) (path : str) :
  path ∈ [lit "intents.json"; lit "models/tfidf_vectorizer.pkl";
          lit "models/label_encoder.pkl";
          lit "models/intent_classifier.joblib"] ->
  files w !! path = None ->
  exists e, App.init w = (Raise e, w).
Proof.
  intros Hpath Hnone. unfold App.init, bind, read_file, ret, raise.
  repeat match goal with
         | |- context [files w !! ?p] =>
           lazymatch p with
           | path => fail
           | _ =>
             destruct (files w !! p) as [[?|?|?|?]|] eqn:?;
               try (destruct (bool_decide (p ∈ dirs w))); eauto
           end
         end;
    repeat (apply elem_of_cons in Hpath as [->|Hpath]; [congruence|]);
    by apply elem_of_nil in Hpath.
Qed.

End SaveModel.

Section TrainingFailures.
Context `{Unicode} `{Libm} `{NumpyRandom} `{Solver}.

Lemma word_ngrams_nil (range : nat * nat) : word_ngrams range [] = [].
Proof.
  unfold word_ngrams.
  induction (seq (Nat.max 1 range.1) (S range.2 - Nat.max 1 range.1))
    as [|n l IH]; [done|]. simpl. exact IH.
Qed.

Lemma concat_nil {A} (ls : list (list A)) :
  Forall (fun l => l = []) ls -> concat ls = [].
Proof. induction 1 as [|l ls -> _ IH]; [done|]. simpl. exact IH. Qed.

(** The exceptions of the fitting steps are all [ValueError]. *)
Lemma tfidf_fit_transform_raises (v : TfidfVectorizer) raw e :
  tfidf_fit_transform v raw = Raise e -> e = ValueError.
Proof.
  unfold tfidf_fit_transform.
  destruct (bool_decide _); [by intros [= <-]|].
  destruct (bool_decide _); [by intros [= <-]|]. done.
Qed.

Lemma rmap_inv {A B} (f : A -> result B) (l : list A) (ys : list B) :
  rmap f l = Ok ys -> Forall2 (fun x y => f x = Ok y) l ys.
Proof.
  revert ys. induction l as [|x l IH]; intros ys; simpl.
  - intros [= <-]. constructor.
  - destruct (f x) as [y|] eqn:Hx; simpl; [|done].
    destruct (rmap f l) as [ys'|]; simpl; [|done].
    intros [= <-]. constructor; [done|]. by apply IH.
Qed.

(** Fitting the label encoder never fails. *)
Lemma label_codec_fit (tags : list str) :
  exists enc codes, label_fit_transform tags = Ok (enc, codes).
Proof.
  unfold label_fit_transform.
  rewrite (rmap_ok _ (fun t => default 0 (index_of t (unique_str tags)))).
  - simpl. eauto.
  - intros t Ht. destruct (encode_decode tags t Ht) as (c & Hc & _).
    unfold encode in Hc |- *.
    destruct (index_of t (unique_str tags)); [done|discriminate].
Qed.

Lemma label_fit_transform_raises (tags : list str) e :
  label_fit_transform tags = Raise e -> e = ValueError.
Proof.
  destruct (label_codec_fit tags) as (enc & codes & Hfit). by rewrite Hfit.
Qed.

Lemma train_test_split_raises {A B} (X : list A) (y : list B) ts seed g e g' :
  train_test_split X y ts seed g = (Raise e, g') -> e = ValueError.
Proof.
  unfold train_test_split.
  destruct (negb _); [by intros [= <-]|].
  destruct (_ || _); [by intros [= <-]|].
  destruct (_ =? 0); [by intros [= <-]|].
  by destruct (permutation _ _).
Qed.

(** The training part of a split is not empty and is made of samples. *)
Lemma split_training_part {A B} (X : list A) (y : list B) seed g
    X_train X_test y_train y_test g' :
  train_test_split X y (1 # 5) seed g
    = (Ok (X_train, X_test, y_train, y_test), g') ->
  X_train <> [] /\ X_train ⊆ X /\ y_train ⊆ y.
Proof.
  intros Hsplit.
  destruct (split_partition _ _ _ _ _ _ _ _ _ Hsplit)
    as (HpX & Hpy & _ & HlX & _).
  split_and!.
  - intros ->. cbn [length] in HlX. revert Hsplit. unfold train_test_split.
    rewrite n_test_fifth.
    destruct (negb _); [done|].
    change (Qle_bool (1 # 5) 0 || Qle_bool 1 (1 # 5)) with false. cbv iota.
    destruct (length X - (length X + 4) / 5 =? 0) eqn:Hz; [done|].
    apply Nat.eqb_neq in Hz. lia.
  - intros x Hx. rewrite <- HpX. apply elem_of_app. by right.
  - intros c Hc. rewrite <- Hpy. apply elem_of_app. by right.
Qed.

Lemma lr_fit_inv (m clf : LogisticRegression) X (y : list nat) :
  lr_fit m X y = Ok clf ->
  lr_classes_ clf = unique_nat y /\
  n_features_in_ clf = length (default [] (head X)) /\
  2 <= length (unique_nat y).
Proof.
  unfold lr_fit. destruct (negb _); [done|].
  destruct (length (unique_nat y) <? 2) eqn:Hlt; [done|].
  apply Nat.ltb_ge in Hlt. destruct (lbfgs _ _ _ _) as [coef intercept].
  by intros [= <-].
Qed.

Lemma unique_nat_constant (l : list nat) (c : nat) :
  Forall (fun x => x = c) l -> length (unique_nat l) <= 1.
Proof.
  intros Hall. unfold unique_nat. rewrite merge_sort_Permutation.
  assert (Hsub : remove_dups l ⊆+ [c]).
  { apply NoDup_submseteq; [apply NoDup_remove_dups|].
    intros x Hx. rewrite elem_of_remove_dups in Hx.
    rewrite Forall_forall in Hall. rewrite (Hall x Hx).
    apply list_elem_of_here. }
  by apply submseteq_length in Hsub.
Qed.

(** A corpus none of whose patterns has a token (a run of two or more word
    characters), the empty corpus in particular, cannot be trained on: the
    vectorizer rejects it with [ValueError] and nothing changes. *)
Theorem train_without_tokens (self : Train.Trainer) (w : World) intents :
  files w !! Train.intents_file self = Some (IntentsJson intents) ->
  (forall intent pattern,
     intent ∈ intents -> pattern ∈ patterns intent ->
     tokenize (lower (lower pattern)) = []) ->
  Train.train self w = (Raise ValueError, w).
Proof.
  intros Hfile Hno. rewrite train_steps, Hfile.
  assert (Hfit : tfidf_fit_transform (Train.vectorizer self)
                                     (Train.prepare intents).1
                 = Raise ValueError).
  { unfold tfidf_fit_transform.
    rewrite bool_decide_eq_true_2; [done|].
    unfold corpus_terms. rewrite concat_nil; [done|].
    apply Forall_forall. intros d Hd.
    apply list_elem_of_In, in_map_iff in Hd as (p & <- & Hp).
    apply list_elem_of_In in Hp. rewrite prepare_concat in Hp. simpl in Hp.
    apply elem_of_concat in Hp as (l & Hl & Hp).
    apply list_elem_of_In, in_map_iff in Hl as (intent & <- & Hintent).
    apply list_elem_of_In in Hintent. unfold Train.lowered in Hp.
    apply list_elem_of_In, in_map_iff in Hp as (raw & <- & Hraw).
    apply list_elem_of_In in Hraw.
    unfold analyze. rewrite (Hno intent raw Hintent Hraw).
    apply word_ngrams_nil. }
  by rewrite Hfit.
Qed.

(** A corpus whose intents all carry the same tag cannot be trained on:
    [train] raises [ValueError] (at the latest when the classifier is
    fitted on a single class) and writes nothing. *)
Theorem train_single_tag (self : Train.Trainer) (w : World) intents (t : str) :
  files w !! Train.intents_file self = Some (IntentsJson intents) ->
  (forall intent, intent ∈ intents -> tag intent = t) ->
  exists w', Train.train self w = (Raise ValueError, w') /\
             files w' = files w.
Proof.
  intros Hfile Hone. rewrite train_steps, Hfile.
  destruct (tfidf_fit_transform _ _) as [[vec X]|e] eqn:Hvec.
  2:{ apply tfidf_fit_transform_raises in Hvec as ->. eauto. }
  destruct (label_fit_transform _) as [[enc y]|e] eqn:Henc.
  2:{ apply label_fit_transform_raises in Henc as ->. eauto. }
  destruct (train_test_split _ _ _ _ _)
    as [[[[[X_train X_test] y_train] y_test]|e] g] eqn:Hsplit.
  2:{ apply train_test_split_raises in Hsplit as ->. eauto. }
  assert (Htags : Forall (fun u => u = t) (Train.prepare intents).2).
  { rewrite prepare_concat. simpl. apply Forall_forall. intros u Hu.
    apply elem_of_concat in Hu as (l & Hl & Hu).
    apply list_elem_of_In, in_map_iff in Hl as (intent & <- & Hintent).
    apply list_elem_of_In in Hintent. unfold Train.tagged in Hu.
    apply elem_of_replicate in Hu as [-> _]. by apply Hone. }
  assert (Hcodes : exists c, Forall (fun x => x = c) y).
  { unfold label_fit_transform in Henc.
    destruct (rmap _ _) as [codes|] eqn:Hr; [|done].
    simpl in Henc. injection Henc as <- <-.
    apply rmap_inv in Hr.
    destruct (encode (unique_str (Train.prepare intents).2) t) as [c|] eqn:Hc.
    - exists c. apply Forall_forall. intros x Hx.
      apply list_elem_of_lookup in Hx as [i Hx].
      destruct (Forall2_lookup_r _ _ _ _ _ Hr Hx) as (u & Hu & Hux).
      rewrite Forall_forall in Htags.
      rewrite (Htags u) in Hux by (apply list_elem_of_lookup; eauto).
      congruence.
    - exists 0. apply Forall_forall. intros x Hx.
      apply list_elem_of_lookup in Hx as [i Hx].
      destruct (Forall2_lookup_r _ _ _ _ _ Hr Hx) as (u & Hu & Hux).
      rewrite Forall_forall in Htags.
      rewrite (Htags u) in Hux by (apply list_elem_of_lookup; eauto).
      congruence. }
  destruct Hcodes as [c Hcodes].
  destruct (split_training_part _ _ _ _ _ _ _ _ _ Hsplit) as (_ & _ & Hsub).
  assert (Hone_class : length (unique_nat y_train) <= 1).
  { apply (unique_nat_constant _ c). apply Forall_forall. intros x Hx.
    rewrite Forall_forall in Hcodes. by apply Hcodes, Hsub. }
  assert (Hfit : lr_fit (new_LogisticRegression 1000 (Some 42%Z))
                        X_train y_train = Raise ValueError).
  { unfold lr_fit. destruct (negb _); [done|].
    destruct (length (unique_nat y_train) <? 2) eqn:Hlt; [done|].
    apply Nat.ltb_ge in Hlt. lia. }
  rewrite Hfit. eauto.
Qed.

End TrainingFailures.

Section TrainedBundle.
Context `{Unicode} `{Libm} `{NumpyRandom} `{Solver}.

Lemma l2_normalize_length (row : list Q) :
  length (l2_normalize row) = length row.
Proof.
  unfold l2_normalize. destruct (Qeq_bool _ _); [done|]. apply length_map.
Qed.

(** What [fit_transform] stores and returns: one inverse document frequency
    per term of the vocabulary, and one row of that width per document. *)
Lemma fit_transform_shape (v v' : TfidfVectorizer) raw X :
  tfidf_fit_transform v raw = Ok (v', X) ->
  exists vocabulary idfs,
    fitted v' = Some (vocabulary, idfs) /\
    length idfs = length vocabulary /\
    Forall (fun row => length row = length vocabulary) X.
Proof.
  unfold tfidf_fit_transform.
  destruct (bool_decide _); [done|]. destruct (bool_decide _); [done|].
  intros [= <- <-]. eexists _, _. split; [done|].
  split; [by rewrite length_map|].
  apply Forall_forall. intros row Hrow.
  apply list_elem_of_In, in_map_iff in Hrow as (d & <- & _).
  unfold tfidf_row. rewrite l2_normalize_length, length_zip_with, length_map.
  lia.
Qed.

Lemma elem_of_unique_nat (x : nat) l : x ∈ unique_nat l <-> x ∈ l.
Proof.
  unfold unique_nat. rewrite merge_sort_Permutation. apply elem_of_remove_dups.
Qed.

(** The bundle that [train] leaves is in lockstep: the classifier takes as
    many features as the vocabulary has terms, and every class it can
    predict is a code that the label encoder decodes, to the tag of an
    intent of the corpus. *)
Theorem trained_bundle_in_lockstep (self self' : Train.Trainer)
    (w w' : World) acc intents :
  Train.train self w = (Ok (self', acc), w') ->
  files w !! Train.intents_file self = Some (IntentsJson intents) ->
  exists vocabulary idfs clf,
    fitted (Train.vectorizer self') = Some (vocabulary, idfs) /\
    length idfs = length vocabulary /\
    Train.classifier self' = Some clf /\
    n_features_in_ clf = length vocabulary /\
    2 <= length (lr_classes_ clf) /\
    (forall c, c ∈ lr_classes_ clf ->
       exists intent,
         intent ∈ intents /\
         label_inverse_transform (Train.label_encoder self') [c]
           = Ok [tag intent]).
Proof.
  intros Htrain Hfile.
  destruct (train_returns _ _ _ _ _ Htrain)
    as (ints & vec & X & enc & y & Xtr & Xte & ytr & yte & clf
        & Hfile' & Hvec & Henc & Hsplit & Hfit & -> & _).
  rewrite Hfile in Hfile'. injection Hfile' as <-.
  destruct (fit_transform_shape _ _ _ _ Hvec)
    as (vocabulary & idfs & Hfitted & Hlen & Hrows).
  destruct (lr_fit_inv _ _ _ _ Hfit) as (Hclasses & Hfeat & Htwo).
  destruct (split_training_part _ _ _ _ _ _ _ _ _ Hsplit)
    as (Hne & HsubX & Hsuby).
  exists vocabulary, idfs, clf. simpl. split_and!; try done.
  - rewrite Hfeat. destruct Xtr as [|row Xtr]; [done|]. simpl.
    rewrite Forall_forall in Hrows. apply Hrows, HsubX, list_elem_of_here.
  - by rewrite Hclasses.
  - intros c Hc. rewrite Hclasses in Hc. rewrite elem_of_unique_nat in Hc.
    apply Hsuby in Hc.
    unfold label_fit_transform in Henc.
    destruct (rmap _ _) as [codes|] eqn:Hr; [|done].
    simpl in Henc. injection Henc as <- <-.
    apply rmap_inv in Hr.
    apply list_elem_of_lookup in Hc as [i Hc].
    destruct (Forall2_lookup_r _ _ _ _ _ Hr Hc) as (u & Hu & Hux).
    unfold encode in Hux.
    destruct (index_of u _) as [j|] eqn:Hj; [|done].
    injection Hux as ->. apply index_of_lookup in Hj.
    assert (Hin : u ∈ (Train.prepare intents).2)
      by (apply list_elem_of_lookup; eauto).
    rewrite prepare_concat in Hin. simpl in Hin.
    apply elem_of_concat in Hin as (l & Hl & Hin).
    apply list_elem_of_In, in_map_iff in Hl as (intent & <- & Hintent).
    apply list_elem_of_In in Hintent. unfold Train.tagged in Hin.
    apply elem_of_replicate in Hin as [-> _].
    exists intent. split; [done|].
    unfold label_inverse_transform. simpl. by rewrite Hj.
Qed.

Lemma accuracy_score_bounds (y_true y_pred : list nat) acc :
  accuracy_score y_true y_pred = Ok acc -> (0 <= acc <= 1)%Q.
Proof.
  unfold accuracy_score. destruct (negb _); [done|].
  set (hits := length (filter _ (zip y_true y_pred))).
  assert (Hhits : hits <= length y_true).
  { unfold hits. etrans; [apply length_filter|].
    rewrite length_zip_with. lia. }
  intros [= <-].
  destruct (length y_true) as [|n] eqn:Hn.
  - assert (hits = 0) as -> by lia. by vm_compute.
  - assert (Hpos : (0 < inject_Z (Z.of_nat (S n)))%Q).
    { rewrite <- (Zlt_Qlt 0). lia. }
    split.
    + apply Qle_shift_div_l; [done|]. rewrite Qmult_0_l.
      rewrite <- (Zle_Qle 0). lia.
    + apply Qle_shift_div_r; [done|]. rewrite Qmult_1_l.
      rewrite <- Zle_Qle. lia.
Qed.

(** The accuracy that [train] returns is a fraction between 0 and 1. *)
Theorem train_accuracy_bounds (self self' : Train.Trainer) (w w' : World) acc :
  Train.train self w = (Ok (self', acc), w') -> (0 <= acc <= 1)%Q.
Proof.
  rewrite train_steps.
  destruct (files w !! Train.intents_file self) as [[intents|v|enc0|c]|];
    try done.
  destruct (tfidf_fit_transform _ _) as [[vec X]|]; [|done].
  destruct (label_fit_transform _) as [[enc y]|]; [|done].
  destruct (train_test_split _ _ _ _ _)
    as [[[[[X_train X_test] y_train] y_test]|] g]; [|done].
  destruct (lr_fit _ _ _) as [clf|]; [|done].
  destruct (predict _ _) as [y_pred|]; [|done].
  destruct (accuracy_score _ _) as [acc'|] eqn:Hacc; [|done].
  cbv zeta. destruct (Train.save_model _ _) as [[[]|] w2]; [|done].
  intros [= _ <- _]. by apply accuracy_score_bounds in Hacc.
Qed.

End TrainedBundle.

Section Allowed.
Context `{Unicode} `{NumpyRandom}.
Context `{Vectorizer V} `{LabelDecoder L} `{Classifier C}.

Lemma random_choice_cases (seq : list str) (w : World) :
  (exists r w', random_choice seq w = (Ok r, w') /\ r ∈ seq) \/
  (exists e w', random_choice seq w = (Raise e, w')).
Proof.
  destruct seq as [|a seq].
  - right. rewrite random_choice_empty. eauto.
  - left. destruct (random_choice_nonempty (a :: seq) w) as (r & Hr & Hc);
      [done|].
    exists r, (after_choice (a :: seq) w). split; [done|].
    apply list_elem_of_lookup. eauto.
Qed.

(** Whatever the query, [get_response] answers with one of: the prompt,
    the "having trouble" message, a fallback, or a response registered for
    some tag.  It returns nothing else. *)
Theorem get_response_allowed (bot : App.SimpleDekutChatbot V L C)
    (q : str) (w : World) :
  exists r w',
    App.get_response bot q w = (Ok r, w') /\
    (r = App.please_type \/ r = App.having_trouble \/ r ∈ App.fallbacks \/
     exists t (rs : list str), App.tag_responses bot !! t = Some rs /\ r ∈ rs).
Proof.
  destruct (not_ (strip q)) eqn:Hq.
  - exists App.please_type, w. unfold App.get_response. rewrite Hq. eauto.
  - rewrite (get_response_steps _ _ _ Hq). unfold try_except, bind at 1.
    destruct (Train.predict _ _ _) as [[[intent p]|e] w1].
    2:{ exists App.having_trouble, w1. eauto. }
    unfold bind. rewrite announce_cases.
    destruct (printable q && printable intent).
    2:{ exists App.having_trouble, w1. eauto. }
    unfold App.select_response.
    destruct (App.above_threshold p && _) eqn:Hcond.
    + apply andb_prop in Hcond as [_ Hreg].
      apply bool_decide_eq_true in Hreg as [rs Hrs]. rewrite Hrs.
      unfold bind, lift.
      destruct (random_choice_cases rs w1)
        as [(r & w2 & -> & Hin)|(e & w2 & ->)].
      * exists r, w2. split; [done|]. do 3 right. eauto.
      * exists App.having_trouble, w2. eauto.
    + destruct (random_choice_cases App.fallbacks w1)
        as [(r & w2 & -> & Hin)|(e & w2 & ->)].
      * exists r, w2. eauto.
      * exists App.having_trouble, w2. eauto.
Qed.

End Allowed.

(** * Properties of [scraper.py] *)

Section ScraperStrings.
Import Scraper.

Lemma starts_with_spec (sub s : str) :
  starts_with sub s = true <-> exists post, s = sub ++ post.
Proof.
  revert s. induction sub as [|a sub IH]; intros s; simpl.
  - split; [by exists s|done].
  - destruct s as [|b s]; simpl.
    + split; [done|]. by intros (post & ?).
    + rewrite andb_true_iff, N.eqb_eq, IH. split.
      * intros [-> (post & ->)]. by exists post.
      * intros (post & [= -> ->]). eauto.
Qed.

(** [contains sub s] is the test [sub in s]: [sub] occurs in [s]. *)
Lemma contains_spec (sub s : str) :
  contains sub s = true <-> exists pre post, s = pre ++ sub ++ post.
Proof.
  induction s as [|b s IH].
  - simpl. rewrite orb_false_r.
    change (match sub with [] => true | _ :: _ => false end)
      with (starts_with sub []).
    rewrite starts_with_spec. split.
    + intros (post & Hs). by exists [], post.
    + intros (pre & post & Hs). destruct pre; [by exists post|done].
  - cbn [contains]. rewrite orb_true_iff, starts_with_spec, IH. split.
    + intros [(post & ->)|(pre & post & ->)].
      * by exists [], post.
      * by exists (b :: pre), post.
    + intros ([|c pre] & post & Hs).
      * left. by exists post.
      * right. injection Hs as -> ->. by exists pre, post.
Qed.

Lemma lstrip_suffix (s : str) : lstrip s `suffix_of` s.
Proof.
  induction s as [|c s IH]; simpl; [done|].
  destruct (isspace c); [|done]. by apply suffix_cons_r.
Qed.

Lemma rstrip_prefix (s : str) : rstrip s `prefix_of` s.
Proof.
  unfold rstrip. destruct (lstrip_suffix (rev s)) as [k Hk].
  exists (rev k). apply (f_equal (@rev N)) in Hk.
  rewrite rev_involutive, rev_app_distr in Hk. done.
Qed.

(** A stripped string does not begin with white space. *)
Lemma strip_head (s : str) c rest :
  strip s = c :: rest -> isspace c = false.
Proof.
  unfold strip. intros Hs.
  destruct (rstrip_prefix (lstrip s)) as [k Hk]. rewrite Hs in Hk.
  simpl in Hk. by apply lstrip_head in Hk.
Qed.

End ScraperStrings.

Section ScraperPages.
Import Scraper.
Context `{Unicode} `{Web} `{SetOrder}.

Lemma collect_acc (content : str) (siblings : list Element) :
  collect content siblings = content ++ collect [] siblings.
Proof.
  revert content. induction siblings as [|el rest IH]; intros content; simpl.
  - by rewrite app_nil_r.
  - destruct (bool_decide (name el ∈ heading_names)); [by rewrite app_nil_r|].
    destruct (bool_decide (name el = lit "p")); [|apply IH].
    rewrite IH, (IH (text el ++ lit " ")). by rewrite <- !app_assoc.
Qed.

(** The content gathered for a heading is the text of the paragraphs among
    the siblings that come before the next heading, each followed by a
    space; tags other than [p] contribute nothing, and nothing after the
    next heading is read. *)
Theorem collect_paragraphs (before after : list Element) :
  Forall (fun el => name el ∉ heading_names) before ->
  (after = [] \/
   exists h rest, after = h :: rest /\ name h ∈ heading_names) ->
  collect [] (before ++ after)
  = concat (map (fun el => text el ++ lit " ")
                (filter (fun el => name el = lit "p") before)).
Proof.
  intros Hbefore Hafter.
  induction Hbefore as [|el before Hel _ IH].
  - destruct Hafter as [->|(h & rest & -> & Hh)]; [done|].
    simpl. by rewrite bool_decide_eq_true_2.
  - cbn [app collect]. rewrite bool_decide_eq_false_2 by done.
    rewrite filter_cons. destruct (decide (name el = lit "p")) as [Hp|Hp].
    + rewrite bool_decide_eq_true_2 by done.
      rewrite collect_acc, IH. simpl. by rewrite <- app_assoc.
    + rewrite bool_decide_eq_false_2 by done. exact IH.
Qed.

(** Every record that [scrape_page] returns comes from a heading of a page
    fetched with status 200: its question is the stripped heading, in whose
    lower-cased text one of the keywords occurs; its answer is the stripped
    content cut to 300 characters, is not empty and does not begin with
    white space; its source is the page. *)
Theorem scrape_page_faqs (base page_url : str) (keywords : list str)
    (faq : Faq) :
  faq ∈ scrape_page base page_url keywords ->
  source faq = page_url /\
  0 < length (answer faq) <= 300 /\
  (forall c rest, answer faq = c :: rest -> isspace c = false) /\
  (exists k pre post,
     k ∈ keywords /\ lower (question faq) = pre ++ k ++ post) /\
  (exists headings h,
     fetch (base ++ page_url) = Ok (200, headings) /\ h ∈ headings /\
     question faq = strip (text (heading h)) /\
     answer faq = take 300 (strip (collect [] (next_siblings h)))).
Proof.
  unfold scrape_page.
  destruct (fetch (base ++ page_url)) as [[status headings]|e];
    [|by intros ?%elem_of_nil].
  destruct (status =? 200) eqn:Hstatus; simpl; [|by intros ?%elem_of_nil].
  apply Nat.eqb_eq in Hstatus. subst status.
  intros (h & Hh & Hfaq)%list_elem_of_omap.
  unfold scrape_heading in Hfaq.
  destruct (existsb _ keywords) eqn:Hkw; [|done].
  apply existsb_exists in Hkw as (k & Hk & Hin).
  apply contains_spec in Hin as (pre & post & Hin).
  destruct (negb _ && _) eqn:Hcontent; [|done].
  apply andb_prop in Hcontent as [Hne _].
  injection Hfaq as <-. simpl.
  destruct (strip (collect [] (next_siblings h))) as [|c rest] eqn:Hstrip;
    [done|].
  split_and!; try done.
  - rewrite length_take. simpl. lia.
  - rewrite length_take. lia.
  - intros c' rest' [= <- _]. by apply strip_head in Hstrip.
  - exists k, pre, post. split; [by apply list_elem_of_In|done].
  - exists headings, h. by rewrite Hstrip.
Qed.

Lemma scraped_fold (faqs : list Faq) (ps rs : list str) :
  fold_left (fun '(ps, rs) faq =>
               (ps ++ variations (question faq), rs ++ [answer faq]))
            faqs (ps, rs)
  = (ps ++ concat (map (fun faq => variations (question faq)) faqs),
     rs ++ map answer faqs).
Proof.
  revert ps rs. induction faqs as [|faq faqs IH]; intros ps rs; simpl.
  - by rewrite !app_nil_r.
  - rewrite IH. by rewrite <- !app_assoc.
Qed.

Lemma scraped_intent_fields (faqs : list Faq) :
  tag (scraped_intent faqs) = lit "scraped_faqs" /\
  responses (scraped_intent faqs) = map answer faqs.
Proof. unfold scraped_intent. rewrite scraped_fold. done. Qed.

(** The intent built from the scraped records carries the tag
    [scraped_faqs]; its responses are the answers, one per record and in
    order; its patterns are the variations of the questions, each once. *)
Theorem scraped_intent_shape (faqs : list Faq) :
  tag (scraped_intent faqs) = lit "scraped_faqs" /\
  responses (scraped_intent faqs) = map answer faqs /\
  NoDup (patterns (scraped_intent faqs)) /\
  (forall p, p ∈ patterns (scraped_intent faqs) <->
             exists faq, faq ∈ faqs /\ p ∈ variations (question faq)) /\
  length (patterns (scraped_intent faqs)) <= 5 * length faqs.
Proof.
  unfold scraped_intent. rewrite scraped_fold. simpl.
  set (all := concat (map (fun faq => variations (question faq)) faqs)).
  assert (Helem : forall p, p ∈ all <->
            exists faq, faq ∈ faqs /\ p ∈ variations (question faq)).
  { intros p. unfold all. rewrite elem_of_concat. split.
    - intros (l & Hl & Hp).
      apply list_elem_of_In, in_map_iff in Hl as (faq & <- & Hfaq).
      exists faq. by rewrite list_elem_of_In.
    - intros (faq & Hfaq & Hp). exists (variations (question faq)).
      split; [|done]. apply list_elem_of_In, in_map_iff.
      exists faq. split; [done|]. by apply list_elem_of_In. }
  split_and!; try done.
  - apply list_of_set_NoDup.
  - intros p. by rewrite list_of_set_elem.
  - assert (Hsub : list_of_set all ⊆+ all).
    { apply NoDup_submseteq; [apply list_of_set_NoDup|].
      intros p. by rewrite list_of_set_elem. }
    apply submseteq_length in Hsub. etrans; [exact Hsub|].
    unfold all. clear. induction faqs as [|faq faqs IH]; [simpl; lia|].
    cbn [map concat length]. rewrite length_app.
    change (length (variations (question faq))) with 5. lia.
Qed.


(** Once merged, the scraped answers are what the chatbot serves for the
    tag [scraped_faqs], also when the intents already had an intent of that
    tag (from an earlier merge, say), whose responses are then no longer
    served; the entries of all other tags are as before. *)
Theorem scraped_responses_served (intents : list Intent) (faqs : list Faq) :
  App.response_mapping (intents ++ [scraped_intent faqs])
    !! lit "scraped_faqs" = Some (map answer faqs) /\
  (forall t, t <> lit "scraped_faqs" ->
     App.response_mapping (intents ++ [scraped_intent faqs]) !! t
     = App.response_mapping intents !! t).
Proof.
  destruct (scraped_intent_fields faqs) as (Htag & Hresp).
  rewrite response_mapping_snoc, Htag, Hresp. split.
  - by rewrite lookup_insert_eq.
  - intros t Ht. by rewrite lookup_insert_ne.
Qed.

End ScraperPages.

(** ** The further properties on the examples *)

Section FurtherExamples.
Import Fixtures.

Lemma chat_reply_witness :
  exists reply w',
    App.chat demo_bot {[ lit "message" := lit "  Hello " ]} demo_world
      = (Ok reply, w') /\
    App.success reply = Some true /\
    App.get_response demo_bot (lit "Hello") demo_world
      = (Ok (App.response reply), w').
Proof.
  destruct (chat_reply demo_bot {[ lit "message" := lit "  Hello " ]} demo_world)
    as (reply & w' & Hchat & _ & Hsome).
  destruct Hsome as [Hs Hg]; [vm_compute; discriminate|].
  exists reply, w'. split; [exact Hchat|]. split; [exact Hs|exact Hg].
Defined.

Lemma empty_response_list_trouble_witness :
  exists w2,
    App.get_response silent_bot (lit "Hello") demo_world
      = (Ok App.having_trouble, w2).
Proof.
  eapply (empty_response_list_trouble silent_bot (lit "Hello") demo_world).
  - vm_compute. reflexivity.
  - vm_compute. reflexivity.
  - by vm_compute.
  - vm_compute. reflexivity.
Defined.


(** The training run on the small corpus. *)
Lemma demo_training_run :
  exists self' acc w',
    Train.train (Train.init (lit "intents.json")) corpus_world
      = (Ok (self', acc), w').
Proof. eexists _, _, _. vm_compute. reflexivity. Qed.

(** With a directory in the place of the label encoder file the run
    raises after it has written the vectorizer file; the intents file is as
    it was. *)
Lemma train_failure_partial_write_witness :
  exists w' vec,
    Train.train (Train.init (lit "intents.json")) blocked_world
      = (Raise IsADirectoryError, w') /\
    files blocked_world !! lit "models/tfidf_vectorizer.pkl" = None /\
    files w' !! lit "models/tfidf_vectorizer.pkl"
      = Some (PickledVectorizer vec) /\
    files w' !! lit "intents.json" = files blocked_world !! lit "intents.json".
Proof.
  assert (Hrun : Train.train (Train.init (lit "intents.json")) blocked_world
                 = (Raise IsADirectoryError, _)) by (vm_compute; reflexivity).
  eexists _, _. split; [exact Hrun|].
  split; [vm_compute; reflexivity|]. split; [vm_compute; reflexivity|].
  apply (proj1 (train_failure_partial_write _ _ _ _ Hrun));
    vm_compute; discriminate.
Defined.

Lemma train_writes_only_models_witness :
  exists self' acc w',
    Train.train (Train.init (lit "intents.json")) corpus_world
      = (Ok (self', acc), w') /\
    files w' !! lit "intents.json" = files corpus_world !! lit "intents.json".
Proof.
  destruct demo_training_run as (self' & acc & w' & Hrun).
  exists self', acc, w'. split; [exact Hrun|].
  apply (train_writes_only_models _ _ _ _ _ _ Hrun); vm_compute; discriminate.
Defined.

Lemma train_then_init_witness :
  exists self' acc w' bot,
    Train.train (Train.init (lit "intents.json")) corpus_world
      = (Ok (self', acc), w') /\
    App.init w' = (Ok bot, w') /\
    App.vectorizer bot = Train.vectorizer self' /\
    App.classifier bot = Train.classifier self'.
Proof.
  destruct demo_training_run as (self' & acc & w' & Hrun).
  exists self', acc, w'. eexists. split; [exact Hrun|].
  split; [apply (train_then_init _ _ _ _ _ demo_intents Hrun);
          vm_compute; reflexivity|].
  split; reflexivity.
Defined.

Lemma init_missing_file_witness :
  exists e, App.init demo_world = (Raise e, demo_world).
Proof.
  apply (init_missing_file demo_world (lit "models/label_encoder.pkl")).
  - apply list_elem_of_further, list_elem_of_further, list_elem_of_here.
  - vm_compute. reflexivity.
Defined.

Lemma train_without_tokens_witness :
  Train.train (Train.init (lit "intents.json")) tokenless_world
  = (Raise ValueError, tokenless_world).
Proof.
  eapply train_without_tokens; [vm_compute; reflexivity|].
  intros intent pattern Hi Hp.
  apply list_elem_of_In in Hi. destruct Hi as [<-|[]].
  apply list_elem_of_In in Hp. destruct Hp as [<-|[<-|[]]];
    vm_compute; reflexivity.
Defined.

Lemma train_single_tag_witness :
  exists w',
    Train.train (Train.init (lit "intents.json")) single_tag_world
      = (Raise ValueError, w') /\
    files w' = files single_tag_world.
Proof.
  eapply (train_single_tag _ _ _ (lit "greeting"));
    [vm_compute; reflexivity|].
  intros intent Hi. apply list_elem_of_In in Hi. by destruct Hi as [<-|[]].
Defined.

Lemma trained_bundle_in_lockstep_witness :
  exists self' acc w' vocabulary idfs clf,
    Train.train (Train.init (lit "intents.json")) corpus_world
      = (Ok (self', acc), w') /\
    fitted (Train.vectorizer self') = Some (vocabulary, idfs) /\
    Train.classifier self' = Some clf /\
    n_features_in_ clf = length vocabulary.
Proof.
  destruct demo_training_run as (self' & acc & w' & Hrun).
  destruct (trained_bundle_in_lockstep _ _ _ _ _ demo_intents Hrun)
    as (vocabulary & idfs & clf & Hv & _ & Hc & Hn & _);
    [vm_compute; reflexivity|].
  exists self', acc, w', vocabulary, idfs, clf.
  split; [exact Hrun|]. split; [exact Hv|]. split; [exact Hc|exact Hn].
Defined.

Lemma train_accuracy_bounds_witness :
  exists self' acc w',
    Train.train (Train.init (lit "intents.json")) corpus_world
      = (Ok (self', acc), w') /\
    (0 <= acc <= 1)%Q.
Proof.
  destruct demo_training_run as (self' & acc & w' & Hrun).
  exists self', acc, w'. split; [exact Hrun|].
  exact (train_accuracy_bounds _ _ _ _ _ Hrun).
Defined.

Lemma collect_paragraphs_witness :
  Scraper.collect []
    ([ {| Scraper.name := lit "p"; Scraper.text := lit "One." |};
       {| Scraper.name := lit "div"; Scraper.text := lit "banner" |} ]
     ++ [ {| Scraper.name := lit "h2"; Scraper.text := lit "Other" |};
          {| Scraper.name := lit "p"; Scraper.text := lit "Two." |} ])
  = lit "One. ".
Proof.
  etrans; [apply collect_paragraphs|].
  - repeat constructor; vm_compute; intros Hin;
      repeat (apply elem_of_cons in Hin as [Hin|Hin]; [discriminate|]);
      by apply elem_of_nil in Hin.
  - right. eexists _, _. split; [reflexivity|].
    apply list_elem_of_further, list_elem_of_here.
  - vm_compute. reflexivity.
Defined.

Lemma scrape_page_faqs_witness :
  exists faq,
    faq ∈ Scraper.scrape_page Scraper.base_url (lit "/fees-structure")
            [lit "fee"; lit "payment"] /\
    Scraper.source faq = lit "/fees-structure" /\
    0 < length (Scraper.answer faq) <= 300.
Proof.
  assert (Hin : {| Scraper.question := lit "Tuition Fees?";
                   Scraper.answer :=
                     lit "Fees are paid per semester. See the finance office.";
                   Scraper.source := lit "/fees-structure" |}
                ∈ Scraper.scrape_page Scraper.base_url (lit "/fees-structure")
                    [lit "fee"; lit "payment"])
    by (vm_compute; apply list_elem_of_here).
  eexists. split; [exact Hin|].
  destruct (scrape_page_faqs _ _ _ _ Hin) as (Hs & Hl & _).
  split; [exact Hs|exact Hl].
Defined.


Lemma scraped_responses_served_witness :
  App.response_mapping (demo_intents ++ [Scraper.scraped_intent Scraper.scraped])
    !! lit "fees"
  = App.response_mapping demo_intents !! lit "fees".
Proof.
  apply (proj2 (scraped_responses_served demo_intents Scraper.scraped)).
  vm_compute. discriminate.
Defined.

End FurtherExamples.

Section Untrained.
Context `{Unicode} `{Libm} `{NumpyRandom} `{Solver}.

(** Saving before training: in a state where nothing stands in its way,
    [save_model] on a new [SimpleIntentClassifier] writes an unfitted
    vectorizer and no classifier.  The chatbot starts from these files, and
    then answers every non-blank question with the "having trouble"
    message. *)
Theorem untrained_model_always_trouble (file_name : str) (w : World) intents :
  files w !! lit "intents.json" = Some (IntentsJson intents) ->
  Train.savable w = true ->
  exists w' bot,
    Train.save_model (Train.init file_name) w = (Ok (), w') /\
    App.init w' = (Ok bot, w') /\
    forall q w1,
      not_ (strip q) = false ->
      exists w2, App.get_response bot q w1 = (Ok App.having_trouble, w2).
Proof.
  intros Hintents Hfree.
  destruct (save_model_writes (Train.init file_name) w Hfree)
    as (w' & Hsave & Hfiles & _).
  destruct model_paths_distinct as (H12 & H13 & H23).
  assert (Hi : files w' !! lit "intents.json" = Some (IntentsJson intents)).
  { rewrite Hfiles. rewrite !lookup_insert_ne by (vm_compute; discriminate).
    done. }
  assert (Hf1 : files w' !! lit "models/tfidf_vectorizer.pkl"
                = Some (PickledVectorizer
                          (Train.vectorizer (Train.init file_name)))).
  { rewrite Hfiles.
    change (lit "models/tfidf_vectorizer.pkl")
      with (lit "models" ++ lit "/" ++ lit "tfidf_vectorizer.pkl").
    rewrite lookup_insert_ne by done. rewrite lookup_insert_ne by done.
    by rewrite lookup_insert_eq. }
  assert (Hf2 : files w' !! lit "models/label_encoder.pkl"
                = Some (PickledLabelEncoder
                          (Train.label_encoder (Train.init file_name)))).
  { rewrite Hfiles.
    change (lit "models/label_encoder.pkl")
      with (lit "models" ++ lit "/" ++ lit "label_encoder.pkl").
    rewrite lookup_insert_ne by done. by rewrite lookup_insert_eq. }
  assert (Hf3 : files w' !! lit "models/intent_classifier.joblib"
                = Some (JoblibClassifier
                          (Train.classifier (Train.init file_name)))).
  { rewrite Hfiles.
    change (lit "models/intent_classifier.joblib")
      with (lit "models" ++ lit "/" ++ lit "intent_classifier.joblib").
    by rewrite lookup_insert_eq. }
  exists w'. eexists. split; [exact Hsave|]. split.
  - unfold App.init, bind, read_file, ret. rewrite Hi, Hf1, Hf2, Hf3.
    reflexivity.
  - intros q w1 Hq. rewrite (get_response_steps _ _ _ Hq).
    unfold try_except, bind at 1, Train.predict, bind, call, lift, log.
    simpl. eauto.
Qed.

End Untrained.

Section UntrainedExample.
Import Fixtures.

Lemma untrained_model_always_trouble_witness :
  exists w' bot w2,
    Train.save_model (Train.init (lit "intents.json")) corpus_world
      = (Ok (), w') /\
    App.init w' = (Ok bot, w') /\
    App.get_response bot (lit "Hello") w' = (Ok App.having_trouble, w2).
Proof.
  destruct (untrained_model_always_trouble (lit "intents.json") corpus_world
              demo_intents) as (w' & bot & Hsave & Hinit & Hall);
    [vm_compute; reflexivity|vm_compute; reflexivity|].
  destruct (Hall (lit "Hello") w') as [w2 Hget]; [vm_compute; reflexivity|].
  exists w', bot, w2. split; [exact Hsave|]. split; [exact Hinit|exact Hget].
Defined.

End UntrainedExample.
